(** * go-akamai-ccu: the CCU v2 and v3 purge clients

    A shallow embedding of [v2/client.go] and [v3/client.go].  Both clients
    have the same shape: build an HTTP request, hand it to the injected
    transport, decode the JSON reply into a response struct, and classify
    the embedded [Response] by its status code.

    Conventions of the embedding.
    - A Go function returning a pointer and an [error] returns a pair of
      options here, [None] standing for [nil]; nothing in the types forces
      the two components to be exclusive.
    - Objects reached through pointers that a call may write to (the
      caller's [*PurgeRequest], the v3 [*Client]) live in a [Store] that is
      threaded through the call, together with a trace of the observable
      effects (requests handed to the transport, bodies given to the JSON
      decoder, bodies closed).
    - [int] is the 64-bit [int] of amd64/arm64; [time.Duration] is [int64]
      with wrap-around.
    - A call that panics returns nothing: its pair is [(None, None)] and
      its trace ends with the panic.  A [context.Context] argument is an
      option, [None] standing for the nil context.
    - A Go string is a sequence of bytes; the JSON encoder writes U+FFFD for
      bytes that are not UTF-8 ([Utf8.coerce]).
    - The transport, [encoding/json], [net/http], [edgegrid] and the wall
      clock are not code of this repository; they appear as fields of the
      client or as section variables.  A request is recorded by the
      arguments it was built from; where the libraries send it is read off
      the URL string or the path by [V2.request_path] and [V3.request_path],
      for the strings those cover. *)

From Stdlib Require Import String Ascii List ZArith Lia Bool.
Import ListNotations.
Open Scope string_scope.
Open Scope Z_scope.

Set Warnings "-register-all".

(** ** Go values *)

Module Go.

(** A slice: [None] is the nil slice, [Some l] a slice with elements [l]. *)
Definition slice (A : Type) := option (list A).

(** Two's-complement reduction of an integer to [int64]. *)
Definition wrap64 (z : Z) : Z := (z + 2 ^ 63) mod 2 ^ 64 - 2 ^ 63.

Definition minInt64 : Z := - 2 ^ 63.
Definition maxInt64 : Z := 2 ^ 63 - 1.

(** [a * b] on [int64]. *)
Definition mul64 (a b : Z) : Z := wrap64 (a * b).

(** [a + b] on [int64]. *)
Definition add64 (a b : Z) : Z := wrap64 (a + b).

(** An opaque, non-nil [context.Context]. *)
Inductive Context := Ctx (id : nat).

End Go.

(** ** UTF-8 as [encoding/json] reads a Go string

    A Go string is a sequence of bytes.  The JSON encoder walks it rune by
    rune with [utf8.DecodeRuneInString] and writes U+FFFD in place of every
    byte that does not start a well-formed encoding. *)

Module Utf8.

Definition byte (c : ascii) : N := N_of_ascii c.

Definition between (lo hi : N) (c : ascii) : bool :=
  ((lo <=? byte c) && (byte c <=? hi))%N.

(** A continuation byte, 0x80..0xBF. *)
Definition continuation : ascii -> bool := between 128 191.

(** The width of the rune at the head of [s]; 0 stands for [RuneError] with
    width 1, that is a byte that starts no well-formed encoding (a stray
    continuation byte, 0xC0, 0xC1, 0xF5..0xFF, an overlong or surrogate
    form, a code point above U+10FFFF, or an encoding cut short). *)
Definition rune_width (s : string) : nat :=
  match s with
  | EmptyString => 0
  | String b0 r0 =>
      let x := byte b0 in
      if (x <? 128)%N then 1
      else if (x <? 194)%N then 0
      else if (x <? 224)%N then
        match r0 with
        | String b1 _ => if continuation b1 then 2 else 0
        | _ => 0
        end
      else if (x <? 240)%N then
        match r0 with
        | String b1 (String b2 _) =>
            if between (if (x =? 224)%N then 160 else 128)
                       (if (x =? 237)%N then 159 else 191) b1
               && continuation b2
            then 3 else 0
        | _ => 0
        end
      else if (x <? 245)%N then
        match r0 with
        | String b1 (String b2 (String b3 _)) =>
            if between (if (x =? 240)%N then 144 else 128)
                       (if (x =? 244)%N then 143 else 191) b1
               && continuation b2 && continuation b3
            then 4 else 0
        | _ => 0
        end
      else 0
  end.

(** U+FFFD, the replacement character: bytes EF BF BD. *)
Definition replacement : string :=
  String (ascii_of_N 239) (String (ascii_of_N 191) (String (ascii_of_N 189) "")).

(** [pending] bytes of a rune already accepted are copied; then the next
    rune is examined. *)
Fixpoint coerce_from (pending : nat) (s : string) : string :=
  match s with
  | EmptyString => EmptyString
  | String b rest =>
      match pending with
      | S k => String b (coerce_from k rest)
      | O =>
          match rune_width s with
          | O => replacement ++ coerce_from 0 rest
          | S k => String b (coerce_from k rest)
          end
      end
  end.

(** The string value the JSON encoder writes for the Go string [s]. *)
Definition coerce (s : string) : string := coerce_from 0 s.

Fixpoint valid_from (pending : nat) (s : string) : bool :=
  match s with
  | EmptyString => true
  | String b rest =>
      match pending with
      | S k => valid_from k rest
      | O =>
          match rune_width s with
          | O => false
          | S k => valid_from k rest
          end
      end
  end.

(** [utf8.ValidString] *)
Definition valid (s : string) : bool := valid_from 0 s.

End Utf8.

(** ** JSON documents written by the request encoder

    A document is kept as the value it denotes, not as its text: [Str s] is
    the JSON string whose characters are the bytes [s] in UTF-8, however the
    encoder escapes them. *)

Module Json.

Inductive value :=
| Null
| Str (s : string)
| Arr (l : list value)
| Obj (fields : list (string * value)).

(** A Go string as a JSON string: invalid UTF-8 is replaced on the way. *)
Definition string_value (s : string) : value := Str (Utf8.coerce s).

(** A field tagged [omitempty] is left out when it is the empty string. *)
Definition omitempty (key s : string) : list (string * value) :=
  if (s =? "")%string then [] else [(key, string_value s)].

(** A [[]string]: [null] for the nil slice, an array otherwise. *)
Definition strings (l : Go.slice string) : value :=
  match l with
  | None => Null
  | Some xs => Arr (map string_value xs)
  end.

(** Looking a key up in an object. *)
Fixpoint assoc (key : string) (fields : list (string * value)) : option value :=
  match fields with
  | [] => None
  | (k, v) :: rest => if (k =? key)%string then Some v else assoc key rest
  end.

Definition field (key : string) (v : value) : option value :=
  match v with
  | Obj fields => assoc key fields
  | _ => None
  end.

End Json.

(** ** The wall-clock instant of a [time.Time]

    Seconds since January 1, year 1 00:00:00 UTC and nanoseconds within the
    second.  The monotonic reading and the location of a [time.Time] play no
    part in [IsZero] or in the instant [Add] returns and are left out. *)

Module Time.

Record t := mk { sec : Z; nsec : Z }.

(** [time.Time{}] *)
Definition zero : t := mk 0 0.

Definition IsZero (x : t) : bool := (sec x =? 0) && (nsec x =? 0).

(** A [time.Duration] is an [int64] count of nanoseconds. *)
Definition Duration := Z.
Definition Second : Duration := 1000000000.

(** The seconds of an instant move by [d], saturating at the ends of
    [int64] (the standard library's [addSec]). *)
Definition addSec (s d : Z) : Z :=
  let sum := Go.add64 s d in
  if Bool.eqb (s <? sum) (0 <? d) then sum
  else if 0 <? d then Go.maxInt64 else - Go.maxInt64.

(** [t.Add(d)]: [/] and [%] are Go's truncated division. *)
Definition Add (x : t) (d : Duration) : t :=
  let dsec := Z.quot d 1000000000 in
  let n := nsec x + Z.rem d 1000000000 in
  if 1000000000 <=? n then mk (addSec (sec x) (dsec + 1)) (n - 1000000000)
  else if n <? 0 then mk (addSec (sec x) (dsec - 1)) (n + 1000000000)
  else mk (addSec (sec x) dsec) n.

(** The instant [s] whole seconds after [x]. *)
Definition plus_seconds (x : t) (s : Z) : t := mk (sec x + s) (nsec x).

(** Well-formed instants: what the [time] package can produce. *)
Definition wf (x : t) : Prop :=
  Go.minInt64 <= sec x <= Go.maxInt64 /\ 0 <= nsec x < 1000000000.

End Time.

(** ** A state monad for the store *)

Definition M (S A : Type) : Type := S -> A * S.

Definition ret {S A} (a : A) : M S A := fun s => (a, s).

Definition bind {S A B} (m : M S A) (k : A -> M S B) : M S B :=
  fun s => let (a, s') := m s in k a s'.

Notation "x <- m ;; k" := (bind m (fun x => k))
  (at level 61, m at next level, right associativity).
Notation "m ;;; k" := (bind m (fun _ => k))
  (at level 61, right associativity).

Definition result {S A} (m : M S A) (s : S) : A := fst (m s).
Definition final {S A} (m : M S A) (s : S) : S := snd (m s).

(** ** URL strings as [net/url] reads them

    [url.Parse] takes what follows the first [#] as the fragment and, before
    it, what follows the first [?] as the query; what is left is scheme,
    authority and path.  Only strings of letters, digits, [-], [_], [=],
    [/], [?] and [#] are covered: no escape, colon or dot segment. *)

Module Url.

Definition alnum (c : ascii) : bool :=
  let n := N_of_ascii c in
  (((48 <=? n) && (n <=? 57)) || ((65 <=? n) && (n <=? 90))
   || ((97 <=? n) && (n <=? 122)))%N.

Definition segment_char (c : ascii) : bool :=
  alnum c || (c =? "-")%char || (c =? "_")%char.

Definition delimiter (c : ascii) : bool := (c =? "?")%char || (c =? "#")%char.

Definition reference_char (c : ascii) : bool :=
  segment_char c || (c =? "/")%char || (c =? "=")%char || delimiter c.

Fixpoint all_chars (p : ascii -> bool) (s : string) : bool :=
  match s with
  | EmptyString => true
  | String c rest => p c && all_chars p rest
  end.

(** The part of [s] before its first [?] or [#]. *)
Fixpoint before_delimiter (s : string) : string :=
  match s with
  | EmptyString => EmptyString
  | String c rest =>
      if delimiter c then EmptyString else String c (before_delimiter rest)
  end.

(** A value made of letters, digits, [-] and [_] only. *)
Definition plain (s : string) : bool := all_chars segment_char s.

(** [strings.CutPrefix] *)
Fixpoint strip_prefix (p s : string) : option string :=
  match p, s with
  | EmptyString, _ => Some s
  | String a p', String b s' =>
      if (a =? b)%char then strip_prefix p' s' else None
  | String _ _, EmptyString => None
  end.

End Url.

(** ** The v2 client ([package ccu], Cache Control Utility API V2) *)

Module V2.

Definition apiURL : string := "https://api.ccu.akamai.com".

(** *** Data *)

Record Response := mkResponse {
  SupportID : string;
  StatusCode : Z;
  Title : string;
  Detail : string;
  DescribedBy : string;
  RawResponse : string
}.

Definition zeroResponse : Response := mkResponse "" 0 "" "" "" "".

Record QueueLengthResponse := mkQueueLengthResponse {
  ql_Response : Response;
  QueueLength : Z
}.

Record PurgeRequest := mkPurgeRequest {
  Queue : string;
  Type_ : string;
  Action : string;
  Domain : string;
  Objects : Go.slice string
}.

Record PurgeResponse := mkPurgeResponse {
  pr_Response : Response;
  EstimatedSeconds : Z;
  PurgeID : string;
  ProgressURI : string;
  PingAfterSeconds : Z;
  Time : Time.t
}.

Record PurgeStatusResponse := mkPurgeStatusResponse {
  ps_Response : Response;
  OriginalEstimatedSeconds : Z;
  OriginalQueueLength : Z;
  ps_PurgeID : string;
  CompletionTime : string;
  SubmittedBy : string;
  PurgeStatus : string;
  SubmissionTime : string
}.

(** A Go [error] as this package produces it: the text of a [fmt.Errorf],
    or a [*Response] used as the error value. *)
Inductive error :=
| Errorf (msg : string)
| ApiError (r : Response).

(** An [*http.Request], identified by what it was made from: the method,
    the URL string and the body given to [http.NewRequest], and what
    [newHTTPRequest] sets afterwards.  [http.NewRequest] parses the URL
    string; the parsed URL is not modelled, so [RawURL] is the argument, not
    the address the request ends up at. *)
Record HTTPRequest := mkHTTPRequest {
  Method : string;
  RawURL : string;
  Body : option Json.value;
  Header : list (string * string);
  BasicAuth : option (string * string);
  Context : option Go.Context
}.

(** An [*http.Response]: the status line's code and the raw body. *)
Record HTTPResponse := mkHTTPResponse {
  resp_StatusCode : Z;
  resp_Body : string
}.

(** The client.  [HTTPClient.Do] either fails with an error text or
    returns a reply.  The [Logger] field is never read and is left out. *)
Record Client := mkClient {
  HTTPClient : HTTPRequest -> string + HTTPResponse;
  Username : string;
  Password : string
}.

(** What a call can be observed to do.  A panic ends the call: nothing
    follows [EvPanic] in the trace of that call. *)
Inductive Event :=
| EvSend (r : HTTPRequest)
| EvDecode (body : string)
| EvClose (body : string)
| EvPanic (msg : string).

(** The memory a call runs in: the caller's [*PurgeRequest] and the trace
    of effects so far. *)
Record Store := mkStore {
  request : PurgeRequest;
  trace : list Event
}.

Definition emit (e : Event) : M Store unit :=
  fun s => (tt, mkStore (request s) (trace s ++ [e])).

(** How building a request can fail: by returning an error, or by a panic. *)
Inductive failure :=
| Returns (err : error)
| Panics (msg : string).

(** The end of a call that does not go on.  A call that panics returns
    nothing: its pair is [(None, None)], which no returning path produces,
    and its trace ends with [EvPanic]. *)
Definition fail {T} (f : failure) : M Store (option T * option error) :=
  match f with
  | Returns err => ret (None, Some err)
  | Panics msg => emit (EvPanic msg) ;;; ret (None, None)
  end.

Definition load_request : M Store PurgeRequest :=
  fun s => (request s, s).

(** [json.Encoder.Encode] and [json.Decoder.Decode] at a given type.  A
    decoder writes into the value it is given and returns the error, if
    any. *)
Definition Encoder (T : Type) := T -> string + Json.value.
Definition Decoder (T : Type) := string -> T -> T * option string.

(** *** Response *)

Definition Error (e : Response) : string :=
  if (Title e =? "")%string then "unknown"
  else if (Detail e =? "")%string then Title e
  else Title e ++ ": " ++ Detail e.

Definition assertError (r : Response) : option error :=
  if (StatusCode r <? 200) || (StatusCode r >? 299) then Some (ApiError r)
  else None.

(** The text of an error value. *)
Definition error_text (e : error) : string :=
  match e with
  | Errorf msg => msg
  | ApiError r => Error r
  end.

(** *** Requests *)

(** The struct tags of [PurgeRequest]: [Queue] is never written, [Type],
    [Action] and [Domain] are [omitempty]. *)
Definition encodePurgeRequest : Encoder PurgeRequest :=
  fun r => inr (Json.Obj (Json.omitempty "type" (Type_ r)
                          ++ Json.omitempty "action" (Action r)
                          ++ Json.omitempty "domain" (Domain r)
                          ++ [("objects", Json.strings (Objects r))])).

(** The payload of a call that sends none ([v == nil]). *)
Definition no_payload : option unit := None.
Definition encodeUnit : Encoder unit := fun _ => inr Json.Null.

Definition NewPurgeRequest (objects : Go.slice string) : PurgeRequest :=
  mkPurgeRequest "" "arl" "remove" "production" objects.

Definition IsDone (p : PurgeStatusResponse) : bool :=
  (PurgeStatus p =? "Done")%string.

(** [p.Time = t] *)
Definition set_Time (p : PurgeResponse) (t : Time.t) : PurgeResponse :=
  mkPurgeResponse (pr_Response p) (EstimatedSeconds p) (PurgeID p)
    (ProgressURI p) (PingAfterSeconds p) t.

Definition ETA (p : PurgeResponse) : Time.t :=
  if Time.IsZero (Time p) then Time.zero
  else Time.Add (Time p) (Go.mul64 Time.Second (EstimatedSeconds p)).

Section Client.

(** [http.NewRequest] rejects some methods and URLs. *)
Variable http_NewRequest_err : string -> string -> option string.

(** The JSON decoders of the three response types. *)
Variable decodeQueueLengthResponse : Decoder QueueLengthResponse.
Variable decodePurgeResponse : Decoder PurgeResponse.
Variable decodePurgeStatusResponse : Decoder PurgeStatusResponse.

(** The reading [time.Now()] returns. *)
Variable time_Now : Time.t.

(** [newHTTPRequest] returns [(nil, err)] or [(hreq, nil)], or panics:
    its last step is [hreq.WithContext(ctx)], which panics on a nil
    context. *)
Definition newHTTPRequest {T} (enc : Encoder T) (c : Client)
    (method url : string) (v : option T) (ctx : option Go.Context)
  : failure + HTTPRequest :=
  let body :=
    match v with
    | None => inr None
    | Some x =>
        match enc x with
        | inl err =>
            inl (Returns (Errorf ("error encoding request as JSON: " ++ err)))
        | inr b => inr (Some b)
        end
    end in
  match body with
  | inl e => inl e
  | inr body =>
      match http_NewRequest_err method url with
      | Some err =>
          inl (Returns (Errorf ("error creating HTTP request: " ++ err)))
      | None =>
          let header :=
            match body with
            | Some _ => [("Content-Type", "application/json")]
            | None => []
            end in
          match ctx with
          | Some ctx =>
              inr (mkHTTPRequest method url body header
                     (Some (Username c, Password c)) (Some ctx))
          | None => inl (Panics "nil context")
          end
      end
  end.

(** [do]: the first component is the target [v] after the call. *)
Definition do {T} (dec : Decoder T) (c : Client) (req : HTTPRequest)
    (v : option T)
  : M Store (option T * (option HTTPResponse * option error)) :=
  emit (EvSend req) ;;;
  match HTTPClient c req with
  | inl err =>
      ret (v, (None, Some (Errorf ("error sending HTTP request: " ++ err))))
  | inr resp =>
      if resp_StatusCode resp =? 401 then
        emit (EvClose (resp_Body resp)) ;;;
        ret (v, (None, Some (Errorf "unauthorized")))
      else
        match v with
        | Some x =>
            emit (EvDecode (resp_Body resp)) ;;;
            let (x', err) := dec (resp_Body resp) x in
            match err with
            | Some err =>
                emit (EvClose (resp_Body resp)) ;;;
                ret (Some x', (None, Some (Errorf ("error decoding JSON response: " ++ err))))
            | None =>
                emit (EvClose (resp_Body resp)) ;;;
                ret (Some x', (Some resp, None))
            end
        | None =>
            emit (EvClose (resp_Body resp)) ;;;
            ret (v, (Some resp, None))
        end
  end.

Definition zeroQueueLengthResponse : QueueLengthResponse :=
  mkQueueLengthResponse zeroResponse 0.
Definition zeroPurgeResponse : PurgeResponse :=
  mkPurgeResponse zeroResponse 0 "" "" 0 Time.zero.
Definition zeroPurgeStatusResponse : PurgeStatusResponse :=
  mkPurgeStatusResponse zeroResponse 0 0 "" "" "" "" "".

(** After [do] the target is still the pointer it was given. *)
Definition target {T} (zero : T) (v : option T) : T :=
  match v with Some x => x | None => zero end.

Definition GetQueueLength (c : Client) (ctx : option Go.Context)
  : M Store (option QueueLengthResponse * option error) :=
  let url := apiURL ++ "/ccu/v2/queues/default" in
  match newHTTPRequest encodeUnit c "GET" url no_payload ctx with
  | inl f => fail f
  | inr hreq =>
      r <- do decodeQueueLengthResponse c hreq (Some zeroQueueLengthResponse) ;;
      let v := target zeroQueueLengthResponse (fst r) in
      match snd (snd r) with
      | Some err => ret (None, Some err)
      | None =>
          match assertError (ql_Response v) with
          | Some err => ret (None, Some err)
          | None => ret (Some v, None)
          end
      end
  end.

Definition Purge (c : Client) (ctx : option Go.Context)
  : M Store (option PurgeResponse * option error) :=
  req <- load_request ;;
  let q := if (Queue req =? "")%string then "default" else Queue req in
  let url := apiURL ++ "/ccu/v2/queues/" ++ q in
  match newHTTPRequest encodePurgeRequest c "POST" url (Some req) ctx with
  | inl f => fail f
  | inr hreq =>
      r <- do decodePurgeResponse c hreq (Some zeroPurgeResponse) ;;
      let v := target zeroPurgeResponse (fst r) in
      match snd (snd r) with
      | Some err => ret (None, Some err)
      | None =>
          let err := assertError (pr_Response v) in
          match err with
          | Some err => ret (None, Some err)
          | None =>
              let v := set_Time v time_Now in
              ret (Some v, err)
          end
      end
  end.

Definition GetPurgeStatus (c : Client) (purgeID : string)
    (ctx : option Go.Context)
  : M Store (option PurgeStatusResponse * option error) :=
  let url := apiURL ++ "/ccu/v2/purges/" ++ purgeID in
  match newHTTPRequest encodeUnit c "GET" url no_payload ctx with
  | inl f => fail f
  | inr req =>
      r <- do decodePurgeStatusResponse c req (Some zeroPurgeStatusResponse) ;;
      let v := target zeroPurgeStatusResponse (fst r) in
      match snd (snd r) with
      | Some err => ret (None, Some err)
      | None =>
          match assertError (ps_Response v) with
          | Some err => ret (None, Some err)
          | None => ret (Some v, None)
          end
      end
  end.

End Client.

(** *** The request each operation builds *)

Definition queue_length_request (http_err : string -> string -> option string)
    (c : Client) (ctx : option Go.Context) : failure + HTTPRequest :=
  newHTTPRequest http_err encodeUnit c "GET"
    (apiURL ++ "/ccu/v2/queues/default") no_payload ctx.

Definition purge_request (http_err : string -> string -> option string)
    (c : Client) (ctx : option Go.Context) (req : PurgeRequest)
  : failure + HTTPRequest :=
  newHTTPRequest http_err encodePurgeRequest c "POST"
    (apiURL ++ "/ccu/v2/queues/"
       ++ (if (Queue req =? "")%string then "default" else Queue req))
    (Some req) ctx.

Definition purge_status_request (http_err : string -> string -> option string)
    (c : Client) (purgeID : string) (ctx : option Go.Context)
  : failure + HTTPRequest :=
  newHTTPRequest http_err encodeUnit c "GET"
    (apiURL ++ "/ccu/v2/purges/" ++ purgeID) no_payload ctx.

(** *** Reading a trace *)

(** The requests handed to the transport, in order. *)
Fixpoint sent (tr : list Event) : list HTTPRequest :=
  match tr with
  | [] => []
  | EvSend r :: tr => r :: sent tr
  | _ :: tr => sent tr
  end.

(** The bodies given to the JSON decoder, in order. *)
Fixpoint decoded (tr : list Event) : list string :=
  match tr with
  | [] => []
  | EvDecode b :: tr => b :: decoded tr
  | _ :: tr => decoded tr
  end.

(** The bodies closed, in order. *)
Fixpoint closed (tr : list Event) : list string :=
  match tr with
  | [] => []
  | EvClose b :: tr => b :: closed tr
  | _ :: tr => closed tr
  end.

(** The panics, in order. *)
Fixpoint panics (tr : list Event) : list string :=
  match tr with
  | [] => []
  | EvPanic msg :: tr => msg :: panics tr
  | _ :: tr => panics tr
  end.

(** [req.Queue = q] *)
Definition set_Queue (r : PurgeRequest) (q : string) : PurgeRequest :=
  mkPurgeRequest q (Type_ r) (Action r) (Domain r) (Objects r).

(** The errors of the phases of a call: building the request, sending it,
    the 401 reply, decoding the reply, and the API's own verdict. *)
Definition known_error (err : error) : Prop :=
  (exists msg, err = Errorf ("error creating HTTP request: " ++ msg)) \/
  (exists msg, err = Errorf ("error sending HTTP request: " ++ msg)) \/
  err = Errorf "unauthorized" \/
  (exists msg, err = Errorf ("error decoding JSON response: " ++ msg)) \/
  (exists r, err = ApiError r /\ ~ 200 <= StatusCode r <= 299).

(** The same client behind another transport. *)
Definition with_transport (c : Client)
    (t : HTTPRequest -> string + HTTPResponse) : Client :=
  mkClient t (Username c) (Password c).

(** *** Where a request goes

    [http.NewRequest] parses the URL string it is given.  For [apiURL]
    followed by a slash and characters of [Url.reference_char], the request
    goes to the host of [apiURL] and its path is what follows [apiURL] up to
    the first [?] or [#].  Other strings are outside what is modelled
    ([None]). *)
Definition request_path (rawurl : string) : option string :=
  match Url.strip_prefix apiURL rawurl with
  | Some (String slash rest) =>
      if (slash =? "/")%char && Url.all_chars Url.reference_char rest
      then Some (Url.before_delimiter (String slash rest))
      else None
  | _ => None
  end.

End V2.

(** ** The v3 client ([package ccu], Cache Control Utility API V3) *)

Module V3.

(** *** Data *)

Record Response := mkResponse {
  SupportID : string;
  StatusCode : Z;
  Title : string;
  Detail : string;
  DescribedBy : string
}.

Definition zeroResponse : Response := mkResponse "" 0 "" "" "".

Record PurgeRequest := mkPurgeRequest {
  Type_ : string;
  Action : string;
  Network : string;
  Hostname : string;
  Objects : Go.slice string
}.

Record PurgeResponse := mkPurgeResponse {
  pr_Response : Response;
  EstimatedSeconds : Z;
  PurgeID : string
}.

Definition zeroPurgeResponse : PurgeResponse :=
  mkPurgeResponse zeroResponse 0 "".

Inductive error :=
| Errorf (msg : string)
| ApiError (r : Response).

(** An [edgegrid.Config]; only the edgegrid library reads inside it. *)
Inductive edgegrid_Config := Cfg (id : nat).

(** The [*http.Request] the edgegrid library builds, identified by what it
    was built from: the configuration, the method, the path and the payload
    given to [client.NewJSONRequest]; then whether the signature header was
    added, and the context.  The library resolves the path as a URL
    reference against the host of the configuration, so [PathArg] is the
    argument, not the path the request ends up at (see [request_path]). *)
Record HTTPRequest := mkHTTPRequest {
  rq_Config : edgegrid_Config;
  Method : string;
  PathArg : string;
  Body : option Json.value;
  Signed : bool;
  Context : option Go.Context
}.

Record HTTPResponse := mkHTTPResponse {
  resp_StatusCode : Z;
  resp_Body : string
}.

Record Client := mkClient {
  HTTPClient : HTTPRequest -> string + HTTPResponse;
  Config : option edgegrid_Config
}.

(** What a call can be observed to do.  A panic ends the call: nothing
    follows [EvPanic] in the trace of that call. *)
Inductive Event :=
| EvSend (r : HTTPRequest)
| EvDecode (body : string)
| EvClose (body : string)
| EvPanic (msg : string).

(** The memory a call runs in: the [*Client], the caller's
    [*PurgeRequest], and the trace of effects so far. *)
Record Store := mkStore {
  client : Client;
  request : PurgeRequest;
  trace : list Event
}.

Definition emit (e : Event) : M Store unit :=
  fun s => (tt, mkStore (client s) (request s) (trace s ++ [e])).

(** How building a request can fail: by returning an error, or by a panic. *)
Inductive failure :=
| Returns (err : error)
| Panics (msg : string).

(** The end of a call that does not go on.  A call that panics returns
    nothing: its pair is [(None, None)], which no returning path produces,
    and its trace ends with [EvPanic]. *)
Definition fail {T} (f : failure) : M Store (option T * option error) :=
  match f with
  | Returns err => ret (None, Some err)
  | Panics msg => emit (EvPanic msg) ;;; ret (None, None)
  end.

Definition load_client : M Store Client := fun s => (client s, s).
Definition load_request : M Store PurgeRequest := fun s => (request s, s).

Definition store_Config (cfg : edgegrid_Config) : M Store unit :=
  fun s => (tt, mkStore (mkClient (HTTPClient (client s)) (Some cfg))
                  (request s) (trace s)).

Definition store_Action (a : string) : M Store unit :=
  fun s => let r := request s in
    (tt, mkStore (client s)
           (mkPurgeRequest (Type_ r) a (Network r) (Hostname r) (Objects r))
           (trace s)).

Definition store_Network (n : string) : M Store unit :=
  fun s => let r := request s in
    (tt, mkStore (client s)
           (mkPurgeRequest (Type_ r) (Action r) n (Hostname r) (Objects r))
           (trace s)).

Definition store_Type (t : string) : M Store unit :=
  fun s => let r := request s in
    (tt, mkStore (client s)
           (mkPurgeRequest t (Action r) (Network r) (Hostname r) (Objects r))
           (trace s)).

Definition Decoder (T : Type) := string -> T -> T * option string.

(** *** Response *)

Definition Error (e : Response) : string :=
  if (Title e =? "")%string then "unknown"
  else if (Detail e =? "")%string then Title e
  else Title e ++ ": " ++ Detail e.

Definition assertError (r : Response) : option error :=
  if (StatusCode r <? 200) || (StatusCode r >? 299) then Some (ApiError r)
  else None.

Definition error_text (e : error) : string :=
  match e with
  | Errorf msg => msg
  | ApiError r => Error r
  end.

(** *** Requests *)

(** The struct tags of [PurgeRequest]: [Type], [Action] and [Network] are
    never written, [Hostname] is [omitempty]. *)
Definition encodePurgeRequest (r : PurgeRequest) : Json.value :=
  Json.Obj (Json.omitempty "hostname" (Hostname r)
            ++ [("objects", Json.strings (Objects r))]).

Definition Path (p : PurgeRequest) : string :=
  "/ccu/v3/" ++ Action p ++ "/" ++ Type_ p ++ "/" ++ Network p.

(** The request [client.NewJSONRequest] returns when it accepts its
    arguments; [edgegrid.AddRequestHeader] signs it; [WithContext] binds
    it to a context. *)
Definition NewJSONRequest (cfg : edgegrid_Config) (method path : string)
    (v : option Json.value) : HTTPRequest :=
  mkHTTPRequest cfg method path v false None.

Definition AddRequestHeader (cfg : edgegrid_Config) (r : HTTPRequest)
  : HTTPRequest :=
  mkHTTPRequest (rq_Config r) (Method r) (PathArg r) (Body r) true (Context r).

Definition WithContext (r : HTTPRequest) (ctx : Go.Context) : HTTPRequest :=
  mkHTTPRequest (rq_Config r) (Method r) (PathArg r) (Body r) (Signed r)
    (Some ctx).

Section Client.

(** [edgegrid.Init(file, section)] reads a configuration or fails. *)
Variable edgegrid_Init : string -> string -> string + edgegrid_Config.

(** [client.NewRequest], which [client.NewJSONRequest] calls, rejects some
    requests (a path or a host that does not parse as a URL, a method that
    is not a token). *)
Variable NewJSONRequest_err :
  edgegrid_Config -> string -> string -> option Json.value -> option string.

Variable decodePurgeResponse : Decoder PurgeResponse.

Definition config : M Store (string + edgegrid_Config) :=
  c <- load_client ;;
  match Config c with
  | Some cfg => ret (inr cfg)
  | None =>
      match edgegrid_Init "" "" with
      | inl err => ret (inl err)
      | inr cfg => store_Config cfg ;;; ret (inr cfg)
      end
  end.

(** [v] is the payload as the JSON document its struct tags give.

    [client.NewJSONRequest] with a payload keeps the error of
    [client.NewRequest] in a variable local to its [if body != nil] block and
    goes on to set a header on the nil request it got: the call panics.
    Without a payload the error is returned. *)
Definition newHTTPRequest (method path : string) (v : option Json.value)
    (ctx : option Go.Context) : M Store (failure + HTTPRequest) :=
  r <- config ;;
  match r with
  | inl err =>
      ret (inl (Returns
                  (Errorf ("error reading edgegrid configuration: " ++ err))))
  | inr cfg =>
      match NewJSONRequest_err cfg method path v with
      | Some err =>
          match v with
          | Some _ =>
              ret (inl (Panics
                          "runtime error: invalid memory address or nil pointer dereference"))
          | None =>
              ret (inl (Returns
                          (Errorf ("error creating HTTP request: " ++ err))))
          end
      | None =>
          let hreq := NewJSONRequest cfg method path v in
          let hreq := AddRequestHeader cfg hreq in
          let hreq :=
            match ctx with
            | Some ctx => WithContext hreq ctx
            | None => hreq
            end in
          ret (inr hreq)
      end
  end.

Definition do {T} (dec : Decoder T) (req : HTTPRequest) (v : option T)
  : M Store (option T * (option HTTPResponse * option error)) :=
  c <- load_client ;;
  emit (EvSend req) ;;;
  match HTTPClient c req with
  | inl err =>
      ret (v, (None, Some (Errorf ("error sending HTTP request: " ++ err))))
  | inr resp =>
      match v with
      | Some x =>
          emit (EvDecode (resp_Body resp)) ;;;
          let (x', err) := dec (resp_Body resp) x in
          match err with
          | Some err =>
              emit (EvClose (resp_Body resp)) ;;;
              ret (Some x', (Some resp, Some (Errorf ("error decoding JSON response: " ++ err))))
          | None =>
              emit (EvClose (resp_Body resp)) ;;;
              ret (Some x', (Some resp, None))
          end
      | None =>
          emit (EvClose (resp_Body resp)) ;;;
          ret (v, (Some resp, None))
      end
  end.

Definition target {T} (zero : T) (v : option T) : T :=
  match v with Some x => x | None => zero end.

Definition Purge (ctx : option Go.Context)
  : M Store (option PurgeResponse * option error) :=
  req <- load_request ;;
  (if (Action req =? "")%string then store_Action "invalidate" else ret tt) ;;;
  req <- load_request ;;
  (if (Network req =? "")%string then store_Network "production" else ret tt) ;;;
  req <- load_request ;;
  (if (Type_ req =? "")%string then store_Type "url" else ret tt) ;;;
  req <- load_request ;;
  h <- newHTTPRequest "POST" (Path req) (Some (encodePurgeRequest req)) ctx ;;
  match h with
  | inl f => fail f
  | inr hreq =>
      r <- do decodePurgeResponse hreq (Some zeroPurgeResponse) ;;
      let v := target zeroPurgeResponse (fst r) in
      match snd (snd r) with
      | Some err => ret (None, Some err)
      | None =>
          let err := assertError (pr_Response v) in
          match err with
          | Some err => ret (None, Some err)
          | None => ret (Some v, err)
          end
      end
  end.

End Client.

(** *** Reading a trace *)

Fixpoint sent (tr : list Event) : list HTTPRequest :=
  match tr with
  | [] => []
  | EvSend r :: tr => r :: sent tr
  | _ :: tr => sent tr
  end.

(** *** The documented defaults *)

Definition orDefault (s d : string) : string :=
  if (s =? "")%string then d else s.

(** A request with every unset classification field replaced by its
    default: type [url], action [invalidate], network [production]. *)
Definition withDefaults (r : PurgeRequest) : PurgeRequest :=
  mkPurgeRequest (orDefault (Type_ r) "url") (orDefault (Action r) "invalidate")
    (orDefault (Network r) "production") (Hostname r) (Objects r).

(** The store once [Purge] has filled in the unset fields. *)
Definition defaulted (st : Store) : Store :=
  mkStore (client st) (withDefaults (request st)) (trace st).

(** The store once a configuration [cfg] is cached on the client. *)
Definition configured (cfg : edgegrid_Config) (st : Store) : Store :=
  mkStore (mkClient (HTTPClient (client st)) (Some cfg)) (request st) (trace st).

(** The bodies given to the JSON decoder and the bodies closed, in order. *)
Fixpoint decoded (tr : list Event) : list string :=
  match tr with
  | [] => []
  | EvDecode b :: tr => b :: decoded tr
  | _ :: tr => decoded tr
  end.

Fixpoint closed (tr : list Event) : list string :=
  match tr with
  | [] => []
  | EvClose b :: tr => b :: closed tr
  | _ :: tr => closed tr
  end.

Fixpoint panics (tr : list Event) : list string :=
  match tr with
  | [] => []
  | EvPanic msg :: tr => msg :: panics tr
  | _ :: tr => panics tr
  end.

(** *** Where a request goes

    [client.NewRequest] drops the leading slash of the path it is given,
    parses the rest as a URL reference, resolves it against [https://Host]
    and builds the request for the result.  What follows covers the path
    arguments over the alphabet of [Url.reference_char] that begin with a
    slash and a letter, digit, [-] or [_], and a configuration whose host is
    a bare host name: there no scheme, authority, escape or dot segment is
    involved, and the path of the request is the argument up to its first
    [?] or [#].  Other arguments are outside what is modelled ([None]). *)
Definition request_path (path : string) : option string :=
  match path with
  | String slash (String c rest) =>
      if (slash =? "/")%char && Url.segment_char c
         && Url.all_chars Url.reference_char rest
      then Some (Url.before_delimiter path)
      else None
  | _ => None
  end.

(** The errors of the phases of a call: reading the configuration,
    building the request, sending it, decoding the reply, and the API's own
    verdict. *)
Definition known_error (err : error) : Prop :=
  (exists msg, err = Errorf ("error reading edgegrid configuration: " ++ msg)) \/
  (exists msg, err = Errorf ("error creating HTTP request: " ++ msg)) \/
  (exists msg, err = Errorf ("error sending HTTP request: " ++ msg)) \/
  (exists msg, err = Errorf ("error decoding JSON response: " ++ msg)) \/
  (exists r, err = ApiError r /\ ~ 200 <= StatusCode r <= 299).

(** The same store with another transport behind the client. *)
Definition with_transport (st : Store)
    (t : HTTPRequest -> string + HTTPResponse) : Store :=
  mkStore (mkClient t (Config (client st))) (request st) (trace st).

(** The request [Purge] hands to the transport for a request [req], once a
    configuration [cfg] is at hand and the builder accepts. *)
Definition purge_request (cfg : edgegrid_Config) (ctx : option Go.Context)
    (req : PurgeRequest) : HTTPRequest :=
  mkHTTPRequest cfg "POST" (Path (withDefaults req))
    (Some (encodePurgeRequest (withDefaults req))) true ctx.

End V3.

(** ** Vocabulary shared by the two clients *)

(** A status code in the 200 range. *)
Definition in_2xx (code : Z) : bool := (200 <=? code) && (code <=? 299).

(** A returned pair [r] is the success [value] when [code] is in the 200
    range and the failure [as_error] when it is not. *)
Definition classified {A E} (code : Z) (value : A) (as_error : E)
    (r : option A * option E) : Prop :=
  (200 <= code <= 299 -> r = (Some value, None)) /\
  (~ 200 <= code <= 299 -> r = (None, Some as_error)).

(** A returned pair never carries both a value and an error. *)
Definition exclusive {A E} (r : option A * option E) : Prop :=
  (snd r <> None -> fst r = None) /\ (fst r <> None -> snd r = None).

(** ** A concrete environment: a transport that answers every request with
    one fixed reply, a permissive request builder, and decoders that reject
    an HTML body and otherwise produce a fixed value. *)

Module Mock.

Definition ctx : Go.Context := Go.Ctx 0.

Definition accept : string -> string -> option string := fun _ _ => None.

Definition not_json : string := "<html>".

Definition decodeAs {T} (x : T) : string -> T -> T * option string :=
  fun body v =>
    if (body =? not_json)%string
    then (v, Some "invalid character '<' looking for beginning of value")
    else (x, None).

Definition now : Time.t := Time.mk 63900000000 500.

Definition client2 (code : Z) (body : string) : V2.Client :=
  V2.mkClient (fun _ => inr (V2.mkHTTPResponse code body)) "user" "secret".

Definition response2 (code : Z) (title detail : string) : V2.Response :=
  V2.mkResponse "" code title detail "" "".

Definition purged2 (code : Z) : V2.PurgeResponse :=
  V2.mkPurgeResponse (response2 code "" "") 300 "abc" "" 0 Time.zero.

Definition queue2 (code : Z) : V2.QueueLengthResponse :=
  V2.mkQueueLengthResponse (response2 code "" "") 42.

Definition status2 (code : Z) (s : string) : V2.PurgeStatusResponse :=
  V2.mkPurgeStatusResponse (response2 code "" "") 0 0 "abc" "" "" s "".

Definition store2 (r : V2.PurgeRequest) : V2.Store := V2.mkStore r [].

Definition unset2 : V2.PurgeRequest :=
  V2.mkPurgeRequest "" "" "" "" (Some ["/a"]).

Definition cfg : V3.edgegrid_Config := V3.Cfg 0.

Definition init : string -> string -> string + V3.edgegrid_Config :=
  fun _ _ => inr cfg.

Definition accept3 :
  V3.edgegrid_Config -> string -> string -> option Json.value -> option string :=
  fun _ _ _ _ => None.

Definition client3 (code : Z) (body : string) : V3.Client :=
  V3.mkClient (fun _ => inr (V3.mkHTTPResponse code body)) None.

Definition response3 (code : Z) (title detail : string) : V3.Response :=
  V3.mkResponse "" code title detail "".

Definition purged3 (code : Z) : V3.PurgeResponse :=
  V3.mkPurgeResponse (response3 code "" "") 5 "abc".

Definition cpcode3 : V3.PurgeRequest :=
  V3.mkPurgeRequest "cpcode" "" "" "" (Some ["123456"]).

Definition store3 (code : Z) (body : string) (r : V3.PurgeRequest) : V3.Store :=
  V3.mkStore (client3 code body) r [].

End Mock.

(** ** An environment in which things go wrong: a transport that cannot
    connect, builders that reject every request, and a configuration file
    that cannot be read. *)

Module Failing.

Definition refused : string := "dial tcp: connection refused".

Definition client2 : V2.Client :=
  V2.mkClient (fun _ => inl refused) "user" "secret".

Definition reject : string -> string -> option string :=
  fun _ _ => Some "invalid method".

Definition client3 : V3.Client := V3.mkClient (fun _ => inl refused) None.

Definition store3 (r : V3.PurgeRequest) : V3.Store :=
  V3.mkStore client3 r [].

Definition init : string -> string -> string + V3.edgegrid_Config :=
  fun _ _ => inl "open .edgerc: no such file or directory".

Definition quote : string := String (ascii_of_N 34) "".

(** A network that is no valid URL escape, and the builder's answer to the
    path it gives: the error of [url.Parse]. *)
Definition escape3 : V3.PurgeRequest :=
  V3.mkPurgeRequest "cpcode" "" "%zz" "" (Some ["123456"]).

Definition reject3 :
  V3.edgegrid_Config -> string -> string -> option Json.value -> option string :=
  fun _ _ path _ =>
    if (path =? "/ccu/v3/invalidate/cpcode/%zz")%string
    then Some ("parse " ++ quote ++ "ccu/v3/invalidate/cpcode/%zz" ++ quote
               ++ ": invalid URL escape " ++ quote ++ "%zz" ++ quote)
    else None.

End Failing.

(** * Properties *)

(** Closes an [exclusive] goal on a pair that has been computed. *)
Ltac excl :=
  unfold V2.fail, V3.fail, V2.emit, V3.emit, bind, ret;
  simpl; split; intros ?; congruence.

(** ** Strings and status codes *)

Lemma eqb_empty_true (s : string) : s = "" -> (s =? "")%string = true.
Proof. intros ->. reflexivity. Qed.

Lemma eqb_empty_false (s : string) : s <> "" -> (s =? "")%string = false.
Proof. intros H. now apply String.eqb_neq. Qed.

Lemma in_2xx_spec (code : Z) : in_2xx code = true <-> 200 <= code <= 299.
Proof. unfold in_2xx. rewrite andb_true_iff, !Z.leb_le. tauto. Qed.

Lemma V2_assertError_eq (r : V2.Response) :
  V2.assertError r =
  if in_2xx (V2.StatusCode r) then None else Some (V2.ApiError r).
Proof.
  unfold V2.assertError, in_2xx.
  destruct (Z.ltb_spec (V2.StatusCode r) 200), (Z.gtb_spec (V2.StatusCode r) 299),
    (Z.leb_spec 200 (V2.StatusCode r)), (Z.leb_spec (V2.StatusCode r) 299);
    simpl; try reflexivity; lia.
Qed.

Lemma V3_assertError_eq (r : V3.Response) :
  V3.assertError r =
  if in_2xx (V3.StatusCode r) then None else Some (V3.ApiError r).
Proof.
  unfold V3.assertError, in_2xx.
  destruct (Z.ltb_spec (V3.StatusCode r) 200), (Z.gtb_spec (V3.StatusCode r) 299),
    (Z.leb_spec 200 (V3.StatusCode r)), (Z.leb_spec (V3.StatusCode r) 299);
    simpl; try reflexivity; lia.
Qed.

(** ** Response.Error *)

(** C5: in both versions [Error()] is "unknown" when [Title] is empty,
    whatever [Detail] is; it is [Title] when [Title] is non-empty and
    [Detail] is empty; and it is [Title], a colon and a space, then [Detail]
    when both are non-empty. *)
Theorem Error_format (r2 : V2.Response) (r3 : V3.Response) :
  ((V2.Title r2 = "" -> V2.Error r2 = "unknown") /\
   (V2.Title r2 <> "" -> V2.Detail r2 = "" -> V2.Error r2 = V2.Title r2) /\
   (V2.Title r2 <> "" -> V2.Detail r2 <> "" ->
    V2.Error r2 = V2.Title r2 ++ ": " ++ V2.Detail r2)) /\
  ((V3.Title r3 = "" -> V3.Error r3 = "unknown") /\
   (V3.Title r3 <> "" -> V3.Detail r3 = "" -> V3.Error r3 = V3.Title r3) /\
   (V3.Title r3 <> "" -> V3.Detail r3 <> "" ->
    V3.Error r3 = V3.Title r3 ++ ": " ++ V3.Detail r3)).
Proof.
  unfold V2.Error, V3.Error. repeat split.
  - intros H. now rewrite (eqb_empty_true _ H).
  - intros Ht Hd.
    now rewrite (eqb_empty_false _ Ht), (eqb_empty_true _ Hd).
  - intros Ht Hd.
    now rewrite (eqb_empty_false _ Ht), (eqb_empty_false _ Hd).
  - intros H. now rewrite (eqb_empty_true _ H).
  - intros Ht Hd.
    now rewrite (eqb_empty_false _ Ht), (eqb_empty_true _ Hd).
  - intros Ht Hd.
    now rewrite (eqb_empty_false _ Ht), (eqb_empty_false _ Hd).
Qed.

(** The three documented cases of [Error()], in each version. *)
Lemma Error_format_witness :
  (V2.Error (Mock.response2 500 "" "Y") = "unknown" /\
   V2.Error (Mock.response2 500 "X" "") = "X" /\
   V2.Error (Mock.response2 400 "Bad Request" "missing objects")
     = "Bad Request: missing objects") /\
  (V3.Error (Mock.response3 500 "" "Y") = "unknown" /\
   V3.Error (Mock.response3 500 "X" "") = "X" /\
   V3.Error (Mock.response3 400 "Bad Request" "missing objects")
     = "Bad Request: missing objects").
Proof.
  split; (split; [ | split ]).
  - apply (Error_format (Mock.response2 500 "" "Y") V3.zeroResponse).
    reflexivity.
  - apply (Error_format (Mock.response2 500 "X" "") V3.zeroResponse).
    + discriminate.
    + reflexivity.
  - apply (Error_format (Mock.response2 400 "Bad Request" "missing objects")
             V3.zeroResponse); discriminate.
  - apply (Error_format V2.zeroResponse (Mock.response3 500 "" "Y")).
    reflexivity.
  - apply (Error_format V2.zeroResponse (Mock.response3 500 "X" "")).
    + discriminate.
    + reflexivity.
  - apply (Error_format V2.zeroResponse
             (Mock.response3 400 "Bad Request" "missing objects")); discriminate.
Defined.

(** ** PurgeStatusResponse.IsDone *)

(** C9: [IsDone()] is true exactly when [PurgeStatus] is the string "Done",
    compared byte for byte; it is false for the empty string, for "Pending"
    and for "done". *)
Theorem IsDone_iff_Done (p : V2.PurgeStatusResponse) :
  (V2.IsDone p = true <-> V2.PurgeStatus p = "Done") /\
  (In (V2.PurgeStatus p) [""; "Pending"; "done"] -> V2.IsDone p = false).
Proof.
  unfold V2.IsDone. split.
  - apply String.eqb_eq.
  - intros [H | [H | [H | []]]]; rewrite <- H; reflexivity.
Qed.

Lemma IsDone_iff_Done_witness :
  V2.IsDone (Mock.status2 200 "Done") = true /\
  V2.IsDone (Mock.status2 200 "") = false /\
  V2.IsDone (Mock.status2 200 "Pending") = false /\
  V2.IsDone (Mock.status2 200 "done") = false.
Proof.
  split; [ | split; [ | split ] ].
  - apply (IsDone_iff_Done (Mock.status2 200 "Done")). reflexivity.
  - apply (IsDone_iff_Done (Mock.status2 200 "")). simpl. auto.
  - apply (IsDone_iff_Done (Mock.status2 200 "Pending")). simpl. auto.
  - apply (IsDone_iff_Done (Mock.status2 200 "done")). simpl. auto.
Defined.

(** ** The v2 round trip, case by case *)

Section V2Facts.

Variable T : Type.
Variable dec : V2.Decoder T.
Variable c : V2.Client.
Variable req : V2.HTTPRequest.
Variable st : V2.Store.

Lemma V2_do_transport_error (v : option T) (err : string) :
  V2.HTTPClient c req = inl err ->
  V2.do dec c req v st =
  ((v, (None, Some (V2.Errorf ("error sending HTTP request: " ++ err)))),
   V2.mkStore (V2.request st) (V2.trace st ++ [V2.EvSend req])).
Proof. intros H. unfold V2.do, bind, ret, V2.emit. now rewrite H. Qed.

Lemma V2_do_unauthorized (v : option T) (resp : V2.HTTPResponse) :
  V2.HTTPClient c req = inr resp ->
  V2.resp_StatusCode resp = 401 ->
  V2.do dec c req v st =
  ((v, (None, Some (V2.Errorf "unauthorized"))),
   V2.mkStore (V2.request st)
     ((V2.trace st ++ [V2.EvSend req]) ++ [V2.EvClose (V2.resp_Body resp)])).
Proof.
  intros H H401. unfold V2.do, bind, ret, V2.emit. rewrite H, H401. reflexivity.
Qed.

Lemma V2_do_decode_error (x x' : T) (resp : V2.HTTPResponse) (msg : string) :
  V2.HTTPClient c req = inr resp ->
  V2.resp_StatusCode resp <> 401 ->
  dec (V2.resp_Body resp) x = (x', Some msg) ->
  V2.do dec c req (Some x) st =
  ((Some x', (None, Some (V2.Errorf ("error decoding JSON response: " ++ msg)))),
   V2.mkStore (V2.request st)
     (((V2.trace st ++ [V2.EvSend req]) ++ [V2.EvDecode (V2.resp_Body resp)])
        ++ [V2.EvClose (V2.resp_Body resp)])).
Proof.
  intros H H401 Hd. unfold V2.do, bind, ret, V2.emit. rewrite H.
  apply Z.eqb_neq in H401. rewrite H401. simpl. rewrite Hd. reflexivity.
Qed.

Lemma V2_do_decoded (x x' : T) (resp : V2.HTTPResponse) :
  V2.HTTPClient c req = inr resp ->
  V2.resp_StatusCode resp <> 401 ->
  dec (V2.resp_Body resp) x = (x', None) ->
  V2.do dec c req (Some x) st =
  ((Some x', (Some resp, None)),
   V2.mkStore (V2.request st)
     (((V2.trace st ++ [V2.EvSend req]) ++ [V2.EvDecode (V2.resp_Body resp)])
        ++ [V2.EvClose (V2.resp_Body resp)])).
Proof.
  intros H H401 Hd. unfold V2.do, bind, ret, V2.emit. rewrite H.
  apply Z.eqb_neq in H401. rewrite H401. simpl. rewrite Hd. reflexivity.
Qed.

(** Whatever happens, [do] leaves the caller's request alone. *)
Lemma V2_do_request (v : option T) :
  V2.request (snd (V2.do dec c req v st)) = V2.request st.
Proof.
  unfold V2.do, bind, ret, V2.emit. simpl.
  destruct (V2.HTTPClient c req) as [e | resp]; simpl; [reflexivity | ].
  destruct (V2.resp_StatusCode resp =? 401); simpl; [reflexivity | ].
  destruct v as [x | ]; simpl; [ | reflexivity ].
  destruct (dec (V2.resp_Body resp) x) as [x' [e | ]]; reflexivity.
Qed.

(** [do] returns a reply or an error, never both, and with a reply the
    target it was given. *)
Lemma V2_do_cases (x : T) :
  let r := fst (V2.do dec c req (Some x) st) in
  (exists e, snd r = (None, Some e)) \/
  (exists x' resp, r = (Some x', (Some resp, None)) /\
     dec (V2.resp_Body resp) x = (x', None)).
Proof.
  unfold V2.do, bind, ret, V2.emit. simpl.
  destruct (V2.HTTPClient c req) as [e | resp]; simpl; [left; eauto | ].
  destruct (V2.resp_StatusCode resp =? 401); simpl; [left; eauto | ].
  destruct (dec (V2.resp_Body resp) x) as [x' [e | ]] eqn:E; simpl.
  - left; eauto.
  - right. exists x', resp. auto.
Qed.

End V2Facts.

(** ** The v2 operations on a reply that decodes *)

Section V2Decoded.

Variable http_err : string -> string -> option string.
Variable decQ : V2.Decoder V2.QueueLengthResponse.
Variable decP : V2.Decoder V2.PurgeResponse.
Variable decS : V2.Decoder V2.PurgeStatusResponse.
Variable now : Time.t.
Variable c : V2.Client.
Variable ctx : option Go.Context.
Variable st : V2.Store.

Lemma V2_GetQueueLength_decoded hreq resp v :
  V2.queue_length_request http_err c ctx = inr hreq ->
  V2.HTTPClient c hreq = inr resp ->
  V2.resp_StatusCode resp <> 401 ->
  decQ (V2.resp_Body resp) V2.zeroQueueLengthResponse = (v, None) ->
  result (V2.GetQueueLength http_err decQ c ctx) st =
  if in_2xx (V2.StatusCode (V2.ql_Response v)) then (Some v, None)
  else (None, Some (V2.ApiError (V2.ql_Response v))).
Proof.
  unfold V2.queue_length_request. intros Hb Ht H401 Hd.
  unfold result, V2.GetQueueLength. rewrite Hb. unfold bind at 1.
  rewrite (V2_do_decoded _ _ _ _ _ _ _ _ Ht H401 Hd). simpl.
  rewrite V2_assertError_eq.
  now destruct (in_2xx (V2.StatusCode (V2.ql_Response v))).
Qed.

Lemma V2_Purge_decoded hreq resp v :
  V2.purge_request http_err c ctx (V2.request st) = inr hreq ->
  V2.HTTPClient c hreq = inr resp ->
  V2.resp_StatusCode resp <> 401 ->
  decP (V2.resp_Body resp) V2.zeroPurgeResponse = (v, None) ->
  result (V2.Purge http_err decP now c ctx) st =
  if in_2xx (V2.StatusCode (V2.pr_Response v))
  then (Some (V2.set_Time v now), None)
  else (None, Some (V2.ApiError (V2.pr_Response v))).
Proof.
  unfold V2.purge_request. intros Hb Ht H401 Hd.
  unfold result, V2.Purge, V2.load_request. unfold bind at 1. rewrite Hb.
  unfold bind at 1.
  rewrite (V2_do_decoded _ _ _ _ _ _ _ _ Ht H401 Hd). simpl.
  rewrite V2_assertError_eq.
  now destruct (in_2xx (V2.StatusCode (V2.pr_Response v))).
Qed.

Lemma V2_GetPurgeStatus_decoded purgeID hreq resp v :
  V2.purge_status_request http_err c purgeID ctx = inr hreq ->
  V2.HTTPClient c hreq = inr resp ->
  V2.resp_StatusCode resp <> 401 ->
  decS (V2.resp_Body resp) V2.zeroPurgeStatusResponse = (v, None) ->
  result (V2.GetPurgeStatus http_err decS c purgeID ctx) st =
  if in_2xx (V2.StatusCode (V2.ps_Response v)) then (Some v, None)
  else (None, Some (V2.ApiError (V2.ps_Response v))).
Proof.
  unfold V2.purge_status_request. intros Hb Ht H401 Hd.
  unfold result, V2.GetPurgeStatus. rewrite Hb. unfold bind at 1.
  rewrite (V2_do_decoded _ _ _ _ _ _ _ _ Ht H401 Hd). simpl.
  rewrite V2_assertError_eq.
  now destruct (in_2xx (V2.StatusCode (V2.ps_Response v))).
Qed.

End V2Decoded.

(** ** The v3 round trip, step by step *)

Section V3Do.

Variable T : Type.
Variable dec : V3.Decoder T.

Lemma V3_do_transport_error (req : V3.HTTPRequest) (v : option T)
    (st : V3.Store) (err : string) :
  V3.HTTPClient (V3.client st) req = inl err ->
  V3.do dec req v st =
  ((v, (None, Some (V3.Errorf ("error sending HTTP request: " ++ err)))),
   V3.mkStore (V3.client st) (V3.request st) (V3.trace st ++ [V3.EvSend req])).
Proof.
  intros H. unfold V3.do, V3.load_client, bind, ret, V3.emit. simpl.
  now rewrite H.
Qed.

Lemma V3_do_decode_error (req : V3.HTTPRequest) (x x' : T) (st : V3.Store)
    (resp : V3.HTTPResponse) (msg : string) :
  V3.HTTPClient (V3.client st) req = inr resp ->
  dec (V3.resp_Body resp) x = (x', Some msg) ->
  V3.do dec req (Some x) st =
  ((Some x',
    (Some resp, Some (V3.Errorf ("error decoding JSON response: " ++ msg)))),
   V3.mkStore (V3.client st) (V3.request st)
     (((V3.trace st ++ [V3.EvSend req]) ++ [V3.EvDecode (V3.resp_Body resp)])
        ++ [V3.EvClose (V3.resp_Body resp)])).
Proof.
  intros H Hd. unfold V3.do, V3.load_client, bind, ret, V3.emit. simpl.
  rewrite H. simpl. rewrite Hd. reflexivity.
Qed.

Lemma V3_do_decoded (req : V3.HTTPRequest) (x x' : T) (st : V3.Store)
    (resp : V3.HTTPResponse) :
  V3.HTTPClient (V3.client st) req = inr resp ->
  dec (V3.resp_Body resp) x = (x', None) ->
  V3.do dec req (Some x) st =
  ((Some x', (Some resp, None)),
   V3.mkStore (V3.client st) (V3.request st)
     (((V3.trace st ++ [V3.EvSend req]) ++ [V3.EvDecode (V3.resp_Body resp)])
        ++ [V3.EvClose (V3.resp_Body resp)])).
Proof.
  intros H Hd. unfold V3.do, V3.load_client, bind, ret, V3.emit. simpl.
  rewrite H. simpl. rewrite Hd. reflexivity.
Qed.

Lemma V3_do_frame (req : V3.HTTPRequest) (v : option T) (st : V3.Store) :
  let st' := snd (V3.do dec req v st) in
  V3.request st' = V3.request st /\ V3.client st' = V3.client st.
Proof.
  unfold V3.do, V3.load_client, bind, ret, V3.emit. simpl.
  destruct (V3.HTTPClient (V3.client st) req) as [e | resp]; simpl; [auto | ].
  destruct v as [x | ]; simpl; [ | auto ].
  destruct (dec (V3.resp_Body resp) x) as [x' [e | ]]; simpl; auto.
Qed.

End V3Do.

Section V3Facts.

Variable init : string -> string -> string + V3.edgegrid_Config.
Variable build_err :
  V3.edgegrid_Config -> string -> string -> option Json.value -> option string.
Variable decP : V3.Decoder V3.PurgeResponse.
Variable ctx : option Go.Context.

Lemma V3_config_cases (st : V3.Store) :
  (exists cfg, V3.config init st = (inr cfg, st)
               /\ V3.Config (V3.client st) = Some cfg) \/
  (exists err, V3.config init st = (inl err, st)) \/
  (exists cfg, V3.config init st = (inr cfg, V3.configured cfg st)).
Proof.
  unfold V3.config, V3.load_client, bind, ret, V3.store_Config, V3.configured.
  destruct (V3.Config (V3.client st)) as [cfg | ].
  - left. eauto.
  - destruct (init "" "") as [err | cfg]; right; [left | right]; eauto.
Qed.

(** [config] touches nothing but the client's cached configuration. *)
Lemma V3_config_frame (st : V3.Store) :
  let st' := snd (V3.config init st) in
  V3.request st' = V3.request st /\ V3.trace st' = V3.trace st /\
  V3.HTTPClient (V3.client st') = V3.HTTPClient (V3.client st).
Proof.
  destruct (V3_config_cases st) as [[cfg [E _]] | [[err E] | [cfg E]]];
    rewrite E; simpl; auto.
Qed.

Lemma V3_newHTTPRequest_eq (method path : string) (v : option Json.value)
    (st : V3.Store) :
  V3.newHTTPRequest init build_err method path v ctx st =
  (match fst (V3.config init st) with
   | inl err =>
       inl (V3.Returns
              (V3.Errorf ("error reading edgegrid configuration: " ++ err)))
   | inr cfg =>
       match build_err cfg method path v with
       | Some err =>
           match v with
           | Some _ =>
               inl (V3.Panics
                      "runtime error: invalid memory address or nil pointer dereference")
           | None =>
               inl (V3.Returns
                      (V3.Errorf ("error creating HTTP request: " ++ err)))
           end
       | None => inr (V3.mkHTTPRequest cfg method path v true ctx)
       end
   end, snd (V3.config init st)).
Proof.
  unfold V3.newHTTPRequest, bind, ret.
  destruct (V3.config init st) as [[err | cfg] st']; simpl; [reflexivity | ].
  destruct (build_err cfg method path v); [destruct v; reflexivity | ].
  destruct ctx; reflexivity.
Qed.

(** [Purge] first fills in the unset fields of the caller's request, then
    builds and sends. *)
Lemma V3_Purge_after_defaults (st : V3.Store) :
  V3.Purge init build_err decP ctx st =
  (h <- V3.newHTTPRequest init build_err "POST"
          (V3.Path (V3.withDefaults (V3.request st)))
          (Some (V3.encodePurgeRequest (V3.withDefaults (V3.request st)))) ctx ;;
   match h with
   | inl f => V3.fail f
   | inr hreq =>
       r <- V3.do decP hreq (Some V3.zeroPurgeResponse) ;;
       let v := V3.target V3.zeroPurgeResponse (fst r) in
       match snd (snd r) with
       | Some err => ret (None, Some err)
       | None =>
           let err := V3.assertError (V3.pr_Response v) in
           match err with
           | Some err => ret (None, Some err)
           | None => ret (Some v, err)
           end
       end
   end) (V3.defaulted st).
Proof.
  destruct st as [cl [t a n h o] tr].
  unfold V3.Purge, V3.defaulted, V3.withDefaults, V3.orDefault.
  unfold V3.load_request, V3.store_Action, V3.store_Network, V3.store_Type.
  unfold bind, ret.
  cbn [V3.request V3.client V3.trace V3.Type_ V3.Action V3.Network
       V3.Hostname V3.Objects].
  destruct (a =? "")%string;
    cbn [V3.request V3.client V3.trace V3.Type_ V3.Action V3.Network
         V3.Hostname V3.Objects];
    destruct (n =? "")%string;
    cbn [V3.request V3.client V3.trace V3.Type_ V3.Action V3.Network
         V3.Hostname V3.Objects];
    destruct (t =? "")%string; reflexivity.
Qed.

Lemma V3_config_defaulted (st : V3.Store) :
  fst (V3.config init (V3.defaulted st)) = fst (V3.config init st).
Proof.
  unfold V3.config, V3.load_client, bind, ret, V3.store_Config, V3.defaulted.
  simpl. destruct (V3.Config (V3.client st)); [reflexivity | ].
  destruct (init "" ""); reflexivity.
Qed.

(** The store in which [Purge] reaches the transport. *)
Lemma V3_Purge_built (st : V3.Store) (cfg : V3.edgegrid_Config) :
  result (V3.config init) st = inr cfg ->
  build_err cfg "POST" (V3.Path (V3.withDefaults (V3.request st)))
    (Some (V3.encodePurgeRequest (V3.withDefaults (V3.request st)))) = None ->
  V3.Purge init build_err decP ctx st =
  (r <- V3.do decP (V3.purge_request cfg ctx (V3.request st))
          (Some V3.zeroPurgeResponse) ;;
   let v := V3.target V3.zeroPurgeResponse (fst r) in
   match snd (snd r) with
   | Some err => ret (None, Some err)
   | None =>
       let err := V3.assertError (V3.pr_Response v) in
       match err with
       | Some err => ret (None, Some err)
       | None => ret (Some v, err)
       end
   end) (snd (V3.config init (V3.defaulted st))).
Proof.
  unfold result. intros Hc Hb. rewrite V3_Purge_after_defaults.
  unfold bind at 1. rewrite V3_newHTTPRequest_eq.
  rewrite V3_config_defaulted, Hc, Hb. reflexivity.
Qed.

Lemma V3_Purge_decoded (st : V3.Store) (cfg : V3.edgegrid_Config)
    (resp : V3.HTTPResponse) (v : V3.PurgeResponse) :
  result (V3.config init) st = inr cfg ->
  build_err cfg "POST" (V3.Path (V3.withDefaults (V3.request st)))
    (Some (V3.encodePurgeRequest (V3.withDefaults (V3.request st)))) = None ->
  V3.HTTPClient (V3.client st) (V3.purge_request cfg ctx (V3.request st))
    = inr resp ->
  decP (V3.resp_Body resp) V3.zeroPurgeResponse = (v, None) ->
  result (V3.Purge init build_err decP ctx) st =
  if in_2xx (V3.StatusCode (V3.pr_Response v)) then (Some v, None)
  else (None, Some (V3.ApiError (V3.pr_Response v))).
Proof.
  intros Hc Hb Ht Hd. unfold result at 1. rewrite (V3_Purge_built _ _ Hc Hb).
  unfold bind at 1.
  destruct (V3_config_frame (V3.defaulted st)) as (_ & _ & Hcl).
  change (V3.client (V3.defaulted st)) with (V3.client st) in Hcl.
  rewrite <- Hcl in Ht.
  rewrite (V3_do_decoded _ _ _ _ _ _ _ Ht Hd).
  simpl. rewrite V3_assertError_eq.
  now destruct (in_2xx (V3.StatusCode (V3.pr_Response v))).
Qed.

End V3Facts.

(** ** Classification by status code *)

Lemma classified_if {A E} (code : Z) (value : A) (as_error : E)
    (r : option A * option E) :
  r = (if in_2xx code then (Some value, None) else (None, Some as_error)) ->
  classified code value as_error r.
Proof.
  intros ->. unfold classified.
  destruct (in_2xx code) eqn:E2; split; intros H; try reflexivity.
  - apply in_2xx_spec in E2. contradiction.
  - apply in_2xx_spec in H. congruence.
Qed.

(** C1: in either version [assertError] returns nil exactly when the
    status code of the Response lies in 200..299, and otherwise returns that
    very Response as the error; and every operation whose reply decodes to a
    value returns that value with no error when the embedded status code
    lies in 200..299, and returns no value and the embedded Response as the
    error when it does not.  The value the v2 Purge returns is the decoded
    one field by field (embedded Response, estimated seconds, purge id,
    progress URI, ping-after seconds) with the clock's reading as its
    submission time. *)
Theorem status_classification :
  (forall r : V2.Response,
     (V2.assertError r = None <-> 200 <= V2.StatusCode r <= 299) /\
     (~ 200 <= V2.StatusCode r <= 299 ->
      V2.assertError r = Some (V2.ApiError r))) /\
  (forall r : V3.Response,
     (V3.assertError r = None <-> 200 <= V3.StatusCode r <= 299) /\
     (~ 200 <= V3.StatusCode r <= 299 ->
      V3.assertError r = Some (V3.ApiError r))) /\
  (forall http_err decQ c ctx st hreq resp v,
     V2.queue_length_request http_err c ctx = inr hreq ->
     V2.HTTPClient c hreq = inr resp ->
     V2.resp_StatusCode resp <> 401 ->
     decQ (V2.resp_Body resp) V2.zeroQueueLengthResponse = (v, None) ->
     classified (V2.StatusCode (V2.ql_Response v)) v
       (V2.ApiError (V2.ql_Response v))
       (result (V2.GetQueueLength http_err decQ c ctx) st)) /\
  (forall http_err decP now c ctx st hreq resp v,
     V2.purge_request http_err c ctx (V2.request st) = inr hreq ->
     V2.HTTPClient c hreq = inr resp ->
     V2.resp_StatusCode resp <> 401 ->
     decP (V2.resp_Body resp) V2.zeroPurgeResponse = (v, None) ->
     classified (V2.StatusCode (V2.pr_Response v))
       (V2.mkPurgeResponse (V2.pr_Response v) (V2.EstimatedSeconds v)
          (V2.PurgeID v) (V2.ProgressURI v) (V2.PingAfterSeconds v) now)
       (V2.ApiError (V2.pr_Response v))
       (result (V2.Purge http_err decP now c ctx) st)) /\
  (forall http_err decS c purgeID ctx st hreq resp v,
     V2.purge_status_request http_err c purgeID ctx = inr hreq ->
     V2.HTTPClient c hreq = inr resp ->
     V2.resp_StatusCode resp <> 401 ->
     decS (V2.resp_Body resp) V2.zeroPurgeStatusResponse = (v, None) ->
     classified (V2.StatusCode (V2.ps_Response v)) v
       (V2.ApiError (V2.ps_Response v))
       (result (V2.GetPurgeStatus http_err decS c purgeID ctx) st)) /\
  (forall init build_err decP ctx st cfg resp v,
     result (V3.config init) st = inr cfg ->
     build_err cfg "POST" (V3.Path (V3.withDefaults (V3.request st)))
       (Some (V3.encodePurgeRequest (V3.withDefaults (V3.request st)))) = None ->
     V3.HTTPClient (V3.client st) (V3.purge_request cfg ctx (V3.request st))
       = inr resp ->
     decP (V3.resp_Body resp) V3.zeroPurgeResponse = (v, None) ->
     classified (V3.StatusCode (V3.pr_Response v)) v
       (V3.ApiError (V3.pr_Response v))
       (result (V3.Purge init build_err decP ctx) st)).
Proof.
  split; [ | split; [ | split; [ | split; [ | split ] ] ] ].
  - intros r. rewrite V2_assertError_eq.
    destruct (in_2xx (V2.StatusCode r)) eqn:E; split.
    + apply in_2xx_spec in E. tauto.
    + apply in_2xx_spec in E. tauto.
    + split; [discriminate | ]. intros H. apply in_2xx_spec in H. congruence.
    + reflexivity.
  - intros r. rewrite V3_assertError_eq.
    destruct (in_2xx (V3.StatusCode r)) eqn:E; split.
    + apply in_2xx_spec in E. tauto.
    + apply in_2xx_spec in E. tauto.
    + split; [discriminate | ]. intros H. apply in_2xx_spec in H. congruence.
    + reflexivity.
  - intros. apply classified_if. eapply V2_GetQueueLength_decoded; eassumption.
  - intros. apply classified_if.
    change (V2.mkPurgeResponse (V2.pr_Response v) (V2.EstimatedSeconds v)
              (V2.PurgeID v) (V2.ProgressURI v) (V2.PingAfterSeconds v) now)
      with (V2.set_Time v now).
    eapply V2_Purge_decoded; eassumption.
  - intros. apply classified_if. eapply V2_GetPurgeStatus_decoded; eassumption.
  - intros. apply classified_if. eapply V3_Purge_decoded; eassumption.
Qed.

(** The boundary codes 199, 200, 299 and 300 in both versions, on
    [assertError] and through the operations. *)
Lemma status_classification_witness :
  (V2.assertError (Mock.response2 199 "" "") <> None /\
   V2.assertError (Mock.response2 200 "" "") = None /\
   V2.assertError (Mock.response2 299 "" "") = None /\
   V2.assertError (Mock.response2 300 "" "")
     = Some (V2.ApiError (Mock.response2 300 "" ""))) /\
  (V3.assertError (Mock.response3 199 "" "")
     = Some (V3.ApiError (Mock.response3 199 "" "")) /\
   V3.assertError (Mock.response3 200 "" "") = None /\
   V3.assertError (Mock.response3 299 "" "") = None /\
   V3.assertError (Mock.response3 300 "" "") <> None) /\
  result (V2.GetQueueLength Mock.accept (Mock.decodeAs (Mock.queue2 200))
            (Mock.client2 200 "{}") (Some Mock.ctx)) (Mock.store2 Mock.unset2)
    = (Some (Mock.queue2 200), None) /\
  result (V2.Purge Mock.accept (Mock.decodeAs (Mock.purged2 199)) Mock.now
            (Mock.client2 200 "{}") (Some Mock.ctx)) (Mock.store2 Mock.unset2)
    = (None, Some (V2.ApiError (Mock.response2 199 "" ""))) /\
  result (V2.Purge Mock.accept (Mock.decodeAs (Mock.purged2 201)) Mock.now
            (Mock.client2 201 "{}") (Some Mock.ctx)) (Mock.store2 Mock.unset2)
    = (Some (V2.mkPurgeResponse (Mock.response2 201 "" "") 300 "abc" "" 0
               (Time.mk 63900000000 500)), None) /\
  result (V2.GetPurgeStatus Mock.accept (Mock.decodeAs (Mock.status2 300 "Done"))
            (Mock.client2 200 "{}") "abc" (Some Mock.ctx)) (Mock.store2 Mock.unset2)
    = (None, Some (V2.ApiError (Mock.response2 300 "" ""))) /\
  result (V3.Purge Mock.init Mock.accept3 (Mock.decodeAs (Mock.purged3 299))
            (Some Mock.ctx)) (Mock.store3 200 "{}" Mock.cpcode3)
    = (Some (Mock.purged3 299), None).
Proof.
  destruct status_classification as (H2 & H3 & HQ & HP & HS & HP3).
  split; [ | split; [ | split; [ | split; [ | split; [ | split ] ] ] ] ].
  - split; [ | split; [ | split ] ].
    + intros H. apply (H2 (Mock.response2 199 "" "")) in H. simpl in H. lia.
    + apply (H2 (Mock.response2 200 "" "")). simpl. lia.
    + apply (H2 (Mock.response2 299 "" "")). simpl. lia.
    + apply (H2 (Mock.response2 300 "" "")). simpl. lia.
  - split; [ | split; [ | split ] ].
    + apply (H3 (Mock.response3 199 "" "")). simpl. lia.
    + apply (H3 (Mock.response3 200 "" "")). simpl. lia.
    + apply (H3 (Mock.response3 299 "" "")). simpl. lia.
    + intros H. apply (H3 (Mock.response3 300 "" "")) in H. simpl in H. lia.
  - refine (proj1 (HQ Mock.accept (Mock.decodeAs (Mock.queue2 200))
                     (Mock.client2 200 "{}") (Some Mock.ctx) (Mock.store2 Mock.unset2)
                     _ _ _ eq_refl eq_refl _ eq_refl) _); simpl; lia.
  - refine (proj2 (HP Mock.accept (Mock.decodeAs (Mock.purged2 199)) Mock.now
                     (Mock.client2 200 "{}") (Some Mock.ctx) (Mock.store2 Mock.unset2)
                     _ _ _ eq_refl eq_refl _ eq_refl) _); simpl; lia.
  - refine (proj1 (HP Mock.accept (Mock.decodeAs (Mock.purged2 201)) Mock.now
                     (Mock.client2 201 "{}") (Some Mock.ctx) (Mock.store2 Mock.unset2)
                     _ _ _ eq_refl eq_refl _ eq_refl) _); simpl; lia.
  - refine (proj2 (HS Mock.accept (Mock.decodeAs (Mock.status2 300 "Done"))
                     (Mock.client2 200 "{}") "abc" (Some Mock.ctx)
                     (Mock.store2 Mock.unset2)
                     _ _ _ eq_refl eq_refl _ eq_refl) _); simpl; lia.
  - refine (proj1 (HP3 Mock.init Mock.accept3 (Mock.decodeAs (Mock.purged3 299))
                     (Some Mock.ctx) (Mock.store3 200 "{}" Mock.cpcode3)
                     _ _ _ eq_refl eq_refl eq_refl eq_refl) _); simpl; lia.
Defined.

(** ** HTTP 401 in the v2 client *)

Lemma V2_decoded_app (a b : list V2.Event) :
  V2.decoded (a ++ b) = (V2.decoded a ++ V2.decoded b)%list.
Proof.
  induction a as [ | e a IH]; simpl; [reflexivity | ].
  destruct e; simpl; now rewrite IH.
Qed.

Lemma V2_sent_app (a b : list V2.Event) :
  V2.sent (a ++ b) = (V2.sent a ++ V2.sent b)%list.
Proof.
  induction a as [ | e a IH]; simpl; [reflexivity | ].
  destruct e; simpl; now rewrite IH.
Qed.

Lemma V2_do_unauthorized_decodes_nothing {T} (dec : V2.Decoder T) c req v st resp :
  V2.HTTPClient c req = inr resp ->
  V2.resp_StatusCode resp = 401 ->
  V2.decoded (V2.trace (final (V2.do dec c req v) st)) = V2.decoded (V2.trace st).
Proof.
  intros H H401. unfold final.
  rewrite (V2_do_unauthorized _ dec c req st v resp H H401). simpl.
  rewrite !V2_decoded_app. simpl. now rewrite !app_nil_r.
Qed.

(** C6: when the transport's reply has status 401, every v2 operation
    returns no value and the error "unauthorized"; the JSON decoder is given
    nothing and the target is not written, whatever the body is; and the
    error differs from every decode error. *)
Theorem unauthorized_before_decoding :
  (forall T (dec : V2.Decoder T) c req v st resp,
     V2.HTTPClient c req = inr resp ->
     V2.resp_StatusCode resp = 401 ->
     result (V2.do dec c req v) st
       = (v, (None, Some (V2.Errorf "unauthorized"))) /\
     V2.decoded (V2.trace (final (V2.do dec c req v) st))
       = V2.decoded (V2.trace st)) /\
  (forall http_err decQ c ctx st hreq resp,
     V2.queue_length_request http_err c ctx = inr hreq ->
     V2.HTTPClient c hreq = inr resp ->
     V2.resp_StatusCode resp = 401 ->
     result (V2.GetQueueLength http_err decQ c ctx) st
       = (None, Some (V2.Errorf "unauthorized")) /\
     V2.decoded (V2.trace (final (V2.GetQueueLength http_err decQ c ctx) st))
       = V2.decoded (V2.trace st)) /\
  (forall http_err decP now c ctx st hreq resp,
     V2.purge_request http_err c ctx (V2.request st) = inr hreq ->
     V2.HTTPClient c hreq = inr resp ->
     V2.resp_StatusCode resp = 401 ->
     result (V2.Purge http_err decP now c ctx) st
       = (None, Some (V2.Errorf "unauthorized")) /\
     V2.decoded (V2.trace (final (V2.Purge http_err decP now c ctx) st))
       = V2.decoded (V2.trace st)) /\
  (forall http_err decS c purgeID ctx st hreq resp,
     V2.purge_status_request http_err c purgeID ctx = inr hreq ->
     V2.HTTPClient c hreq = inr resp ->
     V2.resp_StatusCode resp = 401 ->
     result (V2.GetPurgeStatus http_err decS c purgeID ctx) st
       = (None, Some (V2.Errorf "unauthorized")) /\
     V2.decoded
       (V2.trace (final (V2.GetPurgeStatus http_err decS c purgeID ctx) st))
       = V2.decoded (V2.trace st)) /\
  (forall msg : string,
     V2.Errorf "unauthorized"
       <> V2.Errorf ("error decoding JSON response: " ++ msg)).
Proof.
  split; [ | split; [ | split; [ | split ] ] ].
  - intros T dec c req v st resp H H401. split.
    + unfold result. now rewrite (V2_do_unauthorized _ dec c req st v resp H H401).
    + now apply (V2_do_unauthorized_decodes_nothing dec c req v st resp).
  - intros http_err decQ c ctx st hreq resp Hb H H401.
    unfold V2.queue_length_request in Hb.
    unfold result, final, V2.GetQueueLength. rewrite Hb. unfold bind at 1 2.
    rewrite (V2_do_unauthorized _ decQ c hreq st _ resp H H401). simpl.
    split; [reflexivity | ].
    rewrite !V2_decoded_app. simpl. now rewrite !app_nil_r.
  - intros http_err decP now c ctx st hreq resp Hb H H401.
    unfold V2.purge_request in Hb.
    unfold result, final, V2.Purge, V2.load_request. unfold bind at 1 3.
    rewrite Hb. unfold bind at 1 2.
    rewrite (V2_do_unauthorized _ decP c hreq st _ resp H H401). simpl.
    split; [reflexivity | ].
    rewrite !V2_decoded_app. simpl. now rewrite !app_nil_r.
  - intros http_err decS c purgeID ctx st hreq resp Hb H H401.
    unfold V2.purge_status_request in Hb.
    unfold result, final, V2.GetPurgeStatus. rewrite Hb. unfold bind at 1 2.
    rewrite (V2_do_unauthorized _ decS c hreq st _ resp H H401). simpl.
    split; [reflexivity | ].
    rewrite !V2_decoded_app. simpl. now rewrite !app_nil_r.
  - intros msg. simpl. discriminate.
Qed.

(** A 401 reply whose body is not JSON, through each v2 operation. *)
Lemma unauthorized_before_decoding_witness :
  let c := Mock.client2 401 Mock.not_json in
  let st := Mock.store2 Mock.unset2 in
  (result (V2.GetQueueLength Mock.accept (Mock.decodeAs (Mock.queue2 200)) c
             (Some Mock.ctx)) st = (None, Some (V2.Errorf "unauthorized")) /\
   V2.decoded (V2.trace (final (V2.GetQueueLength Mock.accept
             (Mock.decodeAs (Mock.queue2 200)) c (Some Mock.ctx)) st)) = []) /\
  (result (V2.Purge Mock.accept (Mock.decodeAs (Mock.purged2 201)) Mock.now c
             (Some Mock.ctx)) st = (None, Some (V2.Errorf "unauthorized")) /\
   V2.decoded (V2.trace (final (V2.Purge Mock.accept
             (Mock.decodeAs (Mock.purged2 201)) Mock.now c (Some Mock.ctx)) st)) = []) /\
  (result (V2.GetPurgeStatus Mock.accept (Mock.decodeAs (Mock.status2 200 "Done"))
             c "abc" (Some Mock.ctx)) st = (None, Some (V2.Errorf "unauthorized")) /\
   V2.decoded (V2.trace (final (V2.GetPurgeStatus Mock.accept
             (Mock.decodeAs (Mock.status2 200 "Done")) c "abc" (Some Mock.ctx)) st)) = []).
Proof.
  intros c st.
  destruct unauthorized_before_decoding as (_ & HQ & HP & HS & _).
  split; [ | split ].
  - exact (HQ Mock.accept (Mock.decodeAs (Mock.queue2 200)) c (Some Mock.ctx) st
             _ _ eq_refl eq_refl eq_refl).
  - exact (HP Mock.accept (Mock.decodeAs (Mock.purged2 201)) Mock.now c (Some Mock.ctx)
             st _ _ eq_refl eq_refl eq_refl).
  - exact (HS Mock.accept (Mock.decodeAs (Mock.status2 200 "Done")) c "abc"
             (Some Mock.ctx) st _ _ eq_refl eq_refl eq_refl).
Defined.

(** ** Replies that do not decode *)

(** C7: when the body of a reply does not decode into the target, the
    decode step of either version returns the error "error decoding JSON
    response: " followed by the decoder's message; the v2 [do] returns no
    HTTP response with it, the v3 [do] returns the HTTP response with it. *)
Theorem decode_error_response (T : Type) :
  (forall (dec : V2.Decoder T) c req x x' st resp msg,
     V2.HTTPClient c req = inr resp ->
     V2.resp_StatusCode resp <> 401 ->
     dec (V2.resp_Body resp) x = (x', Some msg) ->
     snd (result (V2.do dec c req (Some x)) st)
       = (None, Some (V2.Errorf ("error decoding JSON response: " ++ msg)))) /\
  (forall (dec : V3.Decoder T) req x x' st resp msg,
     V3.HTTPClient (V3.client st) req = inr resp ->
     dec (V3.resp_Body resp) x = (x', Some msg) ->
     snd (result (V3.do dec req (Some x)) st)
       = (Some resp,
          Some (V3.Errorf ("error decoding JSON response: " ++ msg)))).
Proof.
  split.
  - intros dec c req x x' st resp msg H H401 Hd. unfold result.
    now rewrite (V2_do_decode_error _ dec c req st x x' resp msg H H401 Hd).
  - intros dec req x x' st resp msg H Hd. unfold result.
    now rewrite (V3_do_decode_error _ dec req x x' st resp msg H Hd).
Qed.

(** An HTML body with status 200 given to both decoders. *)
Lemma decode_error_response_witness :
  let msg := "invalid character '<' looking for beginning of value" in
  let body := Mock.not_json in
  snd (result (V2.do (Mock.decodeAs (Mock.purged2 201)) (Mock.client2 200 body)
                 (V2.mkHTTPRequest "POST" "u" None [] None None)
                 (Some V2.zeroPurgeResponse)) (Mock.store2 Mock.unset2))
    = (None, Some (V2.Errorf ("error decoding JSON response: " ++ msg))) /\
  snd (result (V3.do (Mock.decodeAs (Mock.purged3 201))
                 (V3.purge_request Mock.cfg None Mock.cpcode3)
                 (Some V3.zeroPurgeResponse)) (Mock.store3 200 body Mock.cpcode3))
    = (Some (V3.mkHTTPResponse 200 body),
       Some (V3.Errorf ("error decoding JSON response: " ++ msg))).
Proof.
  intros msg body. split.
  - refine (proj1 (decode_error_response V2.PurgeResponse)
              (Mock.decodeAs (Mock.purged2 201)) (Mock.client2 200 body)
              (V2.mkHTTPRequest "POST" "u" None [] None None)
              V2.zeroPurgeResponse _ (Mock.store2 Mock.unset2) _ _
              eq_refl _ eq_refl). simpl. lia.
  - exact (proj2 (decode_error_response V3.PurgeResponse)
             (Mock.decodeAs (Mock.purged3 201))
             (V3.purge_request Mock.cfg None Mock.cpcode3)
             V3.zeroPurgeResponse _ (Mock.store3 200 body Mock.cpcode3) _ _
             eq_refl eq_refl).
Defined.

(** ** Value and error at the public interface *)

Lemma V2_GetQueueLength_exclusive http_err decQ c ctx st :
  exclusive (result (V2.GetQueueLength http_err decQ c ctx) st).
Proof.
  unfold exclusive, result, V2.GetQueueLength.
  destruct (V2.newHTTPRequest _ _ _ _ _ _ _) as [[e | m] | hreq];
    [excl | excl | ].
  unfold V2.do, bind, ret, V2.emit.
  destruct (V2.HTTPClient c hreq) as [e | resp]; [excl | ].
  destruct (V2.resp_StatusCode resp =? 401); [excl | ].
  destruct (decQ _ _) as [x' [e | ]]; [excl | ]. simpl.
  destruct (V2.assertError _); excl.
Qed.

Lemma V2_Purge_exclusive http_err decP now c ctx st :
  exclusive (result (V2.Purge http_err decP now c ctx) st).
Proof.
  unfold exclusive, result, V2.Purge, V2.load_request, V2.do, V2.emit.
  unfold bind, ret.
  destruct (V2.newHTTPRequest _ _ _ _ _ _ _) as [[e | m] | hreq];
    [excl | excl | ].
  destruct (V2.HTTPClient c hreq) as [e | resp]; [excl | ].
  destruct (V2.resp_StatusCode resp =? 401); [excl | ].
  destruct (decP _ _) as [x' [e | ]]; [excl | ]. simpl.
  destruct (V2.assertError _); excl.
Qed.

Lemma V2_GetPurgeStatus_exclusive http_err decS c purgeID ctx st :
  exclusive (result (V2.GetPurgeStatus http_err decS c purgeID ctx) st).
Proof.
  unfold exclusive, result, V2.GetPurgeStatus.
  destruct (V2.newHTTPRequest _ _ _ _ _ _ _) as [[e | m] | hreq];
    [excl | excl | ].
  unfold V2.do, bind, ret, V2.emit.
  destruct (V2.HTTPClient c hreq) as [e | resp]; [excl | ].
  destruct (V2.resp_StatusCode resp =? 401); [excl | ].
  destruct (decS _ _) as [x' [e | ]]; [excl | ]. simpl.
  destruct (V2.assertError _); excl.
Qed.

Lemma V3_Purge_exclusive init build_err decP ctx st :
  exclusive (result (V3.Purge init build_err decP ctx) st).
Proof.
  unfold exclusive, result. rewrite V3_Purge_after_defaults.
  unfold V3.do, V3.load_client, V3.emit, bind, ret.
  rewrite V3_newHTTPRequest_eq.
  destruct (fst (V3.config init (V3.defaulted st))) as [e | cfg]; [excl | ].
  destruct (build_err _ _ _ _); [excl | ]. simpl.
  destruct (V3.HTTPClient _ _) as [e | resp]; [excl | ]. simpl.
  destruct (decP _ _) as [x' [e | ]]; [excl | ]. simpl.
  destruct (V3.assertError _); excl.
Qed.

(** C10: each public operation (v2 GetQueueLength, Purge and
    GetPurgeStatus, v3 Purge) returns no value whenever it returns an error,
    and no error whenever it returns a value; in particular, when the v3
    decoder fails and [do] returns the HTTP response together with the
    error, v3 Purge returns the error alone. *)
Theorem value_and_error_exclusive :
  (forall http_err decQ c ctx st,
     exclusive (result (V2.GetQueueLength http_err decQ c ctx) st)) /\
  (forall http_err decP now c ctx st,
     exclusive (result (V2.Purge http_err decP now c ctx) st)) /\
  (forall http_err decS c purgeID ctx st,
     exclusive (result (V2.GetPurgeStatus http_err decS c purgeID ctx) st)) /\
  (forall init build_err decP ctx st,
     exclusive (result (V3.Purge init build_err decP ctx) st)) /\
  (forall init build_err decP ctx st cfg resp x' msg,
     result (V3.config init) st = inr cfg ->
     build_err cfg "POST" (V3.Path (V3.withDefaults (V3.request st)))
       (Some (V3.encodePurgeRequest (V3.withDefaults (V3.request st)))) = None ->
     V3.HTTPClient (V3.client st) (V3.purge_request cfg ctx (V3.request st))
       = inr resp ->
     decP (V3.resp_Body resp) V3.zeroPurgeResponse = (x', Some msg) ->
     result (V3.Purge init build_err decP ctx) st
       = (None, Some (V3.Errorf ("error decoding JSON response: " ++ msg)))).
Proof.
  split; [ | split; [ | split; [ | split ] ] ].
  - exact V2_GetQueueLength_exclusive.
  - exact V2_Purge_exclusive.
  - exact V2_GetPurgeStatus_exclusive.
  - exact V3_Purge_exclusive.
  - intros init build_err decP ctx st cfg resp x' msg Hc Hb Ht Hd.
    unfold result at 1. rewrite (V3_Purge_built _ _ _ _ _ _ Hc Hb).
    unfold bind at 1.
    destruct (V3_config_frame init (V3.defaulted st)) as (_ & _ & Hcl).
    change (V3.client (V3.defaulted st)) with (V3.client st) in Hcl.
    rewrite <- Hcl in Ht.
    now rewrite (V3_do_decode_error _ _ _ _ _ _ _ _ Ht Hd).
Qed.

(** A v3 reply that does not decode: [Purge] returns the error alone. *)
Lemma value_and_error_exclusive_witness :
  result (V3.Purge Mock.init Mock.accept3 (Mock.decodeAs (Mock.purged3 201)) None)
    (Mock.store3 200 Mock.not_json Mock.cpcode3)
  = (None,
     Some (V3.Errorf ("error decoding JSON response: "
             ++ "invalid character '<' looking for beginning of value"))).
Proof.
  destruct value_and_error_exclusive as (_ & _ & _ & _ & H).
  exact (H Mock.init Mock.accept3 (Mock.decodeAs (Mock.purged3 201)) None
           (Mock.store3 200 Mock.not_json Mock.cpcode3) _ _ _ _
           eq_refl eq_refl eq_refl eq_refl).
Defined.

(** ** What the v2 Purge sends *)

(** A string that is valid UTF-8 is written as it is. *)
Lemma Utf8_coerce_from_valid (s : string) :
  forall pending,
    Utf8.valid_from pending s = true -> Utf8.coerce_from pending s = s.
Proof.
  induction s as [ | b rest IH]; intros pending; [reflexivity | ].
  cbn [Utf8.valid_from Utf8.coerce_from].
  destruct pending as [ | k].
  - destruct (Utf8.rune_width (String b rest)) as [ | k]; [discriminate | ].
    intros H. now rewrite (IH k H).
  - intros H. now rewrite (IH k H).
Qed.

Lemma Utf8_coerce_valid (s : string) :
  Utf8.valid s = true -> Utf8.coerce s = s.
Proof. apply Utf8_coerce_from_valid. Qed.

(** The bytes of an accepted rune are copied, so the rune is still there. *)
Lemma Utf8_rune_width_coerce (b : ascii) (rest : string) (k : nat) :
  Utf8.rune_width (String b rest) = S k ->
  Utf8.rune_width (String b (Utf8.coerce_from k rest)) = S k.
Proof.
  unfold Utf8.rune_width.
  destruct (Utf8.byte b <? 128)%N.
  { intros H. injection H as <-. reflexivity. }
  destruct (Utf8.byte b <? 194)%N; [discriminate | ].
  destruct (Utf8.byte b <? 224)%N.
  { destruct rest as [ | b1 r]; [discriminate | ].
    destruct (Utf8.continuation b1) eqn:E1; [ | discriminate ].
    intros H. injection H as <-. cbn [Utf8.coerce_from]. now rewrite E1. }
  destruct (Utf8.byte b <? 240)%N.
  { destruct rest as [ | b1 [ | b2 r]]; try discriminate.
    match goal with
    | |- (if ?t then _ else _) = _ -> _ => destruct t eqn:E1; [ | discriminate ]
    end.
    intros H. injection H as <-. cbn [Utf8.coerce_from]. now rewrite E1. }
  destruct (Utf8.byte b <? 245)%N; [ | discriminate ].
  destruct rest as [ | b1 [ | b2 [ | b3 r]]]; try discriminate.
  match goal with
  | |- (if ?t then _ else _) = _ -> _ => destruct t eqn:E1; [ | discriminate ]
  end.
  intros H. injection H as <-. cbn [Utf8.coerce_from]. now rewrite E1.
Qed.

(** What the encoder writes is always valid UTF-8. *)
Lemma Utf8_coerce_from_is_valid (s : string) :
  forall pending, Utf8.valid_from pending (Utf8.coerce_from pending s) = true.
Proof.
  induction s as [ | b rest IH]; intros pending; [reflexivity | ].
  cbn [Utf8.coerce_from].
  destruct pending as [ | k]; [ | cbn [Utf8.valid_from]; apply IH ].
  destruct (Utf8.rune_width (String b rest)) as [ | k] eqn:E.
  - change (Utf8.valid_from 0 (Utf8.coerce_from 0 rest) = true). apply IH.
  - cbn [Utf8.valid_from]. rewrite (Utf8_rune_width_coerce b rest k E).
    apply IH.
Qed.

Lemma Utf8_coerce_is_valid (s : string) : Utf8.valid (Utf8.coerce s) = true.
Proof. apply Utf8_coerce_from_is_valid. Qed.

Lemma V2_purge_request_body http_err c ctx req hreq :
  V2.purge_request http_err c ctx req = inr hreq ->
  V2.Method hreq = "POST" /\
  V2.Body hreq =
    Some (Json.Obj (Json.omitempty "type" (V2.Type_ req)
                    ++ Json.omitempty "action" (V2.Action req)
                    ++ Json.omitempty "domain" (V2.Domain req)
                    ++ [("objects", Json.strings (V2.Objects req))])).
Proof.
  unfold V2.purge_request, V2.newHTTPRequest, V2.encodePurgeRequest.
  destruct (http_err _ _); [discriminate | ].
  destruct ctx; [ | discriminate ].
  intros H. injection H as <-. split; reflexivity.
Qed.

Lemma V2_encoded_fields (req : V2.PurgeRequest) :
  let body := Json.Obj (Json.omitempty "type" (V2.Type_ req)
                        ++ Json.omitempty "action" (V2.Action req)
                        ++ Json.omitempty "domain" (V2.Domain req)
                        ++ [("objects", Json.strings (V2.Objects req))]) in
  Json.field "type" body
    = (if (V2.Type_ req =? "")%string then None
       else Some (Json.Str (Utf8.coerce (V2.Type_ req)))) /\
  Json.field "action" body
    = (if (V2.Action req =? "")%string then None
       else Some (Json.Str (Utf8.coerce (V2.Action req)))) /\
  Json.field "domain" body
    = (if (V2.Domain req =? "")%string then None
       else Some (Json.Str (Utf8.coerce (V2.Domain req)))).
Proof.
  unfold Json.omitempty, Json.string_value.
  destruct (V2.Type_ req =? "")%string, (V2.Action req =? "")%string,
    (V2.Domain req =? "")%string; simpl; auto.
Qed.

(** The requests [Purge] hands over and the caller's request afterwards. *)
Lemma V2_Purge_effect http_err decP now c ctx st :
  let st' := final (V2.Purge http_err decP now c ctx) st in
  V2.request st' = V2.request st /\
  V2.sent (V2.trace st') =
    (V2.sent (V2.trace st)
       ++ match V2.purge_request http_err c ctx (V2.request st) with
          | inr hreq => [hreq]
          | inl _ => []
          end)%list.
Proof.
  unfold final, V2.Purge, V2.load_request, V2.purge_request, V2.do, V2.fail.
  unfold V2.emit, bind, ret.
  destruct (V2.newHTTPRequest _ _ _ _ _ _ _) as [[e | m] | hreq];
    [ simpl; rewrite app_nil_r; split; reflexivity
    | simpl; rewrite V2_sent_app; simpl; rewrite !app_nil_r;
      split; reflexivity | ].
  destruct (V2.HTTPClient c hreq) as [e | resp];
    [ simpl; rewrite ?V2_sent_app; split; reflexivity | ].
  destruct (V2.resp_StatusCode resp =? 401);
    [ simpl; rewrite ?V2_sent_app; simpl; rewrite ?app_nil_r;
      split; reflexivity | ].
  destruct (decP _ _) as [x' [e | ]];
    [ simpl; rewrite ?V2_sent_app; simpl; rewrite ?app_nil_r;
      split; reflexivity | ].
  simpl. destruct (V2.assertError _);
    simpl; rewrite ?V2_sent_app; simpl; rewrite ?app_nil_r; split; reflexivity.
Qed.

(** C2, as stated, fails: a request with the three fields unset is sent
    with none of them in the payload, and stays unset afterwards. *)
Lemma v2_Purge_applies_no_defaults :
  let st' := final (V2.Purge Mock.accept (Mock.decodeAs (Mock.purged2 201))
                      Mock.now (Mock.client2 201 "{}") (Some Mock.ctx))
               (Mock.store2 Mock.unset2) in
  map V2.Body (V2.sent (V2.trace st'))
    = [Some (Json.Obj [("objects", Json.Arr [Json.Str "/a"])])] /\
  map V2.Body (V2.sent (V2.trace st'))
    <> [Some (Json.Obj [("type", Json.Str "arl"); ("action", Json.Str "remove");
                        ("domain", Json.Str "production");
                        ("objects", Json.Arr [Json.Str "/a"])])] /\
  V2.request st' = V2.mkPurgeRequest "" "" "" "" (Some ["/a"]).
Proof.
  split; [reflexivity | split; [ | reflexivity ] ].
  vm_compute. discriminate.
Qed.

(** C2, amended: the v2 Purge applies no defaults.  It hands exactly one
    request to the transport when the request can be built and none
    otherwise.  The payload leaves out each of type, action and domain that
    is unset and carries each one that is set as the JSON encoder writes a
    string: unchanged when it is valid UTF-8, and in general with U+FFFD in
    place of every byte that starts no valid encoding, so that what is
    written is always valid UTF-8.  The caller's request is never written,
    set or unset.  The defaults type=arl, action=remove, domain=production
    are those of the constructor [NewPurgeRequest]. *)
Theorem v2_Purge_sends_fields_as_given :
  (forall http_err decP now c ctx st,
     let req := V2.request st in
     let st' := final (V2.Purge http_err decP now c ctx) st in
     V2.request st' = req /\
     (forall err, V2.purge_request http_err c ctx req = inl err ->
        V2.sent (V2.trace st') = V2.sent (V2.trace st)) /\
     (forall hreq, V2.purge_request http_err c ctx req = inr hreq ->
        V2.sent (V2.trace st') = (V2.sent (V2.trace st) ++ [hreq])%list /\
        exists body, V2.Body hreq = Some body /\
          Json.field "type" body
            = (if (V2.Type_ req =? "")%string then None
               else Some (Json.Str (Utf8.coerce (V2.Type_ req)))) /\
          Json.field "action" body
            = (if (V2.Action req =? "")%string then None
               else Some (Json.Str (Utf8.coerce (V2.Action req)))) /\
          Json.field "domain" body
            = (if (V2.Domain req =? "")%string then None
               else Some (Json.Str (Utf8.coerce (V2.Domain req)))))) /\
  (forall s, Utf8.valid s = true -> Utf8.coerce s = s) /\
  (forall s, Utf8.valid (Utf8.coerce s) = true) /\
  (forall objects,
     V2.NewPurgeRequest objects
       = V2.mkPurgeRequest "" "arl" "remove" "production" objects).
Proof.
  split; [ | split; [ | split; [ | reflexivity ] ] ].
  - intros http_err decP now c ctx st req st'.
    destruct (V2_Purge_effect http_err decP now c ctx st) as [Hreq Hsent].
    fold st' in Hreq, Hsent. fold req in Hsent.
    split; [exact Hreq | split ].
    + intros err E. rewrite Hsent, E. now rewrite app_nil_r.
    + intros hreq E. split.
      * now rewrite Hsent, E.
      * destruct (V2_purge_request_body _ _ _ _ _ E) as [_ Hbody].
        eexists. split; [exact Hbody | ]. apply V2_encoded_fields.
  - exact Utf8_coerce_valid.
  - exact Utf8_coerce_is_valid.
Qed.

(** A request made by [NewPurgeRequest], one with only [Type] set, and one
    whose type is the single byte FF, which is not UTF-8. *)
Lemma v2_Purge_sends_fields_as_given_witness :
  let run := fun req =>
    final (V2.Purge Mock.accept (Mock.decodeAs (Mock.purged2 201)) Mock.now
             (Mock.client2 201 "{}") (Some Mock.ctx)) (Mock.store2 req) in
  let ff := String (ascii_of_N 255) "" in
  (exists hreq body,
     V2.sent (V2.trace (run (V2.NewPurgeRequest (Some ["/a"])))) = [hreq] /\
     V2.Body hreq = Some body /\
     Json.field "type" body = Some (Json.Str "arl") /\
     Json.field "action" body = Some (Json.Str "remove") /\
     Json.field "domain" body = Some (Json.Str "production")) /\
  (exists hreq body,
     V2.sent (V2.trace (run (V2.mkPurgeRequest "" "cpcode" "" "" (Some ["1"]))))
       = [hreq] /\
     V2.Body hreq = Some body /\
     Json.field "type" body = Some (Json.Str "cpcode") /\
     Json.field "action" body = None /\
     Json.field "domain" body = None) /\
  (exists hreq body,
     V2.sent (V2.trace (run (V2.mkPurgeRequest "" ff "" "" (Some ["1"]))))
       = [hreq] /\
     V2.Body hreq = Some body /\
     Json.field "type" body = Some (Json.Str Utf8.replacement)) /\
  Utf8.coerce "cpcode" = "cpcode".
Proof.
  intros run ff.
  destruct v2_Purge_sends_fields_as_given as (H & Hvalid & _).
  split; [ | split; [ | split ] ].
  - destruct (H Mock.accept (Mock.decodeAs (Mock.purged2 201)) Mock.now
                (Mock.client2 201 "{}") (Some Mock.ctx)
                (Mock.store2 (V2.NewPurgeRequest (Some ["/a"]))))
      as (_ & _ & Hs).
    destruct (Hs _ eq_refl) as (Hsent & body & Hb & Ht & Ha & Hd).
    eexists. exists body. split; [exact Hsent | ]. split; [exact Hb | ].
    split; [exact Ht | split; [exact Ha | exact Hd ] ].
  - destruct (H Mock.accept (Mock.decodeAs (Mock.purged2 201)) Mock.now
                (Mock.client2 201 "{}") (Some Mock.ctx)
                (Mock.store2 (V2.mkPurgeRequest "" "cpcode" "" "" (Some ["1"]))))
      as (_ & _ & Hs).
    destruct (Hs _ eq_refl) as (Hsent & body & Hb & Ht & Ha & Hd).
    eexists. exists body. split; [exact Hsent | ]. split; [exact Hb | ].
    split; [exact Ht | split; [exact Ha | exact Hd ] ].
  - destruct (H Mock.accept (Mock.decodeAs (Mock.purged2 201)) Mock.now
                (Mock.client2 201 "{}") (Some Mock.ctx)
                (Mock.store2 (V2.mkPurgeRequest "" ff "" "" (Some ["1"]))))
      as (_ & _ & Hs).
    destruct (Hs _ eq_refl) as (Hsent & body & Hb & Ht & _).
    eexists. exists body. split; [exact Hsent | ]. split; [exact Hb | ].
    exact Ht.
  - apply Hvalid. reflexivity.
Defined.

(** ** The caller's request after Purge *)

Lemma V3_sent_app (a b : list V3.Event) :
  V3.sent (a ++ b) = (V3.sent a ++ V3.sent b)%list.
Proof.
  induction a as [ | e a IH]; simpl; [reflexivity | ].
  destruct e; simpl; now rewrite IH.
Qed.

(** What [Purge] leaves in the store: the request with its defaults filled
    in, and at most one more request in the trace. *)
Lemma V3_Purge_effect init build_err decP ctx st :
  let st' := final (V3.Purge init build_err decP ctx) st in
  let req := V3.withDefaults (V3.request st) in
  V3.request st' = req /\
  V3.sent (V3.trace st') =
    (V3.sent (V3.trace st)
       ++ match result (V3.config init) st with
          | inl _ => []
          | inr cfg =>
              match build_err cfg "POST" (V3.Path req)
                      (Some (V3.encodePurgeRequest req)) with
              | Some _ => []
              | None => [V3.purge_request cfg ctx (V3.request st)]
              end
          end)%list.
Proof.
  unfold final, result.
  destruct (V3.Purge init build_err decP ctx st) as [r st'] eqn:E.
  rewrite V3_Purge_after_defaults in E.
  rewrite <- (V3_config_defaulted init st).
  destruct (V3_config_frame init (V3.defaulted st)) as (Hr & Ht & Hc).
  unfold bind at 1 in E. rewrite V3_newHTTPRequest_eq in E.
  destruct (V3.config init (V3.defaulted st)) as [[e | cfg] st1];
    simpl in Hr, Ht, Hc, E |- *.
  - injection E as <- <-. rewrite Hr, Ht, app_nil_r. split; reflexivity.
  - destruct (build_err _ _ _ _).
    + injection E as <- <-. simpl. rewrite V3_sent_app, Hr, Ht. simpl.
      rewrite !app_nil_r. split; reflexivity.
    + unfold V3.do, V3.load_client, V3.emit, bind, ret in E. simpl in E.
      unfold V3.purge_request.
      destruct (V3.HTTPClient _ _) as [e | resp]; simpl in E;
        [ injection E as <- <-; simpl; rewrite ?V3_sent_app, Hr, Ht;
          split; reflexivity | ].
      destruct (decP _ _) as [x' [e | ]]; simpl in E;
        [ injection E as <- <-; simpl; rewrite ?V3_sent_app, Hr, Ht; simpl;
          rewrite ?app_nil_r; split; reflexivity | ].
      destruct (V3.assertError _); simpl in E;
        injection E as <- <-; simpl; rewrite ?V3_sent_app, Hr, Ht; simpl;
        rewrite ?app_nil_r; split; reflexivity.
Qed.

(** C3, as stated, fails for v3: after Purge on a request with only
    [Type] set, the caller's request has [Action] and [Network] set too. *)
Lemma v3_Purge_writes_the_request :
  let st := Mock.store3 201 "{}" Mock.cpcode3 in
  let st' := final (V3.Purge Mock.init Mock.accept3
                      (Mock.decodeAs (Mock.purged3 201)) None) st in
  V3.request st = V3.mkPurgeRequest "cpcode" "" "" "" (Some ["123456"]) /\
  V3.request st'
    = V3.mkPurgeRequest "cpcode" "invalidate" "production" "" (Some ["123456"]) /\
  V3.request st' <> V3.request st.
Proof.
  split; [reflexivity | split; [reflexivity | ] ].
  vm_compute. discriminate.
Qed.

(** C3, amended: the v2 Purge leaves every field of the caller's request
    as it was.  The v3 Purge leaves [Hostname], [Objects] and every
    classification field that is set as they were, and writes the default
    into each classification field that is unset (type url, action
    invalidate, network production), whether or not the call then
    succeeds. *)
Theorem Purge_request_frame :
  (forall http_err decP now c ctx st,
     V2.request (final (V2.Purge http_err decP now c ctx) st) = V2.request st) /\
  (forall init build_err decP ctx st,
     let before := V3.request st in
     let after := V3.request (final (V3.Purge init build_err decP ctx) st) in
     V3.Hostname after = V3.Hostname before /\
     V3.Objects after = V3.Objects before /\
     (V3.Type_ before <> "" -> V3.Type_ after = V3.Type_ before) /\
     (V3.Action before <> "" -> V3.Action after = V3.Action before) /\
     (V3.Network before <> "" -> V3.Network after = V3.Network before) /\
     (V3.Type_ before = "" -> V3.Type_ after = "url") /\
     (V3.Action before = "" -> V3.Action after = "invalidate") /\
     (V3.Network before = "" -> V3.Network after = "production")).
Proof.
  split.
  - intros. apply V2_Purge_effect.
  - intros init build_err decP ctx st before after.
    destruct (V3_Purge_effect init build_err decP ctx st) as [Hr _].
    unfold after. rewrite Hr. unfold before, V3.withDefaults, V3.orDefault.
    simpl. repeat split; intros H;
      solve [ now rewrite (eqb_empty_false _ H)
            | now rewrite (eqb_empty_true _ H) ].
Qed.

(** A v3 request with only [Type] set, through a call that succeeds. *)
Lemma Purge_request_frame_witness :
  let st := Mock.store3 201 "{}" Mock.cpcode3 in
  let after := V3.request (final (V3.Purge Mock.init Mock.accept3
                                    (Mock.decodeAs (Mock.purged3 201)) None) st) in
  V3.Type_ after = "cpcode" /\ V3.Action after = "invalidate" /\
  V3.Network after = "production".
Proof.
  intros st after.
  destruct Purge_request_frame as [_ H].
  destruct (H Mock.init Mock.accept3 (Mock.decodeAs (Mock.purged3 201)) None st)
    as (_ & _ & Ht & _ & _ & _ & Ha & Hn).
  split; [ | split ].
  - apply Ht. discriminate.
  - apply Ha. reflexivity.
  - apply Hn. reflexivity.
Defined.

(** ** The path the v3 Purge posts to *)

Lemma Url_all_chars_app (p : ascii -> bool) (a b : string) :
  Url.all_chars p (a ++ b) = Url.all_chars p a && Url.all_chars p b.
Proof.
  induction a as [ | c a IH]; simpl; [reflexivity | ].
  rewrite IH. apply andb_assoc.
Qed.

Lemma Url_all_chars_weaken (p q : ascii -> bool) (s : string) :
  (forall c, p c = true -> q c = true) ->
  Url.all_chars p s = true -> Url.all_chars q s = true.
Proof.
  intros Hpq. induction s as [ | c s IH]; simpl; [reflexivity | ].
  intros H. apply andb_true_iff in H. destruct H as [Hc Hs].
  now rewrite (Hpq c Hc), (IH Hs).
Qed.

Lemma Url_segment_char_reference (c : ascii) :
  Url.segment_char c = true -> Url.reference_char c = true.
Proof.
  unfold Url.reference_char. now intros ->.
Qed.

Lemma Url_segment_char_no_delimiter (c : ascii) :
  Url.segment_char c = true -> Url.delimiter c = false.
Proof.
  destruct c as [[|] [|] [|] [|] [|] [|] [|] [|]];
    vm_compute; intros H; (reflexivity || discriminate H).
Qed.

(** A segment of field characters, and a slash after it, pass through the
    cut at the first delimiter. *)
Lemma Url_before_delimiter_plain (s rest : string) :
  Url.plain s = true ->
  Url.before_delimiter (s ++ rest) = s ++ Url.before_delimiter rest.
Proof.
  unfold Url.plain. induction s as [ | c s IH]; simpl; [reflexivity | ].
  intros H. apply andb_true_iff in H. destruct H as [Hc Hs].
  now rewrite (Url_segment_char_no_delimiter c Hc), (IH Hs).
Qed.

Lemma Url_before_delimiter_plain_end (s : string) :
  Url.plain s = true -> Url.before_delimiter s = s.
Proof.
  unfold Url.plain. induction s as [ | c s IH]; simpl; [reflexivity | ].
  intros H. apply andb_true_iff in H. destruct H as [Hc Hs].
  now rewrite (Url_segment_char_no_delimiter c Hc), (IH Hs).
Qed.

(** The path of three fields of field characters is the path of the
    request built for it. *)
Lemma V3_request_path_plain (a t n : string) :
  Url.plain a = true -> Url.plain t = true -> Url.plain n = true ->
  V3.request_path ("/ccu/v3/" ++ a ++ "/" ++ t ++ "/" ++ n)
    = Some ("/ccu/v3/" ++ a ++ "/" ++ t ++ "/" ++ n).
Proof.
  intros Ha Ht Hn.
  assert (Hr : forall s, Url.plain s = true ->
                         Url.all_chars Url.reference_char s = true).
  { intros s. apply Url_all_chars_weaken, Url_segment_char_reference. }
  change ("/ccu/v3/" ++ a ++ "/" ++ t ++ "/" ++ n)
    with (String "/" (String "c" ("cu/v3/" ++ a ++ "/" ++ t ++ "/" ++ n))).
  unfold V3.request_path.
  replace (Url.all_chars Url.reference_char
             ("cu/v3/" ++ a ++ "/" ++ t ++ "/" ++ n)) with true.
  2:{ symmetry.
      change ("cu/v3/" ++ a ++ "/" ++ t ++ "/" ++ n)
        with ("cu/v3/" ++ (a ++ "/" ++ (t ++ "/" ++ n))).
      rewrite !Url_all_chars_app.
      rewrite (Hr a Ha), (Hr t Ht), (Hr n Hn). reflexivity. }
  change ((("/" =? "/")%char && Url.segment_char "c" && true)) with true.
  cbv iota. f_equal. simpl.
  rewrite (Url_before_delimiter_plain a _ Ha). simpl.
  rewrite (Url_before_delimiter_plain t _ Ht). simpl.
  now rewrite (Url_before_delimiter_plain_end n Hn).
Qed.

(** C4, as stated, fails: the computed path is the argument given to the
    library's request builder, which reads it as a URL reference.  With
    network "production?x=1" the builder accepts, one request is sent, and
    its path is "/ccu/v3/invalidate/url/production", not the computed
    "/ccu/v3/invalidate/url/production?x=1". *)
Lemma v3_Purge_path_is_a_reference :
  let req := V3.mkPurgeRequest "url" "invalidate" "production?x=1" ""
               (Some ["/a"]) in
  let st' := final (V3.Purge Mock.init Mock.accept3
                      (Mock.decodeAs (Mock.purged3 201)) None)
               (Mock.store3 201 "{}" req) in
  V3.Path req = "/ccu/v3/invalidate/url/production?x=1" /\
  map V3.PathArg (V3.sent (V3.trace st'))
    = ["/ccu/v3/invalidate/url/production?x=1"] /\
  map (fun hreq => V3.request_path (V3.PathArg hreq)) (V3.sent (V3.trace st'))
    = [Some "/ccu/v3/invalidate/url/production"] /\
  map (fun hreq => V3.request_path (V3.PathArg hreq)) (V3.sent (V3.trace st'))
    <> [Some (V3.Path req)].
Proof.
  split; [reflexivity | split; [reflexivity | split; [reflexivity | ] ] ].
  vm_compute. discriminate.
Qed.

(** C4, amended: the v3 Purge computes "/ccu/v3/", the action, the type and
    the network, each taken from the request when set and replaced by its
    default (invalidate, url, production) when unset, and gives that string
    with the method POST to the library's request builder: every request it
    hands to the transport was built from them, and it hands over exactly
    one once a configuration is at hand and the builder accepts.  The
    builder reads the string as a URL reference; when the three fields are
    made of letters, digits, "-" and "_" only, the path of the request is
    the computed string itself.  Type url, action invalidate, network
    production give "/ccu/v3/invalidate/url/production"; type cpcode with
    the other two unset gives "/ccu/v3/invalidate/cpcode/production"; both
    are the paths of the requests built for them. *)
Theorem v3_Purge_posts_to_path :
  (forall init build_err decP ctx st,
     let req := V3.request st in
     let path := "/ccu/v3/" ++ V3.orDefault (V3.Action req) "invalidate"
                   ++ "/" ++ V3.orDefault (V3.Type_ req) "url"
                   ++ "/" ++ V3.orDefault (V3.Network req) "production" in
     let st' := final (V3.Purge init build_err decP ctx) st in
     (forall hreq, In hreq (V3.sent (V3.trace st')) ->
        In hreq (V3.sent (V3.trace st)) \/
        (V3.Method hreq = "POST" /\ V3.PathArg hreq = path)) /\
     (forall cfg,
        result (V3.config init) st = inr cfg ->
        build_err cfg "POST" path
          (Some (V3.encodePurgeRequest (V3.withDefaults req))) = None ->
        exists hreq,
          V3.sent (V3.trace st') = (V3.sent (V3.trace st) ++ [hreq])%list /\
          V3.Method hreq = "POST" /\ V3.PathArg hreq = path) /\
     (Url.plain (V3.orDefault (V3.Action req) "invalidate") = true ->
      Url.plain (V3.orDefault (V3.Type_ req) "url") = true ->
      Url.plain (V3.orDefault (V3.Network req) "production") = true ->
      V3.request_path path = Some path)) /\
  (forall hostname objects,
     V3.Path (V3.mkPurgeRequest "url" "invalidate" "production" hostname objects)
       = "/ccu/v3/invalidate/url/production" /\
     V3.request_path
       (V3.Path (V3.mkPurgeRequest "url" "invalidate" "production"
                   hostname objects))
       = Some "/ccu/v3/invalidate/url/production") /\
  (forall hostname objects,
     V3.Path (V3.withDefaults (V3.mkPurgeRequest "cpcode" "" "" hostname objects))
       = "/ccu/v3/invalidate/cpcode/production" /\
     V3.request_path
       (V3.Path (V3.withDefaults (V3.mkPurgeRequest "cpcode" "" ""
                                    hostname objects)))
       = Some "/ccu/v3/invalidate/cpcode/production").
Proof.
  split; [ | split; intros; split; reflexivity ].
  intros init build_err decP ctx st req path st'.
  destruct (V3_Purge_effect init build_err decP ctx st) as [_ Hs].
  fold st' in Hs. fold req in Hs.
  change (V3.Path (V3.withDefaults req)) with path in Hs.
  split; [ | split ].
  - intros hreq Hin. rewrite Hs in Hin. apply in_app_or in Hin.
    destruct Hin as [Hin | Hin]; [now left | right].
    destruct (result (V3.config init) st) as [e | cfg]; [destruct Hin | ].
    destruct (build_err _ _ _ _); [destruct Hin | ].
    destruct Hin as [<- | []]. split; reflexivity.
  - intros cfg Hc Hb. rewrite Hc, Hb in Hs.
    exists (V3.purge_request cfg ctx req). split; [exact Hs | ].
    split; reflexivity.
  - apply V3_request_path_plain.
Qed.

(** A request with only type cpcode set, through the v3 Purge: one POST,
    built for "/ccu/v3/invalidate/cpcode/production", which is the path of
    the request. *)
Lemma v3_Purge_posts_to_path_witness :
  let st' := final (V3.Purge Mock.init Mock.accept3
                      (Mock.decodeAs (Mock.purged3 201)) None)
               (Mock.store3 201 "{}" Mock.cpcode3) in
  (exists hreq,
     V3.sent (V3.trace st') = [hreq] /\
     V3.Method hreq = "POST" /\
     V3.PathArg hreq = "/ccu/v3/invalidate/cpcode/production") /\
  V3.request_path "/ccu/v3/invalidate/cpcode/production"
    = Some "/ccu/v3/invalidate/cpcode/production".
Proof.
  intros st'.
  destruct v3_Purge_posts_to_path as [H _].
  destruct (H Mock.init Mock.accept3 (Mock.decodeAs (Mock.purged3 201)) None
              (Mock.store3 201 "{}" Mock.cpcode3)) as (_ & H1 & H2).
  split.
  - exact (H1 Mock.cfg eq_refl eq_refl).
  - exact (H2 eq_refl eq_refl eq_refl).
Defined.

(** ** ETA and the submission time *)

Lemma wrap64_id (z : Z) :
  Go.minInt64 <= z <= Go.maxInt64 -> Go.wrap64 z = z.
Proof.
  unfold Go.minInt64, Go.maxInt64, Go.wrap64. intros H.
  rewrite Z.mod_small; lia.
Qed.

Lemma addSec_in_range (s d : Z) :
  Go.minInt64 <= s + d <= Go.maxInt64 -> Time.addSec s d = s + d.
Proof.
  intros H. unfold Time.addSec, Go.add64. rewrite (wrap64_id _ H).
  destruct (Z.ltb_spec s (s + d)), (Z.ltb_spec 0 d); simpl; try reflexivity; lia.
Qed.

Lemma Add_whole_seconds (x : Time.t) (s : Z) :
  Time.wf x ->
  - 9223372036 <= s <= 9223372036 ->
  Go.minInt64 <= Time.sec x + s <= Go.maxInt64 ->
  Time.Add x (Go.mul64 Time.Second s) = Time.plus_seconds x s.
Proof.
  intros [_ Hn] Hs Hsum. unfold Go.mul64, Time.Second.
  rewrite wrap64_id by (unfold Go.minInt64, Go.maxInt64; lia).
  unfold Time.Add, Time.plus_seconds.
  rewrite (Z.mul_comm 1000000000 s), Z.quot_mul, Z.rem_mul by lia.
  rewrite Z.add_0_r.
  destruct (Z.leb_spec 1000000000 (Time.nsec x)); [lia | ].
  destruct (Z.ltb_spec (Time.nsec x) 0); [lia | ].
  now rewrite addSec_in_range.
Qed.

(** C8, as stated, fails: with an estimate of 9223372037 seconds the
    product with [time.Second] wraps around in [int64], and [ETA()] is
    earlier than the submission time instead of later. *)
Lemma ETA_wraps_for_large_estimates :
  let p := V2.mkPurgeResponse (Mock.response2 201 "" "") 9223372037 "abc" "" 0
             Mock.now in
  Time.IsZero (V2.Time p) = false /\
  Go.mul64 Time.Second (V2.EstimatedSeconds p) = - 9223372036709551616 /\
  V2.ETA p = Time.mk 54676627963 290448884 /\
  V2.ETA p <> Time.plus_seconds (V2.Time p) (V2.EstimatedSeconds p).
Proof.
  split; [reflexivity | split; [reflexivity | split; [reflexivity | ] ] ].
  vm_compute. discriminate.
Qed.

(** C8, amended: [ETA()] returns the zero time when the recorded
    submission time is the zero time.  Otherwise, for a submission time T
    and an estimate of S seconds with S between -9223372036 and 9223372036
    (so that S seconds is a [time.Duration]) and T plus S seconds within the
    instants a [time.Time] can hold, it returns T plus S seconds.  Every
    response the v2 Purge returns carries the wall-clock reading of the call
    as its submission time and comes without an error; a call that fails
    returns no response. *)
Theorem ETA_and_submission_time :
  (forall p, Time.IsZero (V2.Time p) = true -> V2.ETA p = Time.zero) /\
  (forall p,
     Time.IsZero (V2.Time p) = false ->
     Time.wf (V2.Time p) ->
     - 9223372036 <= V2.EstimatedSeconds p <= 9223372036 ->
     Go.minInt64 <= Time.sec (V2.Time p) + V2.EstimatedSeconds p
       <= Go.maxInt64 ->
     V2.ETA p = Time.plus_seconds (V2.Time p) (V2.EstimatedSeconds p)) /\
  (forall http_err decP now c ctx st v,
     fst (result (V2.Purge http_err decP now c ctx) st) = Some v ->
     V2.Time v = now /\
     snd (result (V2.Purge http_err decP now c ctx) st) = None) /\
  (forall http_err decP now c ctx st err,
     snd (result (V2.Purge http_err decP now c ctx) st) = Some err ->
     fst (result (V2.Purge http_err decP now c ctx) st) = None).
Proof.
  split; [ | split; [ | split ] ].
  - intros p H. unfold V2.ETA. now rewrite H.
  - intros p H Hwf Hs Hsum. unfold V2.ETA. rewrite H.
    now apply Add_whole_seconds.
  - intros http_err decP now c ctx st v.
    unfold result, V2.Purge, V2.load_request, V2.do, V2.fail, V2.emit.
    unfold bind, ret.
    destruct (V2.newHTTPRequest _ _ _ _ _ _ _) as [[e | m] | hreq];
      [simpl; discriminate | simpl; discriminate | ].
    destruct (V2.HTTPClient c hreq) as [e | resp]; [simpl; discriminate | ].
    destruct (V2.resp_StatusCode resp =? 401); [simpl; discriminate | ].
    destruct (decP _ _) as [x' [e | ]]; [simpl; discriminate | ]. simpl.
    destruct (V2.assertError _) eqn:E; simpl; [discriminate | ].
    intros H. injection H as <-. split; reflexivity.
  - intros http_err decP now c ctx st err H.
    destruct (V2_Purge_exclusive http_err decP now c ctx st) as [Hx _].
    apply Hx. rewrite H. discriminate.
Qed.

(** A submission at [Mock.now] with an estimate of 300 seconds. *)
Lemma ETA_and_submission_time_witness :
  let run := result (V2.Purge Mock.accept (Mock.decodeAs (Mock.purged2 201))
                       Mock.now (Mock.client2 201 "{}") (Some Mock.ctx))
               (Mock.store2 Mock.unset2) in
  V2.ETA (Mock.purged2 201) = Time.zero /\
  V2.ETA (V2.set_Time (Mock.purged2 201) Mock.now)
    = Time.mk 63900000300 500 /\
  (forall v, fst run = Some v -> V2.Time v = Mock.now) /\
  fst run = Some (V2.set_Time (Mock.purged2 201) Mock.now).
Proof.
  intros run.
  destruct ETA_and_submission_time as (Hz & Hadd & Hstamp & _).
  split; [ | split; [ | split ] ].
  - apply Hz. reflexivity.
  - apply (Hadd (V2.set_Time (Mock.purged2 201) Mock.now)).
    + reflexivity.
    + unfold Time.wf, Go.minInt64, Go.maxInt64. simpl. lia.
    + simpl. lia.
    + unfold Go.minInt64, Go.maxInt64. simpl. lia.
  - intros v Hv.
    apply (Hstamp Mock.accept (Mock.decodeAs (Mock.purged2 201)) Mock.now
             (Mock.client2 201 "{}") (Some Mock.ctx) (Mock.store2 Mock.unset2) v Hv).
  - reflexivity.
Defined.

(** * Further properties of the two clients *)

(** ** The text of an error *)

(** X1: in both versions [Error()] never returns the empty string. *)
Theorem Error_never_empty (r2 : V2.Response) (r3 : V3.Response) :
  V2.Error r2 <> "" /\ V3.Error r3 <> "".
Proof.
  unfold V2.Error, V3.Error. split.
  - destruct (V2.Title r2) as [ | a t]; simpl; [discriminate | ].
    destruct (V2.Detail r2 =? "")%string; discriminate.
  - destruct (V3.Title r3) as [ | a t]; simpl; [discriminate | ].
    destruct (V3.Detail r3 =? "")%string; discriminate.
Qed.

(** ** The trace of a round trip *)

Lemma V2_closed_app (a b : list V2.Event) :
  V2.closed (a ++ b) = (V2.closed a ++ V2.closed b)%list.
Proof.
  induction a as [ | e a IH]; simpl; [reflexivity | ].
  destruct e; simpl; now rewrite IH.
Qed.

Lemma V3_closed_app (a b : list V3.Event) :
  V3.closed (a ++ b) = (V3.closed a ++ V3.closed b)%list.
Proof.
  induction a as [ | e a IH]; simpl; [reflexivity | ].
  destruct e; simpl; now rewrite IH.
Qed.

Lemma V3_decoded_app (a b : list V3.Event) :
  V3.decoded (a ++ b) = (V3.decoded a ++ V3.decoded b)%list.
Proof.
  induction a as [ | e a IH]; simpl; [reflexivity | ].
  destruct e; simpl; now rewrite IH.
Qed.

(** The events the v2 [do] adds, whatever it returns. *)
Lemma V2_do_trace {T} (dec : V2.Decoder T) c req (v : option T) st :
  V2.trace (final (V2.do dec c req v) st) =
  (V2.trace st ++ V2.EvSend req ::
     match V2.HTTPClient c req with
     | inl _ => []
     | inr resp =>
         (if V2.resp_StatusCode resp =? 401 then []
          else match v with
               | Some _ => [V2.EvDecode (V2.resp_Body resp)]
               | None => []
               end) ++ [V2.EvClose (V2.resp_Body resp)]
     end)%list.
Proof.
  unfold final, V2.do, V2.emit, bind, ret.
  destruct (V2.HTTPClient c req) as [e | resp]; simpl; [reflexivity | ].
  destruct (V2.resp_StatusCode resp =? 401); simpl;
    [ now rewrite <- app_assoc | ].
  destruct v as [x | ]; simpl; [ | now rewrite <- app_assoc ].
  destruct (dec _ _) as [x' [e | ]]; simpl; now rewrite <- !app_assoc.
Qed.

(** The events the v3 [do] adds, whatever it returns. *)
Lemma V3_do_trace {T} (dec : V3.Decoder T) req (v : option T) st :
  V3.trace (final (V3.do dec req v) st) =
  (V3.trace st ++ V3.EvSend req ::
     match V3.HTTPClient (V3.client st) req with
     | inl _ => []
     | inr resp =>
         match v with
         | Some _ => [V3.EvDecode (V3.resp_Body resp)]
         | None => []
         end ++ [V3.EvClose (V3.resp_Body resp)]
     end)%list.
Proof.
  unfold final, V3.do, V3.load_client, V3.emit, bind, ret. simpl.
  destruct (V3.HTTPClient _ req) as [e | resp]; simpl; [reflexivity | ].
  destruct v as [x | ]; simpl; [ | now rewrite <- app_assoc ].
  destruct (dec _ _) as [x' [e | ]]; simpl; now rewrite <- !app_assoc.
Qed.

(** After the round trip the v2 operations only compute. *)
Lemma V2_GetQueueLength_final http_err decQ c ctx st :
  final (V2.GetQueueLength http_err decQ c ctx) st =
  match V2.queue_length_request http_err c ctx with
  | inl (V2.Returns _) => st
  | inl (V2.Panics msg) =>
      V2.mkStore (V2.request st) (V2.trace st ++ [V2.EvPanic msg])
  | inr hreq =>
      final (V2.do decQ c hreq (Some V2.zeroQueueLengthResponse)) st
  end.
Proof.
  unfold final, V2.GetQueueLength, V2.queue_length_request.
  destruct (V2.newHTTPRequest _ _ _ _ _ _ _) as [[e | m] | hreq];
    [reflexivity | reflexivity | ].
  unfold bind.
  destruct (V2.do decQ c hreq _ st) as [[x [resp [e | ]]] st']; simpl;
    [reflexivity | ].
  destruct (V2.assertError _); reflexivity.
Qed.

Lemma V2_Purge_final http_err decP now c ctx st :
  final (V2.Purge http_err decP now c ctx) st =
  match V2.purge_request http_err c ctx (V2.request st) with
  | inl (V2.Returns _) => st
  | inl (V2.Panics msg) =>
      V2.mkStore (V2.request st) (V2.trace st ++ [V2.EvPanic msg])
  | inr hreq => final (V2.do decP c hreq (Some V2.zeroPurgeResponse)) st
  end.
Proof.
  unfold final, V2.Purge, V2.purge_request, V2.load_request.
  unfold bind at 1.
  destruct (V2.newHTTPRequest _ _ _ _ _ _ _) as [[e | m] | hreq];
    [reflexivity | reflexivity | ].
  unfold bind.
  destruct (V2.do decP c hreq _ st) as [[x [resp [e | ]]] st']; simpl;
    [reflexivity | ].
  destruct (V2.assertError _); reflexivity.
Qed.

Lemma V2_GetPurgeStatus_final http_err decS c purgeID ctx st :
  final (V2.GetPurgeStatus http_err decS c purgeID ctx) st =
  match V2.purge_status_request http_err c purgeID ctx with
  | inl (V2.Returns _) => st
  | inl (V2.Panics msg) =>
      V2.mkStore (V2.request st) (V2.trace st ++ [V2.EvPanic msg])
  | inr hreq =>
      final (V2.do decS c hreq (Some V2.zeroPurgeStatusResponse)) st
  end.
Proof.
  unfold final, V2.GetPurgeStatus, V2.purge_status_request.
  destruct (V2.newHTTPRequest _ _ _ _ _ _ _) as [[e | m] | hreq];
    [reflexivity | reflexivity | ].
  unfold bind.
  destruct (V2.do decS c hreq _ st) as [[x [resp [e | ]]] st']; simpl;
    [reflexivity | ].
  destruct (V2.assertError _); reflexivity.
Qed.

(** After the defaults the v3 Purge is: configuration, builder, round
    trip. *)
Lemma V3_Purge_final init build_err decP ctx st :
  final (V3.Purge init build_err decP ctx) st =
  match result (V3.config init) st with
  | inl _ => final (V3.config init) (V3.defaulted st)
  | inr cfg =>
      match build_err cfg "POST" (V3.Path (V3.withDefaults (V3.request st)))
              (Some (V3.encodePurgeRequest (V3.withDefaults (V3.request st))))
      with
      | Some _ =>
          final (V3.emit
                   (V3.EvPanic
                      "runtime error: invalid memory address or nil pointer dereference"))
            (final (V3.config init) (V3.defaulted st))
      | None =>
          final (V3.do decP (V3.purge_request cfg ctx (V3.request st))
                   (Some V3.zeroPurgeResponse))
            (final (V3.config init) (V3.defaulted st))
      end
  end.
Proof.
  unfold final, result. rewrite V3_Purge_after_defaults.
  rewrite <- (V3_config_defaulted init st).
  unfold bind at 1. rewrite V3_newHTTPRequest_eq.
  destruct (V3.config init (V3.defaulted st)) as [[e | cfg] st1]; simpl;
    [reflexivity | ].
  destruct (build_err _ _ _ _); [reflexivity | ].
  unfold V3.purge_request, bind.
  destruct (V3.do decP _ _ st1) as [[x [resp [e | ]]] st']; simpl;
    [reflexivity | ].
  destruct (V3.assertError _); reflexivity.
Qed.

(** The store in which the v3 Purge builds its request. *)
Lemma V3_config_final init st :
  final (V3.config init) (V3.defaulted st) =
  V3.mkStore
    (match V3.Config (V3.client st), result (V3.config init) st with
     | None, inr cfg => V3.mkClient (V3.HTTPClient (V3.client st)) (Some cfg)
     | _, _ => V3.client st
     end)
    (V3.withDefaults (V3.request st)) (V3.trace st).
Proof.
  unfold final, result, V3.config, V3.load_client, V3.store_Config, bind, ret.
  unfold V3.defaulted. simpl.
  destruct (V3.Config (V3.client st)); [reflexivity | ].
  destruct (init "" ""); reflexivity.
Qed.

(** ** A transport that fails *)

(** X4: when the transport fails, each operation of either version
    returns no value and the error "error sending HTTP request: " followed by
    the transport's message; the request was handed over, nothing is given
    to the decoder and no body is closed. *)
Theorem transport_failure :
  (forall http_err decQ c ctx st hreq err,
     V2.queue_length_request http_err c ctx = inr hreq ->
     V2.HTTPClient c hreq = inl err ->
     result (V2.GetQueueLength http_err decQ c ctx) st
       = (None, Some (V2.Errorf ("error sending HTTP request: " ++ err))) /\
     V2.trace (final (V2.GetQueueLength http_err decQ c ctx) st)
       = (V2.trace st ++ [V2.EvSend hreq])%list) /\
  (forall http_err decP now c ctx st hreq err,
     V2.purge_request http_err c ctx (V2.request st) = inr hreq ->
     V2.HTTPClient c hreq = inl err ->
     result (V2.Purge http_err decP now c ctx) st
       = (None, Some (V2.Errorf ("error sending HTTP request: " ++ err))) /\
     V2.trace (final (V2.Purge http_err decP now c ctx) st)
       = (V2.trace st ++ [V2.EvSend hreq])%list) /\
  (forall http_err decS c purgeID ctx st hreq err,
     V2.purge_status_request http_err c purgeID ctx = inr hreq ->
     V2.HTTPClient c hreq = inl err ->
     result (V2.GetPurgeStatus http_err decS c purgeID ctx) st
       = (None, Some (V2.Errorf ("error sending HTTP request: " ++ err))) /\
     V2.trace (final (V2.GetPurgeStatus http_err decS c purgeID ctx) st)
       = (V2.trace st ++ [V2.EvSend hreq])%list) /\
  (forall init build_err decP ctx st cfg err,
     result (V3.config init) st = inr cfg ->
     build_err cfg "POST" (V3.Path (V3.withDefaults (V3.request st)))
       (Some (V3.encodePurgeRequest (V3.withDefaults (V3.request st)))) = None ->
     V3.HTTPClient (V3.client st) (V3.purge_request cfg ctx (V3.request st))
       = inl err ->
     result (V3.Purge init build_err decP ctx) st
       = (None, Some (V3.Errorf ("error sending HTTP request: " ++ err))) /\
     V3.trace (final (V3.Purge init build_err decP ctx) st)
       = (V3.trace st
            ++ [V3.EvSend (V3.purge_request cfg ctx (V3.request st))])%list).
Proof.
  split; [ | split; [ | split ] ].
  - intros http_err decQ c ctx st hreq err Hb Ht. split.
    + unfold V2.queue_length_request in Hb.
      unfold result, V2.GetQueueLength. rewrite Hb. unfold bind.
      now rewrite (V2_do_transport_error _ decQ c hreq st _ err Ht).
    + rewrite V2_GetQueueLength_final, Hb, V2_do_trace, Ht. reflexivity.
  - intros http_err decP now c ctx st hreq err Hb Ht. split.
    + unfold V2.purge_request in Hb.
      unfold result, V2.Purge, V2.load_request. unfold bind at 1.
      rewrite Hb. unfold bind.
      now rewrite (V2_do_transport_error _ decP c hreq st _ err Ht).
    + rewrite V2_Purge_final, Hb, V2_do_trace, Ht. reflexivity.
  - intros http_err decS c purgeID ctx st hreq err Hb Ht. split.
    + unfold V2.purge_status_request in Hb.
      unfold result, V2.GetPurgeStatus. rewrite Hb. unfold bind.
      now rewrite (V2_do_transport_error _ decS c hreq st _ err Ht).
    + rewrite V2_GetPurgeStatus_final, Hb, V2_do_trace, Ht. reflexivity.
  - intros init build_err decP ctx st cfg err Hc Hb Ht.
    assert (Ht' : V3.HTTPClient
                    (V3.client (final (V3.config init) (V3.defaulted st)))
                    (V3.purge_request cfg ctx (V3.request st)) = inl err).
    { rewrite V3_config_final. simpl.
      destruct (V3.Config (V3.client st)); [exact Ht | ].
      destruct (result (V3.config init) st); exact Ht. }
    split.
    + unfold result at 1. rewrite (V3_Purge_built _ _ _ _ _ _ Hc Hb).
      unfold bind.
      now rewrite (V3_do_transport_error _ decP _ _ _ err Ht').
    + rewrite V3_Purge_final, Hc, Hb, V3_do_trace, Ht'.
      now rewrite V3_config_final.
Qed.

(** A transport that cannot connect, under a v2 Purge and a v3 Purge. *)
Lemma transport_failure_witness :
  result (V2.Purge Mock.accept (Mock.decodeAs (Mock.purged2 201)) Mock.now
            Failing.client2 (Some Mock.ctx)) (Mock.store2 Mock.unset2)
    = (None, Some (V2.Errorf
                     "error sending HTTP request: dial tcp: connection refused"))
  /\
  result (V3.Purge Mock.init Mock.accept3 (Mock.decodeAs (Mock.purged3 201)) None)
    (Failing.store3 Mock.cpcode3)
    = (None, Some (V3.Errorf
                     "error sending HTTP request: dial tcp: connection refused")).
Proof.
  destruct transport_failure as (_ & HP & _ & HP3).
  split.
  - exact (proj1 (HP Mock.accept (Mock.decodeAs (Mock.purged2 201)) Mock.now
                    Failing.client2 (Some Mock.ctx) (Mock.store2 Mock.unset2) _ _
                    eq_refl eq_refl)).
  - exact (proj1 (HP3 Mock.init Mock.accept3 (Mock.decodeAs (Mock.purged3 201))
                    None (Failing.store3 Mock.cpcode3) _ _
                    eq_refl eq_refl eq_refl)).
Defined.

(** ** Closing the body of a reply *)

Lemma V2_do_closed {T} (dec : V2.Decoder T) c req (v : option T) st resp :
  V2.HTTPClient c req = inr resp ->
  V2.closed (V2.trace (final (V2.do dec c req v) st))
    = (V2.closed (V2.trace st) ++ [V2.resp_Body resp])%list.
Proof.
  intros Ht. rewrite V2_do_trace, Ht, V2_closed_app. simpl.
  destruct (V2.resp_StatusCode resp =? 401); [reflexivity | ].
  destruct v; reflexivity.
Qed.

Lemma V3_do_closed {T} (dec : V3.Decoder T) req (v : option T) st resp :
  V3.HTTPClient (V3.client st) req = inr resp ->
  V3.closed (V3.trace (final (V3.do dec req v) st))
    = (V3.closed (V3.trace st) ++ [V3.resp_Body resp])%list.
Proof.
  intros Ht. rewrite V3_do_trace, Ht, V3_closed_app. simpl.
  destruct v; reflexivity.
Qed.

(** X5: whenever the transport returns a reply, its body is closed exactly
    once by the end of the call, in [do] of either version with or without a
    target and in each of the four operations, whether the call ends in
    success, in "unauthorized", in a decode error or in an API error. *)
Theorem reply_body_closed_once :
  (forall T (dec : V2.Decoder T) c req v st resp,
     V2.HTTPClient c req = inr resp ->
     V2.closed (V2.trace (final (V2.do dec c req v) st))
       = (V2.closed (V2.trace st) ++ [V2.resp_Body resp])%list) /\
  (forall T (dec : V3.Decoder T) req v st resp,
     V3.HTTPClient (V3.client st) req = inr resp ->
     V3.closed (V3.trace (final (V3.do dec req v) st))
       = (V3.closed (V3.trace st) ++ [V3.resp_Body resp])%list) /\
  (forall http_err decQ c ctx st hreq resp,
     V2.queue_length_request http_err c ctx = inr hreq ->
     V2.HTTPClient c hreq = inr resp ->
     V2.closed (V2.trace (final (V2.GetQueueLength http_err decQ c ctx) st))
       = (V2.closed (V2.trace st) ++ [V2.resp_Body resp])%list) /\
  (forall http_err decP now c ctx st hreq resp,
     V2.purge_request http_err c ctx (V2.request st) = inr hreq ->
     V2.HTTPClient c hreq = inr resp ->
     V2.closed (V2.trace (final (V2.Purge http_err decP now c ctx) st))
       = (V2.closed (V2.trace st) ++ [V2.resp_Body resp])%list) /\
  (forall http_err decS c purgeID ctx st hreq resp,
     V2.purge_status_request http_err c purgeID ctx = inr hreq ->
     V2.HTTPClient c hreq = inr resp ->
     V2.closed
       (V2.trace (final (V2.GetPurgeStatus http_err decS c purgeID ctx) st))
       = (V2.closed (V2.trace st) ++ [V2.resp_Body resp])%list) /\
  (forall init build_err decP ctx st cfg resp,
     result (V3.config init) st = inr cfg ->
     build_err cfg "POST" (V3.Path (V3.withDefaults (V3.request st)))
       (Some (V3.encodePurgeRequest (V3.withDefaults (V3.request st)))) = None ->
     V3.HTTPClient (V3.client st) (V3.purge_request cfg ctx (V3.request st))
       = inr resp ->
     V3.closed (V3.trace (final (V3.Purge init build_err decP ctx) st))
       = (V3.closed (V3.trace st) ++ [V3.resp_Body resp])%list).
Proof.
  split; [ | split; [ | split; [ | split; [ | split ] ] ] ].
  - intros. now apply V2_do_closed.
  - intros. now apply V3_do_closed.
  - intros http_err decQ c ctx st hreq resp Hb Ht.
    rewrite V2_GetQueueLength_final, Hb. now apply V2_do_closed.
  - intros http_err decP now c ctx st hreq resp Hb Ht.
    rewrite V2_Purge_final, Hb. now apply V2_do_closed.
  - intros http_err decS c purgeID ctx st hreq resp Hb Ht.
    rewrite V2_GetPurgeStatus_final, Hb. now apply V2_do_closed.
  - intros init build_err decP ctx st cfg resp Hc Hb Ht.
    rewrite V3_Purge_final, Hc, Hb.
    rewrite (V3_do_closed decP _ _ _ resp).
    + now rewrite V3_config_final.
    + rewrite V3_config_final. simpl.
      destruct (V3.Config (V3.client st)); [exact Ht | ].
      destruct (result (V3.config init) st); exact Ht.
Qed.

(** A 401 reply under the v2 Purge and an undecodable reply under the v3
    Purge: each body is closed once. *)
Lemma reply_body_closed_once_witness :
  V2.closed (V2.trace (final (V2.Purge Mock.accept
      (Mock.decodeAs (Mock.purged2 201)) Mock.now (Mock.client2 401 "denied")
      (Some Mock.ctx)) (Mock.store2 Mock.unset2))) = ["denied"] /\
  V3.closed (V3.trace (final (V3.Purge Mock.init Mock.accept3
      (Mock.decodeAs (Mock.purged3 201)) None)
      (Mock.store3 200 Mock.not_json Mock.cpcode3))) = [Mock.not_json].
Proof.
  destruct reply_body_closed_once as (_ & _ & _ & HP & _ & HP3).
  split.
  - exact (HP Mock.accept (Mock.decodeAs (Mock.purged2 201)) Mock.now
             (Mock.client2 401 "denied") (Some Mock.ctx) (Mock.store2 Mock.unset2)
             _ _ eq_refl eq_refl).
  - exact (HP3 Mock.init Mock.accept3 (Mock.decodeAs (Mock.purged3 201)) None
             (Mock.store3 200 Mock.not_json Mock.cpcode3) _ _
             eq_refl eq_refl eq_refl).
Defined.

(** ** The requests the v2 operations send *)

Lemma V2_do_sent {T} (dec : V2.Decoder T) c req (v : option T) st :
  V2.sent (V2.trace (final (V2.do dec c req v) st))
    = (V2.sent (V2.trace st) ++ [req])%list.
Proof.
  rewrite V2_do_trace, V2_sent_app. simpl.
  destruct (V2.HTTPClient c req) as [e | resp]; [reflexivity | ].
  destruct (V2.resp_StatusCode resp =? 401); [reflexivity | ].
  destruct v; reflexivity.
Qed.

Lemma V2_do_final_request {T} (dec : V2.Decoder T) c req (v : option T) st :
  V2.request (final (V2.do dec c req v) st) = V2.request st.
Proof. apply V2_do_request. Qed.

Lemma Url_before_delimiter_path (s : string) :
  Url.all_chars (fun c => Url.segment_char c || (c =? "/")%char) s = true ->
  Url.before_delimiter s = s.
Proof.
  induction s as [ | c s IH]; simpl; [reflexivity | ].
  intros H. apply andb_true_iff in H. destruct H as [Hc Hs].
  rewrite (IH Hs).
  replace (Url.delimiter c) with false; [reflexivity | ].
  apply orb_true_iff in Hc. destruct Hc as [Hc | Hc].
  - symmetry. now apply Url_segment_char_no_delimiter.
  - apply Ascii.eqb_eq in Hc. now subst c.
Qed.

(** A URL string made of [apiURL], a slash and segments of letters, digits,
    [-] and [_] is the address of the request built for it. *)
Lemma V2_request_path_segments (p : string) :
  Url.all_chars (fun c => Url.segment_char c || (c =? "/")%char) p = true ->
  V2.request_path (V2.apiURL ++ "/" ++ p) = Some ("/" ++ p).
Proof.
  intros H. unfold V2.request_path.
  change (Url.strip_prefix V2.apiURL (V2.apiURL ++ "/" ++ p))
    with (Some (String "/" p)).
  simpl.
  assert (Hr : Url.all_chars Url.reference_char p = true).
  { revert H. apply Url_all_chars_weaken.
    intros c Hc. unfold Url.reference_char.
    apply orb_true_iff in Hc. destruct Hc as [-> | ->]; [reflexivity | ].
    now rewrite orb_true_r. }
  now rewrite Hr, (Url_before_delimiter_path p H).
Qed.

Lemma V2_request_path_under (dir name : string) :
  Url.all_chars (fun c => Url.segment_char c || (c =? "/")%char) dir = true ->
  Url.plain name = true ->
  V2.request_path (V2.apiURL ++ "/" ++ dir ++ name) = Some ("/" ++ dir ++ name).
Proof.
  intros Hd Hn. apply V2_request_path_segments.
  rewrite Url_all_chars_app, Hd. simpl.
  revert Hn. apply Url_all_chars_weaken. now intros c ->.
Qed.

(** X2: each v2 operation calls [http.NewRequest] once, with the method
    and the URL string below, and when that accepts and the context is not
    nil hands exactly the request so built to the transport.  The two
    queries ask for a GET with no body, and set no Content-Type header, with
    the URL strings of the default queue and of the purge; Purge asks for a
    POST with a JSON body, sets the Content-Type application/json, and
    passes the URL string of the request's queue, "default" when the queue
    is blank.  Every request carries the client's user name and password as
    basic authentication and the caller's context.  The two queries do not
    write the stored request.  With a nil context each operation panics once
    the request is built, and nothing reaches the transport.
    [http.NewRequest] parses the URL string: for the default queue, and for a
    queue name or a purge id made of letters, digits, "-" and "_", the path
    of the request is the one written in the string; a "?" or "#" in the
    purge id ends the path there. *)
Theorem v2_requests_sent :
  (forall http_err decQ c (ctx : Go.Context) st,
     http_err "GET" "https://api.ccu.akamai.com/ccu/v2/queues/default" = None ->
     let st' := final (V2.GetQueueLength http_err decQ c (Some ctx)) st in
     V2.sent (V2.trace st')
       = (V2.sent (V2.trace st)
            ++ [V2.mkHTTPRequest "GET"
                  "https://api.ccu.akamai.com/ccu/v2/queues/default" None []
                  (Some (V2.Username c, V2.Password c)) (Some ctx)])%list /\
     V2.request st' = V2.request st) /\
  (forall http_err decP now c (ctx : Go.Context) st,
     let req := V2.request st in
     let url := "https://api.ccu.akamai.com/ccu/v2/queues/"
                  ++ (if (V2.Queue req =? "")%string then "default"
                      else V2.Queue req) in
     http_err "POST" url = None ->
     let st' := final (V2.Purge http_err decP now c (Some ctx)) st in
     exists body,
       V2.sent (V2.trace st')
         = (V2.sent (V2.trace st)
              ++ [V2.mkHTTPRequest "POST" url (Some body)
                    [("Content-Type", "application/json")]
                    (Some (V2.Username c, V2.Password c)) (Some ctx)])%list) /\
  (forall http_err decS c purgeID (ctx : Go.Context) st,
     let url := "https://api.ccu.akamai.com/ccu/v2/purges/" ++ purgeID in
     http_err "GET" url = None ->
     let st' := final (V2.GetPurgeStatus http_err decS c purgeID (Some ctx)) st in
     V2.sent (V2.trace st')
       = (V2.sent (V2.trace st)
            ++ [V2.mkHTTPRequest "GET" url None []
                  (Some (V2.Username c, V2.Password c)) (Some ctx)])%list /\
     V2.request st' = V2.request st) /\
  (forall http_err decQ decP decS now c purgeID st,
     let panicked :=
       V2.mkStore (V2.request st) (V2.trace st ++ [V2.EvPanic "nil context"]) in
     (http_err "GET" "https://api.ccu.akamai.com/ccu/v2/queues/default" = None ->
      V2.GetQueueLength http_err decQ c None st = ((None, None), panicked)) /\
     (http_err "POST"
        ("https://api.ccu.akamai.com/ccu/v2/queues/"
           ++ (if (V2.Queue (V2.request st) =? "")%string then "default"
               else V2.Queue (V2.request st))) = None ->
      V2.Purge http_err decP now c None st = ((None, None), panicked)) /\
     (http_err "GET" ("https://api.ccu.akamai.com/ccu/v2/purges/" ++ purgeID)
        = None ->
      V2.GetPurgeStatus http_err decS c purgeID None st
        = ((None, None), panicked))) /\
  (V2.request_path "https://api.ccu.akamai.com/ccu/v2/queues/default"
     = Some "/ccu/v2/queues/default" /\
   (forall queue, Url.plain queue = true ->
      V2.request_path ("https://api.ccu.akamai.com/ccu/v2/queues/" ++ queue)
        = Some ("/ccu/v2/queues/" ++ queue)) /\
   (forall purgeID, Url.plain purgeID = true ->
      V2.request_path ("https://api.ccu.akamai.com/ccu/v2/purges/" ++ purgeID)
        = Some ("/ccu/v2/purges/" ++ purgeID)) /\
   V2.request_path "https://api.ccu.akamai.com/ccu/v2/purges/a?x=1#f"
     = Some "/ccu/v2/purges/a").
Proof.
  split; [ | split; [ | split; [ | split ] ] ].
  5:{ split; [reflexivity | split; [ | split; [ | reflexivity ] ] ].
      - intros queue H.
        exact (V2_request_path_under "ccu/v2/queues/" queue eq_refl H).
      - intros purgeID H.
        exact (V2_request_path_under "ccu/v2/purges/" purgeID eq_refl H). }
  - intros http_err decQ c ctx st Hok st'. unfold st'.
    rewrite V2_GetQueueLength_final.
    unfold V2.queue_length_request, V2.newHTTPRequest, V2.apiURL. simpl.
    rewrite Hok. split; [apply V2_do_sent | apply V2_do_final_request].
  - intros http_err decP now c ctx st req url Hok st'. unfold st'.
    rewrite V2_Purge_final.
    unfold V2.purge_request. fold req.
    change (V2.apiURL ++ "/ccu/v2/queues/"
              ++ (if (V2.Queue req =? "")%string then "default"
                  else V2.Queue req)) with url.
    unfold V2.newHTTPRequest, V2.encodePurgeRequest. rewrite Hok.
    eexists. apply V2_do_sent.
  - intros http_err decS c purgeID ctx st url Hok st'. unfold st'.
    rewrite V2_GetPurgeStatus_final.
    unfold V2.purge_status_request.
    change (V2.apiURL ++ "/ccu/v2/purges/" ++ purgeID) with url.
    unfold V2.newHTTPRequest, V2.no_payload. rewrite Hok.
    split; [apply V2_do_sent | apply V2_do_final_request].
  - intros http_err decQ decP decS now c purgeID st panicked.
    split; [ | split ].
    + intros Hok. unfold V2.GetQueueLength, V2.newHTTPRequest, V2.apiURL.
      simpl. now rewrite Hok.
    + intros Hok. unfold V2.Purge, V2.load_request. unfold bind at 1.
      change (V2.apiURL ++ "/ccu/v2/queues/"
                ++ (if (V2.Queue (V2.request st) =? "")%string then "default"
                    else V2.Queue (V2.request st)))
        with ("https://api.ccu.akamai.com/ccu/v2/queues/"
                ++ (if (V2.Queue (V2.request st) =? "")%string then "default"
                    else V2.Queue (V2.request st))).
      unfold V2.newHTTPRequest, V2.encodePurgeRequest. now rewrite Hok.
    + intros Hok. unfold V2.GetPurgeStatus.
      change (V2.apiURL ++ "/ccu/v2/purges/" ++ purgeID)
        with ("https://api.ccu.akamai.com/ccu/v2/purges/" ++ purgeID).
      unfold V2.newHTTPRequest, V2.no_payload. now rewrite Hok.
Qed.

(** The three operations against a transport that answers 200, and a purge
    with a nil context. *)
Lemma v2_requests_sent_witness :
  V2.sent (V2.trace (final (V2.GetQueueLength Mock.accept
      (Mock.decodeAs (Mock.queue2 200)) (Mock.client2 200 "{}") (Some Mock.ctx))
      (Mock.store2 Mock.unset2)))
    = [V2.mkHTTPRequest "GET" "https://api.ccu.akamai.com/ccu/v2/queues/default"
         None [] (Some ("user", "secret")) (Some Mock.ctx)] /\
  (exists body,
     V2.sent (V2.trace (final (V2.Purge Mock.accept
         (Mock.decodeAs (Mock.purged2 201)) Mock.now (Mock.client2 201 "{}")
         (Some Mock.ctx))
         (Mock.store2 (V2.mkPurgeRequest "fast" "cpcode" "" "" (Some ["1"])))))
     = [V2.mkHTTPRequest "POST" "https://api.ccu.akamai.com/ccu/v2/queues/fast"
          (Some body) [("Content-Type", "application/json")]
          (Some ("user", "secret")) (Some Mock.ctx)]) /\
  V2.sent (V2.trace (final (V2.GetPurgeStatus Mock.accept
      (Mock.decodeAs (Mock.status2 200 "Done")) (Mock.client2 200 "{}") "abc"
      (Some Mock.ctx)) (Mock.store2 Mock.unset2)))
    = [V2.mkHTTPRequest "GET" "https://api.ccu.akamai.com/ccu/v2/purges/abc"
         None [] (Some ("user", "secret")) (Some Mock.ctx)] /\
  V2.Purge Mock.accept (Mock.decodeAs (Mock.purged2 201)) Mock.now
    (Mock.client2 201 "{}") None (Mock.store2 Mock.unset2)
    = ((None, None), V2.mkStore Mock.unset2 [V2.EvPanic "nil context"]) /\
  V2.request_path "https://api.ccu.akamai.com/ccu/v2/purges/abc"
    = Some "/ccu/v2/purges/abc".
Proof.
  destruct v2_requests_sent as (HQ & HP & HS & Hnil & _ & _ & Hid & _).
  split; [ | split; [ | split; [ | split ] ] ].
  5:{ exact (Hid "abc" eq_refl). }
  - exact (proj1 (HQ Mock.accept (Mock.decodeAs (Mock.queue2 200))
                    (Mock.client2 200 "{}") Mock.ctx (Mock.store2 Mock.unset2)
                    eq_refl)).
  - exact (HP Mock.accept (Mock.decodeAs (Mock.purged2 201)) Mock.now
             (Mock.client2 201 "{}") Mock.ctx
             (Mock.store2 (V2.mkPurgeRequest "fast" "cpcode" "" "" (Some ["1"])))
             eq_refl).
  - exact (proj1 (HS Mock.accept (Mock.decodeAs (Mock.status2 200 "Done"))
                    (Mock.client2 200 "{}") "abc" Mock.ctx
                    (Mock.store2 Mock.unset2) eq_refl)).
  - destruct (Hnil Mock.accept (Mock.decodeAs (Mock.queue2 200))
                (Mock.decodeAs (Mock.purged2 201))
                (Mock.decodeAs (Mock.status2 200 "Done")) Mock.now
                (Mock.client2 201 "{}") "abc" (Mock.store2 Mock.unset2))
      as (_ & HPn & _).
    exact (HPn eq_refl).
Defined.

(** X11: when [http.NewRequest] rejects the method and URL, each v2
    operation returns no value and the error "error creating HTTP request: "
    followed by the builder's message, and touches neither the transport nor
    the stored request. *)
Theorem v2_builder_rejection :
  (forall http_err decQ c ctx st err,
     http_err "GET" "https://api.ccu.akamai.com/ccu/v2/queues/default"
       = Some err ->
     V2.GetQueueLength http_err decQ c ctx st
       = ((None, Some (V2.Errorf ("error creating HTTP request: " ++ err))), st)) /\
  (forall http_err decP now c ctx st err,
     http_err "POST"
       ("https://api.ccu.akamai.com/ccu/v2/queues/"
          ++ (if (V2.Queue (V2.request st) =? "")%string then "default"
              else V2.Queue (V2.request st))) = Some err ->
     V2.Purge http_err decP now c ctx st
       = ((None, Some (V2.Errorf ("error creating HTTP request: " ++ err))), st)) /\
  (forall http_err decS c purgeID ctx st err,
     http_err "GET" ("https://api.ccu.akamai.com/ccu/v2/purges/" ++ purgeID)
       = Some err ->
     V2.GetPurgeStatus http_err decS c purgeID ctx st
       = ((None, Some (V2.Errorf ("error creating HTTP request: " ++ err))), st)).
Proof.
  split; [ | split ].
  - intros http_err decQ c ctx st err H.
    unfold V2.GetQueueLength, V2.newHTTPRequest, V2.apiURL. simpl.
    now rewrite H.
  - intros http_err decP now c ctx st err H.
    unfold V2.Purge, V2.load_request. unfold bind at 1.
    change (V2.apiURL ++ "/ccu/v2/queues/"
              ++ (if (V2.Queue (V2.request st) =? "")%string then "default"
                  else V2.Queue (V2.request st)))
      with ("https://api.ccu.akamai.com/ccu/v2/queues/"
              ++ (if (V2.Queue (V2.request st) =? "")%string then "default"
                  else V2.Queue (V2.request st))).
    unfold V2.newHTTPRequest, V2.encodePurgeRequest. now rewrite H.
  - intros http_err decS c purgeID ctx st err H.
    unfold V2.GetPurgeStatus.
    change (V2.apiURL ++ "/ccu/v2/purges/" ++ purgeID)
      with ("https://api.ccu.akamai.com/ccu/v2/purges/" ++ purgeID).
    unfold V2.newHTTPRequest, V2.no_payload. now rewrite H.
Qed.

(** A builder that rejects everything, under the three operations. *)
Lemma v2_builder_rejection_witness :
  let st := Mock.store2 Mock.unset2 in
  let err := V2.Errorf "error creating HTTP request: invalid method" in
  V2.GetQueueLength Failing.reject (Mock.decodeAs (Mock.queue2 200))
    (Mock.client2 200 "{}") (Some Mock.ctx) st = ((None, Some err), st) /\
  V2.Purge Failing.reject (Mock.decodeAs (Mock.purged2 201)) Mock.now
    (Mock.client2 201 "{}") (Some Mock.ctx) st = ((None, Some err), st) /\
  V2.GetPurgeStatus Failing.reject (Mock.decodeAs (Mock.status2 200 "Done"))
    (Mock.client2 200 "{}") "abc" (Some Mock.ctx) st = ((None, Some err), st).
Proof.
  intros st err.
  destruct v2_builder_rejection as (HQ & HP & HS).
  split; [ | split ].
  - exact (HQ Failing.reject (Mock.decodeAs (Mock.queue2 200))
             (Mock.client2 200 "{}") (Some Mock.ctx) st _ eq_refl).
  - exact (HP Failing.reject (Mock.decodeAs (Mock.purged2 201)) Mock.now
             (Mock.client2 201 "{}") (Some Mock.ctx) st _ eq_refl).
  - exact (HS Failing.reject (Mock.decodeAs (Mock.status2 200 "Done"))
             (Mock.client2 200 "{}") "abc" (Some Mock.ctx) st _ eq_refl).
Defined.

(** ** The queue of a v2 purge *)

(** X3: a v2 purge whose queue is blank behaves as one whose queue is
    "default": the two calls return the same pair and leave the same trace,
    so they hand the same request to the transport. *)
Theorem v2_blank_queue_is_default http_err decP now c ctx req tr :
  V2.Queue req = "" ->
  let run := fun r => V2.Purge http_err decP now c ctx (V2.mkStore r tr) in
  fst (run req) = fst (run (V2.set_Queue req "default")) /\
  V2.trace (snd (run req)) = V2.trace (snd (run (V2.set_Queue req "default"))).
Proof.
  intros Hq run. unfold run, V2.Purge, V2.load_request, V2.set_Queue.
  unfold bind at 1 3 5 7. cbn [V2.request V2.Queue]. rewrite Hq.
  cbn [String.eqb]. unfold V2.newHTTPRequest, V2.encodePurgeRequest.
  cbn [V2.Type_ V2.Action V2.Domain V2.Objects].
  destruct (http_err _ _); [split; reflexivity | ].
  destruct ctx as [ctx | ]; [ | split; reflexivity ].
  unfold V2.do, V2.emit, bind, ret. cbn [V2.request V2.trace].
  destruct (V2.HTTPClient c _) as [e | resp]; [split; reflexivity | ].
  destruct (V2.resp_StatusCode resp =? 401); [split; reflexivity | ].
  destruct (decP _ _) as [x' [e | ]]; [split; reflexivity | ]. simpl.
  destruct (V2.assertError _); split; reflexivity.
Qed.

(** A purge with a blank queue is given the default queue's URL string. *)
Lemma v2_blank_queue_is_default_witness :
  map V2.RawURL (V2.sent (V2.trace (snd (V2.Purge Mock.accept
      (Mock.decodeAs (Mock.purged2 201)) Mock.now (Mock.client2 201 "{}")
      (Some Mock.ctx) (V2.mkStore (V2.set_Queue Mock.unset2 "default") [])))))
  = map V2.RawURL (V2.sent (V2.trace (snd (V2.Purge Mock.accept
      (Mock.decodeAs (Mock.purged2 201)) Mock.now (Mock.client2 201 "{}")
      (Some Mock.ctx) (V2.mkStore Mock.unset2 []))))).
Proof.
  rewrite (proj2 (v2_blank_queue_is_default Mock.accept
                    (Mock.decodeAs (Mock.purged2 201)) Mock.now
                    (Mock.client2 201 "{}") (Some Mock.ctx) Mock.unset2 [] eq_refl)).
  reflexivity.
Defined.

(** ** A v3 reply that does not decode *)

Lemma V3_Purge_decode_error init build_err decP ctx st cfg resp x' msg :
  result (V3.config init) st = inr cfg ->
  build_err cfg "POST" (V3.Path (V3.withDefaults (V3.request st)))
    (Some (V3.encodePurgeRequest (V3.withDefaults (V3.request st)))) = None ->
  V3.HTTPClient (V3.client st) (V3.purge_request cfg ctx (V3.request st))
    = inr resp ->
  decP (V3.resp_Body resp) V3.zeroPurgeResponse = (x', Some msg) ->
  result (V3.Purge init build_err decP ctx) st
    = (None, Some (V3.Errorf ("error decoding JSON response: " ++ msg))).
Proof.
  intros Hc Hb Ht Hd.
  unfold result at 1. rewrite (V3_Purge_built _ _ _ _ _ _ Hc Hb).
  unfold bind at 1.
  destruct (V3_config_frame init (V3.defaulted st)) as (_ & _ & Hcl).
  change (V3.client (V3.defaulted st)) with (V3.client st) in Hcl.
  rewrite <- Hcl in Ht.
  now rewrite (V3_do_decode_error _ _ _ _ _ _ _ _ Ht Hd).
Qed.

(** ** The status line of a reply *)

(** What [do] returns besides the HTTP response depends on the reply only
    through its body, once 401 is set aside. *)
Lemma V2_do_body_only {T} (dec : V2.Decoder T) c t t' req v st resp resp' :
  t req = inr resp -> t' req = inr resp' ->
  V2.resp_Body resp = V2.resp_Body resp' ->
  V2.resp_StatusCode resp <> 401 -> V2.resp_StatusCode resp' <> 401 ->
  let r := result (V2.do dec (V2.with_transport c t) req v) st in
  let r' := result (V2.do dec (V2.with_transport c t') req v) st in
  fst r = fst r' /\ snd (snd r) = snd (snd r').
Proof.
  intros Ht Ht' Hbody H H'. apply Z.eqb_neq in H, H'.
  unfold result, V2.do, V2.emit, V2.with_transport, bind, ret. simpl.
  rewrite Ht, Ht', H, H', Hbody.
  destruct v as [x | ]; [ | split; reflexivity ].
  destruct (dec _ x) as [x' [e | ]]; split; reflexivity.
Qed.

(** X13: the operations classify a reply by the status code inside its
    body, not by the status line.  Two transports whose replies carry the
    same body make a v2 operation return the same pair, whatever the two
    status lines are, as long as neither is 401; they make the v3 Purge
    return the same pair whatever the two status lines are, 401 included. *)
Theorem status_line_ignored :
  (forall http_err decQ c t t' ctx st hreq resp resp',
     V2.queue_length_request http_err c ctx = inr hreq ->
     t hreq = inr resp -> t' hreq = inr resp' ->
     V2.resp_Body resp = V2.resp_Body resp' ->
     V2.resp_StatusCode resp <> 401 -> V2.resp_StatusCode resp' <> 401 ->
     result (V2.GetQueueLength http_err decQ (V2.with_transport c t) ctx) st
       = result (V2.GetQueueLength http_err decQ (V2.with_transport c t') ctx) st)
  /\
  (forall http_err decP now c t t' ctx st hreq resp resp',
     V2.purge_request http_err c ctx (V2.request st) = inr hreq ->
     t hreq = inr resp -> t' hreq = inr resp' ->
     V2.resp_Body resp = V2.resp_Body resp' ->
     V2.resp_StatusCode resp <> 401 -> V2.resp_StatusCode resp' <> 401 ->
     result (V2.Purge http_err decP now (V2.with_transport c t) ctx) st
       = result (V2.Purge http_err decP now (V2.with_transport c t') ctx) st)
  /\
  (forall http_err decS c t t' purgeID ctx st hreq resp resp',
     V2.purge_status_request http_err c purgeID ctx = inr hreq ->
     t hreq = inr resp -> t' hreq = inr resp' ->
     V2.resp_Body resp = V2.resp_Body resp' ->
     V2.resp_StatusCode resp <> 401 -> V2.resp_StatusCode resp' <> 401 ->
     result (V2.GetPurgeStatus http_err decS (V2.with_transport c t) purgeID ctx)
       st
       = result
           (V2.GetPurgeStatus http_err decS (V2.with_transport c t') purgeID ctx)
           st)
  /\
  (forall init build_err decP ctx st t t' cfg resp resp',
     result (V3.config init) st = inr cfg ->
     build_err cfg "POST" (V3.Path (V3.withDefaults (V3.request st)))
       (Some (V3.encodePurgeRequest (V3.withDefaults (V3.request st)))) = None ->
     t (V3.purge_request cfg ctx (V3.request st)) = inr resp ->
     t' (V3.purge_request cfg ctx (V3.request st)) = inr resp' ->
     V3.resp_Body resp = V3.resp_Body resp' ->
     result (V3.Purge init build_err decP ctx) (V3.with_transport st t)
       = result (V3.Purge init build_err decP ctx) (V3.with_transport st t')).
Proof.
  split; [ | split; [ | split ] ].
  - intros http_err decQ c t t' ctx st hreq resp resp' Hb Ht Ht' Hbody H H'.
    destruct (V2_do_body_only decQ c t t' hreq (Some V2.zeroQueueLengthResponse)
                st resp resp' Ht Ht' Hbody H H') as [E1 E2].
    unfold result, V2.GetQueueLength in *.
    change (V2.newHTTPRequest http_err V2.encodeUnit (V2.with_transport c t) "GET"
              (V2.apiURL ++ "/ccu/v2/queues/default") V2.no_payload ctx)
      with (V2.queue_length_request http_err c ctx).
    change (V2.newHTTPRequest http_err V2.encodeUnit (V2.with_transport c t') "GET"
              (V2.apiURL ++ "/ccu/v2/queues/default") V2.no_payload ctx)
      with (V2.queue_length_request http_err c ctx).
    rewrite Hb. unfold bind.
    destruct (V2.do decQ (V2.with_transport c t) hreq _ st) as [[x [r e]] s1].
    destruct (V2.do decQ (V2.with_transport c t') hreq _ st) as [[x' [r' e']] s2].
    simpl in E1, E2 |- *. subst x' e'.
    destruct e; [reflexivity | ]. destruct (V2.assertError _); reflexivity.
  - intros http_err decP now c t t' ctx st hreq resp resp' Hb Ht Ht' Hbody H H'.
    destruct (V2_do_body_only decP c t t' hreq (Some V2.zeroPurgeResponse)
                st resp resp' Ht Ht' Hbody H H') as [E1 E2].
    unfold result, V2.Purge, V2.load_request in *. unfold bind at 1 3.
    change (V2.newHTTPRequest http_err V2.encodePurgeRequest
              (V2.with_transport c t) "POST"
              (V2.apiURL ++ "/ccu/v2/queues/"
                 ++ (if (V2.Queue (V2.request st) =? "")%string then "default"
                     else V2.Queue (V2.request st)))
              (Some (V2.request st)) ctx)
      with (V2.purge_request http_err c ctx (V2.request st)).
    change (V2.newHTTPRequest http_err V2.encodePurgeRequest
              (V2.with_transport c t') "POST"
              (V2.apiURL ++ "/ccu/v2/queues/"
                 ++ (if (V2.Queue (V2.request st) =? "")%string then "default"
                     else V2.Queue (V2.request st)))
              (Some (V2.request st)) ctx)
      with (V2.purge_request http_err c ctx (V2.request st)).
    rewrite Hb. unfold bind.
    destruct (V2.do decP (V2.with_transport c t) hreq _ st) as [[x [r e]] s1].
    destruct (V2.do decP (V2.with_transport c t') hreq _ st) as [[x' [r' e']] s2].
    simpl in E1, E2 |- *. subst x' e'.
    destruct e; [reflexivity | ]. destruct (V2.assertError _); reflexivity.
  - intros http_err decS c t t' purgeID ctx st hreq resp resp' Hb Ht Ht' Hbody
      H H'.
    destruct (V2_do_body_only decS c t t' hreq (Some V2.zeroPurgeStatusResponse)
                st resp resp' Ht Ht' Hbody H H') as [E1 E2].
    unfold result, V2.GetPurgeStatus in *.
    change (V2.newHTTPRequest http_err V2.encodeUnit (V2.with_transport c t) "GET"
              (V2.apiURL ++ "/ccu/v2/purges/" ++ purgeID) V2.no_payload ctx)
      with (V2.purge_status_request http_err c purgeID ctx).
    change (V2.newHTTPRequest http_err V2.encodeUnit (V2.with_transport c t') "GET"
              (V2.apiURL ++ "/ccu/v2/purges/" ++ purgeID) V2.no_payload ctx)
      with (V2.purge_status_request http_err c purgeID ctx).
    rewrite Hb. unfold bind.
    destruct (V2.do decS (V2.with_transport c t) hreq _ st) as [[x [r e]] s1].
    destruct (V2.do decS (V2.with_transport c t') hreq _ st) as [[x' [r' e']] s2].
    simpl in E1, E2 |- *. subst x' e'.
    destruct e; [reflexivity | ]. destruct (V2.assertError _); reflexivity.
  - intros init build_err decP ctx st t t' cfg resp resp' Hc Hb Ht Ht' Hbody.
    assert (Hcfg : forall u, result (V3.config init) (V3.with_transport st u)
                             = inr cfg).
    { intros u. rewrite <- Hc.
      unfold result, V3.config, V3.load_client, V3.store_Config, bind, ret.
      simpl. destruct (V3.Config (V3.client st)); [reflexivity | ].
      destruct (init "" ""); reflexivity. }
    destruct (decP (V3.resp_Body resp') V3.zeroPurgeResponse) as [v [msg | ]] eqn:Hd.
    + rewrite (V3_Purge_decode_error init build_err decP ctx
                 (V3.with_transport st t) cfg resp v msg (Hcfg t) Hb Ht);
        [ | now rewrite Hbody ].
      now rewrite (V3_Purge_decode_error init build_err decP ctx
                     (V3.with_transport st t') cfg resp' v msg (Hcfg t') Hb Ht' Hd).
    + rewrite (V3_Purge_decoded init build_err decP ctx
                 (V3.with_transport st t) cfg resp v (Hcfg t) Hb Ht);
        [ | now rewrite Hbody ].
      now rewrite (V3_Purge_decoded init build_err decP ctx
                     (V3.with_transport st t') cfg resp' v (Hcfg t') Hb Ht' Hd).
Qed.

(** Status lines 500 and 200 over one body, under a v2 and a v3 Purge. *)
Lemma status_line_ignored_witness :
  result (V2.Purge Mock.accept (Mock.decodeAs (Mock.purged2 201)) Mock.now
            (Mock.client2 500 "{}") (Some Mock.ctx)) (Mock.store2 Mock.unset2)
    = result (V2.Purge Mock.accept (Mock.decodeAs (Mock.purged2 201)) Mock.now
                (Mock.client2 200 "{}") (Some Mock.ctx)) (Mock.store2 Mock.unset2) /\
  result (V3.Purge Mock.init Mock.accept3 (Mock.decodeAs (Mock.purged3 201)) None)
    (Mock.store3 401 "{}" Mock.cpcode3)
    = result (V3.Purge Mock.init Mock.accept3 (Mock.decodeAs (Mock.purged3 201))
                None) (Mock.store3 200 "{}" Mock.cpcode3).
Proof.
  destruct status_line_ignored as (_ & HP & _ & HP3).
  split.
  - refine (HP Mock.accept (Mock.decodeAs (Mock.purged2 201)) Mock.now
              (Mock.client2 0 "")
              (fun _ => inr (V2.mkHTTPResponse 500 "{}"))
              (fun _ => inr (V2.mkHTTPResponse 200 "{}"))
              (Some Mock.ctx) (Mock.store2 Mock.unset2) _ _ _
              eq_refl eq_refl eq_refl eq_refl _ _); simpl; lia.
  - exact (HP3 Mock.init Mock.accept3 (Mock.decodeAs (Mock.purged3 201)) None
             (Mock.store3 0 "" Mock.cpcode3)
             (fun _ => inr (V3.mkHTTPResponse 401 "{}"))
             (fun _ => inr (V3.mkHTTPResponse 200 "{}"))
             _ _ _ eq_refl eq_refl eq_refl eq_refl eq_refl).
Defined.

(** ** The errors a call can return *)

Lemma V2_assertError_known r err :
  V2.assertError r = Some err -> V2.known_error err.
Proof.
  rewrite V2_assertError_eq. destruct (in_2xx (V2.StatusCode r)) eqn:E;
    [discriminate | ].
  intros H. injection H as <-. do 4 right. exists r. split; [reflexivity | ].
  intros Hr. apply in_2xx_spec in Hr. congruence.
Qed.

Lemma V3_assertError_known r err :
  V3.assertError r = Some err -> V3.known_error err.
Proof.
  rewrite V3_assertError_eq. destruct (in_2xx (V3.StatusCode r)) eqn:E;
    [discriminate | ].
  intros H. injection H as <-. do 4 right. exists r. split; [reflexivity | ].
  intros Hr. apply in_2xx_spec in Hr. congruence.
Qed.

Lemma V2_do_known {T} (dec : V2.Decoder T) c req v st err :
  snd (snd (result (V2.do dec c req v) st)) = Some err -> V2.known_error err.
Proof.
  unfold result, V2.do, V2.emit, bind, ret. simpl.
  destruct (V2.HTTPClient c req) as [e | resp]; simpl.
  - intros H. injection H as <-. right. left. exists e. reflexivity.
  - destruct (V2.resp_StatusCode resp =? 401); simpl.
    + intros H. injection H as <-. right. right. now left.
    + destruct v as [x | ]; simpl; [ | discriminate ].
      destruct (dec _ x) as [x' [e | ]]; simpl; [ | discriminate ].
      intros H. injection H as <-. do 3 right. left. exists e. reflexivity.
Qed.

Lemma V2_GetQueueLength_known http_err decQ c ctx st err :
  snd (result (V2.GetQueueLength http_err decQ c ctx) st) = Some err ->
  V2.known_error err.
Proof.
  unfold result, V2.GetQueueLength, V2.newHTTPRequest, V2.no_payload.
  destruct (http_err _ _) as [e | ].
  - simpl. intros H. injection H as <-. left. exists e. reflexivity.
  - destruct ctx as [ctx | ]; [ | simpl; discriminate ].
    unfold bind.
    pose proof (V2_do_known decQ c
                  (V2.mkHTTPRequest "GET" (V2.apiURL ++ "/ccu/v2/queues/default")
                     None [] (Some (V2.Username c, V2.Password c)) (Some ctx))
                  (Some V2.zeroQueueLengthResponse) st) as Hdo.
    unfold result in Hdo.
    destruct (V2.do decQ c _ _ st) as [[x [r [e | ]]] st']; simpl in Hdo |- *.
    + intros H. injection H as <-. now apply Hdo.
    + destruct (V2.assertError _) eqn:E; simpl; [ | discriminate ].
      intros H. injection H as <-. now apply V2_assertError_known in E.
Qed.

Lemma V2_Purge_known http_err decP now c ctx st err :
  snd (result (V2.Purge http_err decP now c ctx) st) = Some err ->
  V2.known_error err.
Proof.
  unfold result, V2.Purge, V2.load_request. unfold bind at 1.
  unfold V2.newHTTPRequest, V2.encodePurgeRequest.
  destruct (http_err _ _) as [e | ].
  - simpl. intros H. injection H as <-. left. exists e. reflexivity.
  - destruct ctx as [ctx | ]; [ | simpl; discriminate ].
    unfold bind.
    match goal with
    | |- context [V2.do decP c ?hreq ?v st] =>
        pose proof (V2_do_known decP c hreq v st) as Hdo; unfold result in Hdo;
        destruct (V2.do decP c hreq v st) as [[x [r [e | ]]] st']
    end; simpl in Hdo |- *.
    + intros H. injection H as <-. now apply Hdo.
    + destruct (V2.assertError _) eqn:E; simpl; [ | discriminate ].
      intros H. injection H as <-. now apply V2_assertError_known in E.
Qed.

Lemma V2_GetPurgeStatus_known http_err decS c purgeID ctx st err :
  snd (result (V2.GetPurgeStatus http_err decS c purgeID ctx) st) = Some err ->
  V2.known_error err.
Proof.
  unfold result, V2.GetPurgeStatus, V2.newHTTPRequest, V2.no_payload.
  destruct (http_err _ _) as [e | ].
  - simpl. intros H. injection H as <-. left. exists e. reflexivity.
  - destruct ctx as [ctx | ]; [ | simpl; discriminate ].
    unfold bind.
    match goal with
    | |- context [V2.do decS c ?hreq ?v st] =>
        pose proof (V2_do_known decS c hreq v st) as Hdo; unfold result in Hdo;
        destruct (V2.do decS c hreq v st) as [[x [r [e | ]]] st']
    end; simpl in Hdo |- *.
    + intros H. injection H as <-. now apply Hdo.
    + destruct (V2.assertError _) eqn:E; simpl; [ | discriminate ].
      intros H. injection H as <-. now apply V2_assertError_known in E.
Qed.

Lemma V3_Purge_known init build_err decP ctx st err :
  snd (result (V3.Purge init build_err decP ctx) st) = Some err ->
  V3.known_error err.
Proof.
  unfold result. rewrite V3_Purge_after_defaults.
  unfold bind at 1. rewrite V3_newHTTPRequest_eq.
  destruct (fst (V3.config init (V3.defaulted st))) as [e | cfg].
  - simpl. intros H. injection H as <-. left. exists e. reflexivity.
  - destruct (build_err _ _ _ _) as [e | ].
    + simpl. discriminate.
    + unfold V3.do, V3.load_client, V3.emit, bind, ret. simpl.
      destruct (V3.HTTPClient _ _) as [e | resp]; simpl.
      * intros H. injection H as <-. do 2 right. left. exists e. reflexivity.
      * destruct (decP _ _) as [x' [e | ]]; simpl.
        -- intros H. injection H as <-. do 3 right. left. exists e. reflexivity.
        -- destruct (V3.assertError _) eqn:E; simpl; [ | discriminate ].
           intros H. injection H as <-. now apply V3_assertError_known in E.
Qed.

(** X14: every error a public operation returns comes from one phase of
    the call.  In v2 it is "error creating HTTP request: ...", "error
    sending HTTP request: ...", "unauthorized", "error decoding JSON
    response: ..." or a Response whose status code is outside 200..299; in
    v3 "unauthorized" gives way to "error reading edgegrid configuration:
    ...".  Within a version the errors of different phases are different
    values, whatever the messages are. *)
Theorem errors_known_and_distinct :
  (forall http_err decQ c ctx st err,
     snd (result (V2.GetQueueLength http_err decQ c ctx) st) = Some err ->
     V2.known_error err) /\
  (forall http_err decP now c ctx st err,
     snd (result (V2.Purge http_err decP now c ctx) st) = Some err ->
     V2.known_error err) /\
  (forall http_err decS c purgeID ctx st err,
     snd (result (V2.GetPurgeStatus http_err decS c purgeID ctx) st) = Some err ->
     V2.known_error err) /\
  (forall init build_err decP ctx st err,
     snd (result (V3.Purge init build_err decP ctx) st) = Some err ->
     V3.known_error err) /\
  (forall m1 m2 m3 r,
     NoDup [V2.Errorf ("error creating HTTP request: " ++ m1);
            V2.Errorf ("error sending HTTP request: " ++ m2);
            V2.Errorf "unauthorized";
            V2.Errorf ("error decoding JSON response: " ++ m3);
            V2.ApiError r]) /\
  (forall m0 m1 m2 m3 r,
     NoDup [V3.Errorf ("error reading edgegrid configuration: " ++ m0);
            V3.Errorf ("error creating HTTP request: " ++ m1);
            V3.Errorf ("error sending HTTP request: " ++ m2);
            V3.Errorf ("error decoding JSON response: " ++ m3);
            V3.ApiError r]).
Proof.
  split; [exact V2_GetQueueLength_known | ].
  split; [exact V2_Purge_known | ].
  split; [exact V2_GetPurgeStatus_known | ].
  split; [exact V3_Purge_known | ].
  split.
  - intros m1 m2 m3 r.
    repeat constructor; simpl; intuition discriminate.
  - intros m0 m1 m2 m3 r.
    repeat constructor; simpl; intuition discriminate.
Qed.

(** The error of a v2 Purge answered with 401 and of a v3 Purge that cannot
    read its configuration. *)
Lemma errors_known_and_distinct_witness :
  V2.known_error (V2.Errorf "unauthorized") /\
  V3.known_error
    (V3.Errorf ("error reading edgegrid configuration: "
                  ++ "open .edgerc: no such file or directory")).
Proof.
  destruct errors_known_and_distinct as (_ & HP & _ & HP3 & _).
  split.
  - exact (HP Mock.accept (Mock.decodeAs (Mock.purged2 201)) Mock.now
             (Mock.client2 401 "") (Some Mock.ctx) (Mock.store2 Mock.unset2) _ eq_refl).
  - exact (HP3 Failing.init Mock.accept3 (Mock.decodeAs (Mock.purged3 201)) None
             (Mock.store3 200 "{}" Mock.cpcode3) _ eq_refl).
Defined.

(** ** A v2 reply that does not decode *)

Lemma V2_do_decoded_bodies {T} (dec : V2.Decoder T) c req x st resp :
  V2.HTTPClient c req = inr resp ->
  V2.resp_StatusCode resp <> 401 ->
  V2.decoded (V2.trace (final (V2.do dec c req (Some x)) st))
    = (V2.decoded (V2.trace st) ++ [V2.resp_Body resp])%list.
Proof.
  intros Ht H. apply Z.eqb_neq in H.
  rewrite V2_do_trace, Ht, H, V2_decoded_app. reflexivity.
Qed.

(** X15: when the reply of a v2 operation is not a 401 and its body does
    not decode, the operation returns no value and the error "error decoding
    JSON response: " followed by the decoder's message; the decoder was
    given the body once. *)
Theorem v2_decode_failure :
  (forall http_err decQ c ctx st hreq resp x' msg,
     V2.queue_length_request http_err c ctx = inr hreq ->
     V2.HTTPClient c hreq = inr resp ->
     V2.resp_StatusCode resp <> 401 ->
     decQ (V2.resp_Body resp) V2.zeroQueueLengthResponse = (x', Some msg) ->
     result (V2.GetQueueLength http_err decQ c ctx) st
       = (None, Some (V2.Errorf ("error decoding JSON response: " ++ msg))) /\
     V2.decoded (V2.trace (final (V2.GetQueueLength http_err decQ c ctx) st))
       = (V2.decoded (V2.trace st) ++ [V2.resp_Body resp])%list) /\
  (forall http_err decP now c ctx st hreq resp x' msg,
     V2.purge_request http_err c ctx (V2.request st) = inr hreq ->
     V2.HTTPClient c hreq = inr resp ->
     V2.resp_StatusCode resp <> 401 ->
     decP (V2.resp_Body resp) V2.zeroPurgeResponse = (x', Some msg) ->
     result (V2.Purge http_err decP now c ctx) st
       = (None, Some (V2.Errorf ("error decoding JSON response: " ++ msg))) /\
     V2.decoded (V2.trace (final (V2.Purge http_err decP now c ctx) st))
       = (V2.decoded (V2.trace st) ++ [V2.resp_Body resp])%list) /\
  (forall http_err decS c purgeID ctx st hreq resp x' msg,
     V2.purge_status_request http_err c purgeID ctx = inr hreq ->
     V2.HTTPClient c hreq = inr resp ->
     V2.resp_StatusCode resp <> 401 ->
     decS (V2.resp_Body resp) V2.zeroPurgeStatusResponse = (x', Some msg) ->
     result (V2.GetPurgeStatus http_err decS c purgeID ctx) st
       = (None, Some (V2.Errorf ("error decoding JSON response: " ++ msg))) /\
     V2.decoded
       (V2.trace (final (V2.GetPurgeStatus http_err decS c purgeID ctx) st))
       = (V2.decoded (V2.trace st) ++ [V2.resp_Body resp])%list).
Proof.
  split; [ | split ].
  - intros http_err decQ c ctx st hreq resp x' msg Hb Ht H Hd. split.
    + unfold V2.queue_length_request in Hb.
      unfold result, V2.GetQueueLength. rewrite Hb. unfold bind.
      now rewrite (V2_do_decode_error _ decQ c hreq st _ x' resp msg Ht H Hd).
    + rewrite V2_GetQueueLength_final, Hb. now apply V2_do_decoded_bodies.
  - intros http_err decP now c ctx st hreq resp x' msg Hb Ht H Hd. split.
    + unfold V2.purge_request in Hb.
      unfold result, V2.Purge, V2.load_request. unfold bind at 1.
      rewrite Hb. unfold bind.
      now rewrite (V2_do_decode_error _ decP c hreq st _ x' resp msg Ht H Hd).
    + rewrite V2_Purge_final, Hb. now apply V2_do_decoded_bodies.
  - intros http_err decS c purgeID ctx st hreq resp x' msg Hb Ht H Hd. split.
    + unfold V2.purge_status_request in Hb.
      unfold result, V2.GetPurgeStatus. rewrite Hb. unfold bind.
      now rewrite (V2_do_decode_error _ decS c hreq st _ x' resp msg Ht H Hd).
    + rewrite V2_GetPurgeStatus_final, Hb. now apply V2_do_decoded_bodies.
Qed.

(** An HTML page with status 200 in answer to a queue-length query. *)
Lemma v2_decode_failure_witness :
  result (V2.GetQueueLength Mock.accept (Mock.decodeAs (Mock.queue2 200))
            (Mock.client2 200 Mock.not_json) (Some Mock.ctx)) (Mock.store2 Mock.unset2)
  = (None,
     Some (V2.Errorf ("error decoding JSON response: "
             ++ "invalid character '<' looking for beginning of value"))).
Proof.
  destruct v2_decode_failure as (HQ & _ & _).
  refine (proj1 (HQ Mock.accept (Mock.decodeAs (Mock.queue2 200))
                   (Mock.client2 200 Mock.not_json) (Some Mock.ctx)
                   (Mock.store2 Mock.unset2) _ _ _ _
                   eq_refl eq_refl _ eq_refl)).
  simpl. lia.
Defined.

(** ** The ETA of a purge just submitted *)

(** X12: when a v2 Purge succeeds at a wall-clock reading that is not the
    zero time, with an estimate S between -9223372036 and 9223372036 seconds
    in the reply, and the reading plus S seconds is within the instants a
    [time.Time] can hold, then [ETA()] of the response it returns is that
    reading plus S seconds. *)
Theorem Purge_then_ETA http_err decP now c ctx st hreq resp v :
  V2.purge_request http_err c ctx (V2.request st) = inr hreq ->
  V2.HTTPClient c hreq = inr resp ->
  V2.resp_StatusCode resp <> 401 ->
  decP (V2.resp_Body resp) V2.zeroPurgeResponse = (v, None) ->
  200 <= V2.StatusCode (V2.pr_Response v) <= 299 ->
  Time.IsZero now = false ->
  Time.wf now ->
  - 9223372036 <= V2.EstimatedSeconds v <= 9223372036 ->
  Go.minInt64 <= Time.sec now + V2.EstimatedSeconds v <= Go.maxInt64 ->
  exists v',
    result (V2.Purge http_err decP now c ctx) st = (Some v', None) /\
    V2.ETA v' = Time.plus_seconds now (V2.EstimatedSeconds v).
Proof.
  intros Hb Ht H Hd Hok Hnz Hwf Hs Hsum.
  exists (V2.set_Time v now). split.
  - rewrite (V2_Purge_decoded http_err decP now c ctx st hreq resp v Hb Ht H Hd).
    apply in_2xx_spec in Hok. now rewrite Hok.
  - unfold V2.ETA. simpl. rewrite Hnz. now apply Add_whole_seconds.
Qed.

(** A purge accepted with an estimate of 300 seconds. *)
Lemma Purge_then_ETA_witness :
  exists v',
    result (V2.Purge Mock.accept (Mock.decodeAs (Mock.purged2 201)) Mock.now
              (Mock.client2 201 "{}") (Some Mock.ctx)) (Mock.store2 Mock.unset2)
      = (Some v', None) /\
    V2.ETA v' = Time.mk 63900000300 500.
Proof.
  refine (Purge_then_ETA Mock.accept (Mock.decodeAs (Mock.purged2 201)) Mock.now
            (Mock.client2 201 "{}") (Some Mock.ctx) (Mock.store2 Mock.unset2) _ _
            (Mock.purged2 201) eq_refl eq_refl _ eq_refl _ eq_refl _ _ _);
    unfold Time.wf, Go.minInt64, Go.maxInt64; simpl; lia.
Defined.

(** ** The configuration of the v3 client *)

(** X6: [config] reads the configuration at most once.  With a
    configuration on the client it returns that one and consults nothing;
    without one it calls [edgegrid.Init], and on success stores the result
    on the client, so that a second call returns the same configuration
    whatever [edgegrid.Init] would then answer; on failure it returns the
    error and leaves the client without a configuration. *)
Theorem v3_config_cached :
  (forall init st cfg,
     V3.Config (V3.client st) = Some cfg ->
     V3.config init st = (inr cfg, st)) /\
  (forall init st cfg,
     V3.Config (V3.client st) = None ->
     init "" "" = inr cfg ->
     V3.config init st = (inr cfg, V3.configured cfg st) /\
     forall init',
       V3.config init' (V3.configured cfg st) = (inr cfg, V3.configured cfg st)) /\
  (forall init st err,
     V3.Config (V3.client st) = None ->
     init "" "" = inl err ->
     V3.config init st = (inl err, st)).
Proof.
  unfold V3.config, V3.load_client, V3.store_Config, V3.configured, bind, ret.
  split; [ | split ].
  - intros init st cfg H. now rewrite H.
  - intros init st cfg H Hi. rewrite H, Hi. split; reflexivity.
  - intros init st err H Hi. now rewrite H, Hi.
Qed.

(** A first call that reads the file and a second one that cannot. *)
Lemma v3_config_cached_witness :
  let st := Mock.store3 200 "{}" Mock.cpcode3 in
  V3.config Mock.init st = (inr Mock.cfg, V3.configured Mock.cfg st) /\
  V3.config Failing.init (V3.configured Mock.cfg st)
    = (inr Mock.cfg, V3.configured Mock.cfg st) /\
  V3.config Failing.init st
    = (inl "open .edgerc: no such file or directory", st).
Proof.
  intros st. destruct v3_config_cached as (_ & H2 & H3).
  destruct (H2 Mock.init st Mock.cfg eq_refl eq_refl) as [Ha Hb].
  split; [exact Ha | split ].
  - exact (Hb Failing.init).
  - exact (H3 Failing.init st _ eq_refl eq_refl).
Defined.

(** The client after a v3 Purge. *)
Lemma V3_Purge_client_after init build_err decP ctx st :
  V3.client (final (V3.Purge init build_err decP ctx) st) =
  match V3.Config (V3.client st), result (V3.config init) st with
  | None, inr cfg => V3.mkClient (V3.HTTPClient (V3.client st)) (Some cfg)
  | _, _ => V3.client st
  end.
Proof.
  transitivity (V3.client (final (V3.config init) (V3.defaulted st))).
  - rewrite V3_Purge_final.
    destruct (result (V3.config init) st) as [e | cfg]; [reflexivity | ].
    destruct (build_err _ _ _ _); [reflexivity | ].
    apply V3_do_frame.
  - now rewrite V3_config_final.
Qed.

Lemma V3_Purge_config_after init build_err decP ctx st cfg :
  result (V3.config init) st = inr cfg ->
  V3.Config (V3.client (final (V3.Purge init build_err decP ctx) st)) = Some cfg.
Proof.
  intros Hc. rewrite V3_Purge_client_after.
  destruct (V3.Config (V3.client st)) as [cfg0 | ] eqn:E.
  - rewrite E. unfold result, V3.config, V3.load_client, bind, ret in Hc.
    rewrite E in Hc. simpl in Hc. congruence.
  - rewrite Hc. reflexivity.
Qed.

(** X7: the v3 Purge never replaces the client's transport.  When it
    obtains a configuration, that configuration is on the client afterwards,
    whether or not the rest of the call succeeds, and a later call finds it
    there without reading anything; when it obtains none, the client is as
    it was. *)
Theorem v3_Purge_keeps_configuration init build_err decP ctx st :
  let st' := final (V3.Purge init build_err decP ctx) st in
  V3.HTTPClient (V3.client st') = V3.HTTPClient (V3.client st) /\
  (forall cfg,
     result (V3.config init) st = inr cfg ->
     V3.Config (V3.client st') = Some cfg /\
     forall init', result (V3.config init') st' = inr cfg) /\
  (forall err,
     result (V3.config init) st = inl err -> V3.client st' = V3.client st).
Proof.
  intros st'. unfold st'. split; [ | split ].
  - rewrite V3_Purge_client_after.
    destruct (V3.Config (V3.client st)); [reflexivity | ].
    destruct (result (V3.config init) st); reflexivity.
  - intros cfg Hc.
    pose proof (V3_Purge_config_after init build_err decP ctx st cfg Hc) as H.
    split; [exact H | ].
    intros init'. unfold result, V3.config, V3.load_client, bind, ret.
    now rewrite H.
  - intros err Hc. rewrite V3_Purge_client_after, Hc.
    destruct (V3.Config (V3.client st)); reflexivity.
Qed.

(** A purge whose transport fails still leaves the configuration behind. *)
Lemma v3_Purge_keeps_configuration_witness :
  let st' := final (V3.Purge Mock.init Mock.accept3
                      (Mock.decodeAs (Mock.purged3 201)) None)
               (Failing.store3 Mock.cpcode3) in
  V3.Config (V3.client st') = Some Mock.cfg /\
  result (V3.config Failing.init) st' = inr Mock.cfg.
Proof.
  intros st'.
  destruct (v3_Purge_keeps_configuration Mock.init Mock.accept3
              (Mock.decodeAs (Mock.purged3 201)) None
              (Failing.store3 Mock.cpcode3)) as (_ & H & _).
  destruct (H Mock.cfg eq_refl) as [Ha Hb].
  split; [exact Ha | exact (Hb Failing.init)].
Defined.

(** ** The request after a v3 Purge *)

Lemma V3_orDefault_nonempty (s d : string) : d <> "" -> V3.orDefault s d <> "".
Proof.
  intros Hd. unfold V3.orDefault.
  destruct (s =? "")%string eqn:E; [exact Hd | ].
  now apply String.eqb_neq.
Qed.

Lemma V3_withDefaults_idempotent (r : V3.PurgeRequest) :
  V3.withDefaults (V3.withDefaults r) = V3.withDefaults r.
Proof.
  unfold V3.withDefaults, V3.orDefault. simpl.
  destruct (V3.Type_ r =? "")%string eqn:Et,
           (V3.Action r =? "")%string eqn:Ea,
           (V3.Network r =? "")%string eqn:En;
    simpl; rewrite ?Et, ?Ea, ?En; reflexivity.
Qed.

(** X8: after a v3 Purge, successful or not, none of the request's type,
    action and network is empty, and purging the same request again, in
    whatever environment, leaves it as the first call left it. *)
Theorem v3_Purge_fills_classification init build_err decP ctx st :
  let st' := final (V3.Purge init build_err decP ctx) st in
  V3.Type_ (V3.request st') <> "" /\
  V3.Action (V3.request st') <> "" /\
  V3.Network (V3.request st') <> "" /\
  forall init' build_err' decP' ctx',
    V3.request (final (V3.Purge init' build_err' decP' ctx') st')
      = V3.request st'.
Proof.
  intros st'.
  destruct (V3_Purge_effect init build_err decP ctx st) as [Hr _].
  fold st' in Hr. rewrite Hr.
  split; [ | split; [ | split ] ].
  - apply V3_orDefault_nonempty. discriminate.
  - apply V3_orDefault_nonempty. discriminate.
  - apply V3_orDefault_nonempty. discriminate.
  - intros init' build_err' decP' ctx'.
    destruct (V3_Purge_effect init' build_err' decP' ctx' st') as [Hr' _].
    rewrite Hr', Hr. apply V3_withDefaults_idempotent.
Qed.

(** A request with only [Type] set, purged twice. *)
Lemma v3_Purge_fills_classification_witness :
  let purge := V3.Purge Mock.init Mock.accept3 (Mock.decodeAs (Mock.purged3 201))
                 None in
  let st' := final purge (Mock.store3 201 "{}" Mock.cpcode3) in
  V3.Action (V3.request st') <> "" /\
  V3.request (final purge st')
    = V3.mkPurgeRequest "cpcode" "invalidate" "production" "" (Some ["123456"]).
Proof.
  intros purge st'.
  destruct (v3_Purge_fills_classification Mock.init Mock.accept3
              (Mock.decodeAs (Mock.purged3 201)) None
              (Mock.store3 201 "{}" Mock.cpcode3)) as (_ & Ha & _ & Hagain).
  split; [exact Ha | ].
  exact (Hagain Mock.init Mock.accept3 (Mock.decodeAs (Mock.purged3 201)) None).
Defined.

(** ** What a payload carries *)

Lemma V3_encoded_fields (r : V3.PurgeRequest) :
  let body := V3.encodePurgeRequest r in
  Json.field "type" body = None /\
  Json.field "action" body = None /\
  Json.field "network" body = None /\
  Json.field "hostname" body
    = (if (V3.Hostname r =? "")%string then None
       else Some (Json.Str (Utf8.coerce (V3.Hostname r)))) /\
  Json.field "objects" body
    = Some (match V3.Objects r with
            | None => Json.Null
            | Some xs => Json.Arr (map (fun s => Json.Str (Utf8.coerce s)) xs)
            end).
Proof.
  unfold V3.encodePurgeRequest, Json.omitempty, Json.strings, Json.string_value.
  destruct (V3.Hostname r =? "")%string; simpl; auto.
Qed.

Lemma V2_encoded_objects (req : V2.PurgeRequest) :
  let body := Json.Obj (Json.omitempty "type" (V2.Type_ req)
                        ++ Json.omitempty "action" (V2.Action req)
                        ++ Json.omitempty "domain" (V2.Domain req)
                        ++ [("objects", Json.strings (V2.Objects req))]) in
  Json.field "queue" body = None /\
  Json.field "objects" body
    = Some (match V2.Objects req with
            | None => Json.Null
            | Some xs => Json.Arr (map (fun s => Json.Str (Utf8.coerce s)) xs)
            end).
Proof.
  unfold Json.omitempty, Json.strings, Json.string_value.
  destruct (V2.Type_ req =? "")%string, (V2.Action req =? "")%string,
    (V2.Domain req =? "")%string; simpl; auto.
Qed.

Lemma Utf8_coerce_all_valid (xs : list string) :
  Forall (fun s => Utf8.valid s = true) xs ->
  map (fun s => Json.Str (Utf8.coerce s)) xs = map Json.Str xs.
Proof.
  induction 1 as [ | s xs Hs _ IH]; simpl; [reflexivity | ].
  now rewrite (Utf8_coerce_valid s Hs), IH.
Qed.

(** X9: the payload of every request a Purge hands to the transport always
    has the key "objects": null when the request's objects are a nil slice,
    and otherwise an array with one string per object, in order, each written
    as the JSON encoder writes a string (unchanged when it is valid UTF-8,
    with U+FFFD for every byte that starts no valid encoding otherwise); an
    empty slice gives an empty array.  In v2 the payload never has the key
    "queue".  In v3 it never has "type", "action" or "network", which travel
    in the path only, and it has "hostname" exactly when the request's
    hostname is not empty. *)
Theorem payload_fields :
  (forall http_err decP now c ctx st hreq,
     In hreq (V2.sent (V2.trace (final (V2.Purge http_err decP now c ctx) st))) ->
     In hreq (V2.sent (V2.trace st)) \/
     exists body,
       V2.Body hreq = Some body /\
       Json.field "queue" body = None /\
       Json.field "objects" body
         = Some (match V2.Objects (V2.request st) with
                 | None => Json.Null
                 | Some xs =>
                     Json.Arr (map (fun s => Json.Str (Utf8.coerce s)) xs)
                 end)) /\
  (forall init build_err decP ctx st hreq,
     In hreq (V3.sent (V3.trace (final (V3.Purge init build_err decP ctx) st))) ->
     In hreq (V3.sent (V3.trace st)) \/
     exists body,
       V3.Body hreq = Some body /\
       Json.field "type" body = None /\
       Json.field "action" body = None /\
       Json.field "network" body = None /\
       Json.field "hostname" body
         = (if (V3.Hostname (V3.request st) =? "")%string then None
            else Some (Json.Str (Utf8.coerce (V3.Hostname (V3.request st))))) /\
       Json.field "objects" body
         = Some (match V3.Objects (V3.request st) with
                 | None => Json.Null
                 | Some xs =>
                     Json.Arr (map (fun s => Json.Str (Utf8.coerce s)) xs)
                 end)) /\
  (forall s, Utf8.valid s = true -> Utf8.coerce s = s) /\
  (forall xs,
     Forall (fun s => Utf8.valid s = true) xs ->
     map (fun s => Json.Str (Utf8.coerce s)) xs = map Json.Str xs).
Proof.
  split; [ | split; [ | split ] ].
  - intros http_err decP now c ctx st hreq Hin.
    destruct (V2_Purge_effect http_err decP now c ctx st) as [_ Hs].
    rewrite Hs in Hin. apply in_app_or in Hin.
    destruct Hin as [Hin | Hin]; [now left | right].
    destruct (V2.purge_request http_err c ctx (V2.request st)) as [e | h] eqn:E;
      [destruct Hin | ].
    destruct Hin as [<- | []].
    destruct (V2_purge_request_body _ _ _ _ _ E) as [_ Hbody].
    eexists. split; [exact Hbody | ]. apply V2_encoded_objects.
  - intros init build_err decP ctx st hreq Hin.
    destruct (V3_Purge_effect init build_err decP ctx st) as [_ Hs].
    rewrite Hs in Hin. apply in_app_or in Hin.
    destruct Hin as [Hin | Hin]; [now left | right].
    destruct (result (V3.config init) st) as [e | cfg]; [destruct Hin | ].
    destruct (build_err _ _ _ _); [destruct Hin | ].
    destruct Hin as [<- | []].
    exists (V3.encodePurgeRequest (V3.withDefaults (V3.request st))).
    split; [reflexivity | ].
    apply (V3_encoded_fields (V3.withDefaults (V3.request st))).
  - exact Utf8_coerce_valid.
  - exact Utf8_coerce_all_valid.
Qed.

(** A v3 purge of a tag on a host, and a v2 purge with a nil object list. *)
Lemma payload_fields_witness :
  (exists hreq,
     V3.sent (V3.trace (final (V3.Purge Mock.init Mock.accept3
         (Mock.decodeAs (Mock.purged3 201)) None)
         (Mock.store3 201 "{}"
            (V3.mkPurgeRequest "tag" "delete" "staging" "example.com"
               (Some ["news"; "sport"]))))) = [hreq] /\
     exists body,
       V3.Body hreq = Some body /\
       Json.field "type" body = None /\
       Json.field "hostname" body = Some (Json.Str "example.com") /\
       Json.field "objects" body
         = Some (Json.Arr [Json.Str "news"; Json.Str "sport"])) /\
  (exists hreq,
     V2.sent (V2.trace (final (V2.Purge Mock.accept
         (Mock.decodeAs (Mock.purged2 201)) Mock.now (Mock.client2 201 "{}")
         (Some Mock.ctx)) (Mock.store2 (V2.NewPurgeRequest None)))) = [hreq] /\
     exists body,
       V2.Body hreq = Some body /\
       Json.field "objects" body = Some Json.Null) /\
  map (fun s => Json.Str (Utf8.coerce s)) ["news"; "sport"]
    = [Json.Str "news"; Json.Str "sport"].
Proof.
  destruct payload_fields as (H2 & H3 & _ & Hall).
  split; [ | split ].
  - eexists. split; [reflexivity | ].
    destruct (H3 Mock.init Mock.accept3 (Mock.decodeAs (Mock.purged3 201)) None
                (Mock.store3 201 "{}"
                   (V3.mkPurgeRequest "tag" "delete" "staging" "example.com"
                      (Some ["news"; "sport"]))) _ (or_introl eq_refl))
      as [[] | (body & Hb & Ht & _ & _ & Hh & Ho)].
    exists body. auto.
  - eexists. split; [reflexivity | ].
    destruct (H2 Mock.accept (Mock.decodeAs (Mock.purged2 201)) Mock.now
                (Mock.client2 201 "{}") (Some Mock.ctx)
                (Mock.store2 (V2.NewPurgeRequest None)) _ (or_introl eq_refl))
      as [[] | (body & Hb & _ & Ho)].
    exists body. auto.
  - apply (Hall ["news"; "sport"]). repeat constructor.
Defined.

(** ** A v3 call that fails before the transport *)

(** X10: when the v3 client has no configuration and [edgegrid.Init]
    fails, Purge returns no value and the error "error reading edgegrid
    configuration: " followed by the message, and the client stays without a
    configuration.  When [client.NewRequest] rejects the request, Purge does
    not return: [client.NewJSONRequest], called with Purge's payload, loses
    the error and panics on the nil request; the configuration is on the
    client by then.  In both cases nothing is handed to the transport, and
    the defaults have already been written into the caller's request. *)
Theorem v3_failure_before_sending :
  (forall init build_err decP ctx st err,
     result (V3.config init) st = inl err ->
     V3.Purge init build_err decP ctx st
       = ((None,
           Some (V3.Errorf ("error reading edgegrid configuration: " ++ err))),
          V3.defaulted st)) /\
  (forall init build_err decP ctx st cfg err,
     result (V3.config init) st = inr cfg ->
     build_err cfg "POST" (V3.Path (V3.withDefaults (V3.request st)))
       (Some (V3.encodePurgeRequest (V3.withDefaults (V3.request st))))
       = Some err ->
     let st' := final (V3.Purge init build_err decP ctx) st in
     result (V3.Purge init build_err decP ctx) st = (None, None) /\
     V3.trace st'
       = (V3.trace st
            ++ [V3.EvPanic
                  "runtime error: invalid memory address or nil pointer dereference"])%list /\
     V3.request st' = V3.withDefaults (V3.request st) /\
     V3.Config (V3.client st') = Some cfg).
Proof.
  split.
  - intros init build_err decP ctx st err Hc.
    rewrite V3_Purge_after_defaults. unfold bind at 1.
    rewrite V3_newHTTPRequest_eq, V3_config_defaulted.
    unfold result in Hc. rewrite Hc. unfold V3.fail, ret. f_equal.
    change (snd (V3.config init (V3.defaulted st)))
      with (final (V3.config init) (V3.defaulted st)).
    rewrite V3_config_final. unfold result. rewrite Hc.
    unfold V3.defaulted. destruct (V3.Config (V3.client st)); reflexivity.
  - intros init build_err decP ctx st cfg err Hc Hb st'.
    split; [ | split; [ | split ] ].
    + unfold result. rewrite V3_Purge_after_defaults. unfold bind at 1.
      rewrite V3_newHTTPRequest_eq, V3_config_defaulted.
      unfold result in Hc. rewrite Hc, Hb. reflexivity.
    + unfold st'. rewrite V3_Purge_final, Hc, Hb.
      unfold final, V3.emit. simpl.
      change (snd (V3.config init (V3.defaulted st)))
        with (final (V3.config init) (V3.defaulted st)).
      now rewrite V3_config_final.
    + unfold st'. rewrite V3_Purge_final, Hc, Hb.
      unfold final, V3.emit. simpl.
      change (snd (V3.config init (V3.defaulted st)))
        with (final (V3.config init) (V3.defaulted st)).
      now rewrite V3_config_final.
    + now apply V3_Purge_config_after.
Qed.

(** A client without [.edgerc], and a network that does not parse. *)
Lemma v3_failure_before_sending_witness :
  let st := Mock.store3 201 "{}" Mock.cpcode3 in
  let st2 := Mock.store3 201 "{}" Failing.escape3 in
  V3.Purge Failing.init Mock.accept3 (Mock.decodeAs (Mock.purged3 201)) None st
    = ((None,
        Some (V3.Errorf ("error reading edgegrid configuration: "
                ++ "open .edgerc: no such file or directory"))),
       V3.defaulted st) /\
  result (V3.Purge Mock.init Failing.reject3 (Mock.decodeAs (Mock.purged3 201))
            None) st2 = (None, None) /\
  V3.sent (V3.trace (final (V3.Purge Mock.init Failing.reject3
            (Mock.decodeAs (Mock.purged3 201)) None) st2)) = [].
Proof.
  intros st st2. destruct v3_failure_before_sending as [H1 H2].
  split; [ | split ].
  - exact (H1 Failing.init Mock.accept3 (Mock.decodeAs (Mock.purged3 201)) None
             st _ eq_refl).
  - exact (proj1 (H2 Mock.init Failing.reject3 (Mock.decodeAs (Mock.purged3 201))
                    None st2 _ _ eq_refl eq_refl)).
  - destruct (H2 Mock.init Failing.reject3 (Mock.decodeAs (Mock.purged3 201))
                None st2 _ _ eq_refl eq_refl) as (_ & Ht & _).
    rewrite Ht. reflexivity.
Defined.

(** ** Signing and context of a v3 request *)

(** X16: every request the v3 Purge hands to the transport has had the
    edgegrid signature header added, was built and signed under the very
    configuration the client holds after the call, and carries the caller's
    context, or none when the caller passed nil. *)
Theorem v3_request_signed init build_err decP ctx st hreq :
  let st' := final (V3.Purge init build_err decP ctx) st in
  In hreq (V3.sent (V3.trace st')) ->
  In hreq (V3.sent (V3.trace st)) \/
  (V3.Signed hreq = true /\
   V3.Context hreq = ctx /\
   V3.Config (V3.client st') = Some (V3.rq_Config hreq)).
Proof.
  intros st' Hin.
  destruct (V3_Purge_effect init build_err decP ctx st) as [_ Hs].
  fold st' in Hs. rewrite Hs in Hin. apply in_app_or in Hin.
  destruct Hin as [Hin | Hin]; [now left | right].
  destruct (result (V3.config init) st) as [e | cfg] eqn:Hc; [destruct Hin | ].
  destruct (build_err _ _ _ _); [destruct Hin | ].
  destruct Hin as [<- | []].
  split; [reflexivity | split; [reflexivity | ] ].
  now apply V3_Purge_config_after.
Qed.

(** A purge bound to a context. *)
Lemma v3_request_signed_witness :
  exists hreq,
    V3.sent (V3.trace (final (V3.Purge Mock.init Mock.accept3
        (Mock.decodeAs (Mock.purged3 201)) (Some Mock.ctx))
        (Mock.store3 201 "{}" Mock.cpcode3))) = [hreq] /\
    V3.Signed hreq = true /\ V3.Context hreq = Some Mock.ctx.
Proof.
  eexists. split; [reflexivity | ].
  destruct (v3_request_signed Mock.init Mock.accept3
              (Mock.decodeAs (Mock.purged3 201)) (Some Mock.ctx)
              (Mock.store3 201 "{}" Mock.cpcode3) _ (or_introl eq_refl))
    as [[] | (Hs & Hc & _)].
  split; [exact Hs | exact Hc].
Defined.
